(** * UNAV admissions pipeline: the temporal-integrity transformations

    A shallow embedding of [notebooks/utils.py] and of the derived-ratio and
    leakage-control steps of [notebooks/01_limpieza_datasets.py].

    A pandas [DataFrame] is modelled column-major, as pandas stores it: an
    index (one label per row) and an ordered list of named columns.  A cell
    is a [value].  Failing pandas and Python operations return [Raise].
    Writes into a table that the caller passed in are made explicit: such a
    function returns the caller's table as it is left after the call next to
    the table it returns. *)

From Stdlib Require Import ZArith String Ascii Bool Lia Floats.
From Stdlib Require Import List.
From Stdlib Require Import Sorting.Permutation Sorting.Sorted.
Import ListNotations.
Local Open Scope string_scope.
Local Open Scope list_scope.

(** ** Cells *)

(** [VNull] stands for every missing marker of pandas (NaN, None, NaT).
    [VTime t] is a [datetime64[ns]] timestamp, [t] nanoseconds after the
    epoch.  A column is read by its cells: integers alone are an [int64]
    column, floats and missing cells a [float64] column, timestamps and
    missing cells a [datetime64[ns]] column, and a column that holds text
    is an [object] column.  The predicates on columns further down
    ([columna_de_texto], [numero64], [en_rango], [sin_enteros]) name the
    columns on which a statement is made. *)
Inductive value : Type :=
| VNull
| VStr (s : string)
| VInt (z : Z)
| VFloat (f : float)
| VTime (t : Z).

Definition Series := list value.

Definition isna (v : value) : bool :=
  match v with
  | VNull => true
  | VFloat f => PrimFloat.is_nan f
  | _ => false
  end.

Definition notna (v : value) : bool := negb (isna v).

(** Equality of two cells as keys of a hash table ([unique], [isin], [set],
    [merge], [groupby]): equal values, and a missing key matches a missing
    key.  Cells of two kinds are two keys: that Python takes an integer
    and the float of the same value for one key is not modelled, and the
    joins and labels are stated for text keys. *)
Definition value_same (a b : value) : bool :=
  match a, b with
  | VNull, VNull => true
  | VNull, VFloat f | VFloat f, VNull => PrimFloat.is_nan f
  | VStr x, VStr y => String.eqb x y
  | VInt x, VInt y => Z.eqb x y
  | VFloat x, VFloat y =>
      PrimFloat.eqb x y || (PrimFloat.is_nan x && PrimFloat.is_nan y)
  | VTime x, VTime y => Z.eqb x y
  | _, _ => false
  end.

(** Python's [==] on two cells, as numpy applies it element by element: a
    missing value equals nothing, itself included.  Cells of two kinds are
    unequal, as a text is to every cell that is not a text; Python's numeric
    equality of an integer and a float is not modelled. *)
Definition py_eq (a b : value) : bool :=
  match a, b with
  | VStr x, VStr y => String.eqb x y
  | VInt x, VInt y => Z.eqb x y
  | VFloat x, VFloat y => PrimFloat.eqb x y
  | VTime x, VTime y => Z.eqb x y
  | _, _ => false
  end.

(** A cell that can serve as an identity key with exact equality: present
    and not a floating-point number. *)
Definition is_key (v : value) : bool :=
  match v with
  | VStr _ | VInt _ | VTime _ => true
  | VNull | VFloat _ => false
  end.

(** ** Exceptions *)

Inductive exn : Type :=
| KeyError (missing : list string)
| ZeroDivisionError
| TypeError
| ValueError.

(** The class name of an exception and the field names its message shows. *)
Definition exn_class (e : exn) : string :=
  match e with
  | KeyError _ => "KeyError"
  | ZeroDivisionError => "ZeroDivisionError"
  | TypeError => "TypeError"
  | ValueError => "ValueError"
  end.

Definition exn_names (e : exn) : list string :=
  match e with
  | KeyError missing => missing
  | _ => []
  end.

Inductive result (A : Type) : Type :=
| Ok (a : A)
| Raise (e : exn).
Arguments Ok {A} a.
Arguments Raise {A} e.

Definition bind {A B : Type} (m : result A) (k : A -> result B) : result B :=
  match m with
  | Ok a => k a
  | Raise e => Raise e
  end.

Notation "x <- m ;; k" := (bind m (fun x => k))
  (at level 61, m at next level, right associativity).

Fixpoint mapM {A B : Type} (f : A -> result B) (l : list A) : result (list B) :=
  match l with
  | [] => Ok []
  | x :: r => y <- f x ;; ys <- mapM f r ;; Ok (y :: ys)
  end.

(** ** Series and masks *)

Fixpoint mask_filter {A : Type} (m : list bool) (s : list A) : list A :=
  match m, s with
  | b :: m', x :: s' => if b then x :: mask_filter m' s' else mask_filter m' s'
  | _, _ => []
  end.

Fixpoint map2 {A B C : Type} (f : A -> B -> C) (a : list A) (b : list B)
  : list C :=
  match a, b with
  | x :: a', y :: b' => f x y :: map2 f a' b'
  | _, _ => []
  end.

Definition mask_and : list bool -> list bool -> list bool := map2 andb.
Definition mask_or : list bool -> list bool -> list bool := map2 orb.
Definition mask_not : list bool -> list bool := map negb.

(** [s == v] *)
Definition series_eq (s : Series) (v : value) : list bool :=
  map (fun x => py_eq x v) s.

(** [Series.unique()]: the distinct values in order of first appearance. *)
Fixpoint unique (s : Series) : Series :=
  match s with
  | [] => []
  | x :: r => x :: filter (fun y => negb (value_same x y)) (unique r)
  end.

(** [x in arr] for a numpy array: [(arr == x).any()]. *)
Definition ndarray_contains (arr : Series) (x : value) : bool :=
  existsb (fun y => py_eq y x) arr.

(** [x in s] for a Python set, and [Series.isin]. *)
Definition set_contains (s : Series) (x : value) : bool :=
  existsb (fun y => value_same y x) s.

Definition isin (s : Series) (values : Series) : list bool :=
  map (set_contains values) s.

(** [a / b] on Python integers (here: two lengths). *)
Definition py_truediv (a b : nat) : result unit :=
  if Nat.eqb b 0 then Raise ZeroDivisionError else Ok tt.

(** ** Data frames *)

Record DataFrame : Type := mkDF {
  index : list Z;
  columns : list (string * Series)
}.

Definition colnames (df : DataFrame) : list string := map fst (columns df).

Definition nrows (df : DataFrame) : nat := length (index df).

Fixpoint assoc (c : string) (l : list (string * Series)) : option Series :=
  match l with
  | [] => None
  | (c', s) :: r => if String.eqb c c' then Some s else assoc c r
  end.

Fixpoint assoc_set (c : string) (s : Series) (l : list (string * Series))
  : list (string * Series) :=
  match l with
  | [] => [(c, s)]
  | (c', s') :: r =>
      if String.eqb c c' then (c', s) :: r else (c', s') :: assoc_set c s r
  end.

(** [df[c]] *)
Definition getitem (df : DataFrame) (c : string) : result Series :=
  match assoc c (columns df) with
  | Some s => Ok s
  | None => Raise (KeyError [c])
  end.

(** [df[c] = s]: replaces the column where it stands, or appends it. *)
Definition setitem (df : DataFrame) (c : string) (s : Series) : DataFrame :=
  mkDF (index df) (assoc_set c s (columns df)).

(** [df[mask]] *)
Definition filter_rows (m : list bool) (df : DataFrame) : DataFrame :=
  mkDF (mask_filter m (index df))
       (map (fun cs => (fst cs, mask_filter m (snd cs))) (columns df)).

(** The cell of column [c] in the row at position [i]. *)
Definition cell (df : DataFrame) (c : string) (i : nat) : option value :=
  match assoc c (columns df) with
  | Some s => nth_error s i
  | None => None
  end.

(** Every column has one cell per row. *)
Definition well_formed (df : DataFrame) : Prop :=
  Forall (fun cs => length (snd cs) = nrows df) (columns df).

(** ** Target Labeler *)

(** [crear_target(oportunidad, historial_etapas)].  The two [print] calls
    are kept for the divisions their arguments evaluate; the text they write
    is not modelled.  The function writes the column [target] into the
    caller's [oportunidad] and returns that same table. *)
Definition crear_target (oportunidad historial_etapas : DataFrame)
  : result DataFrame :=
  etapa <- getitem historial_etapas "PL_Etapa__c" ;;
  subetapa <- getitem historial_etapas "PL_Subetapa__c" ;;
  formalizadas <-
    getitem (filter_rows
               (mask_and (series_eq etapa (VStr "Matrícula OOGG"))
                         (series_eq subetapa (VStr "Formalizada")))
               historial_etapas) "LK_Oportunidad__c" ;;
  let matricula_formalizada := unique formalizadas in
  lk <- getitem historial_etapas "LK_Oportunidad__c" ;;
  _ <- py_truediv (length matricula_formalizada) (length (unique lk)) ;;
  subetapa' <- getitem historial_etapas "PL_Subetapa__c" ;;
  bajas <-
    getitem (filter_rows (series_eq subetapa' (VStr "Desmatriculado"))
               historial_etapas) "LK_Oportunidad__c" ;;
  let desmatriculado := unique bajas in
  _ <- py_truediv (length desmatriculado) (length matricula_formalizada) ;;
  ids <- getitem oportunidad "ID" ;;
  Ok (setitem oportunidad "target"
        (map (fun x =>
                VInt (if ndarray_contains matricula_formalizada x
                         && negb (ndarray_contains desmatriculado x)
                      then 1 else 0))
             ids)).

(** Python's [a - b] on two sets. *)
Definition set_difference (a b : Series) : Series :=
  filter (fun x => negb (set_contains b x)) a.

(** [crear_target_auditado(oportunidad, historial_etapas)].  The audit
    counters (common, orphan and filtered-out identifiers, duplicates) are
    only printed; the final rate divides a numpy integer, which yields NaN
    or infinity on a zero denominator and does not raise. *)
Definition crear_target_auditado (oportunidad historial_etapas : DataFrame)
  : result DataFrame :=
  _ <- getitem oportunidad "ID" ;;
  _ <- getitem historial_etapas "LK_Oportunidad__c" ;;
  etapa <- getitem historial_etapas "PL_Etapa__c" ;;
  subetapa <- getitem historial_etapas "PL_Subetapa__c" ;;
  formalizadas <-
    getitem (filter_rows
               (mask_and (series_eq etapa (VStr "Matrícula OOGG"))
                         (series_eq subetapa (VStr "Formalizada")))
               historial_etapas) "LK_Oportunidad__c" ;;
  let matricula_formalizada := unique formalizadas in
  subetapa' <- getitem historial_etapas "PL_Subetapa__c" ;;
  bajas <-
    getitem (filter_rows (series_eq subetapa' (VStr "Desmatriculado"))
               historial_etapas) "LK_Oportunidad__c" ;;
  let desmatriculado := unique bajas in
  let ids_target_1 := set_difference matricula_formalizada desmatriculado in
  ids <- getitem oportunidad "ID" ;;
  Ok (setitem oportunidad "target"
        (map (fun b : bool => VInt (if b then 1 else 0))
             (isin ids ids_target_1))).

(** What the claims about the label speak of: the identifier [x] occurs in
    the stage history in an event at row [i] with the given stage and
    sub-stage. *)
Definition event_at (historial_etapas : DataFrame) (i : nat)
    (x : value) (etapa : option string) (subetapa : string) : Prop :=
  cell historial_etapas "LK_Oportunidad__c" i = Some x /\
  cell historial_etapas "PL_Subetapa__c" i = Some (VStr subetapa) /\
  match etapa with
  | Some e => cell historial_etapas "PL_Etapa__c" i = Some (VStr e)
  | None => True
  end.

Definition formalized (historial_etapas : DataFrame) (x : value) : Prop :=
  exists i, event_at historial_etapas i x (Some "Matrícula OOGG") "Formalizada".

Definition unenrolled (historial_etapas : DataFrame) (x : value) : Prop :=
  exists i, event_at historial_etapas i x None "Desmatriculado".

(** The identifiers the labeler collects: those of the events at the
    formalized-enrollment sub-stage, and those of the unenrolled events. *)
Definition formalizadas_de (etapa subetapa lk : Series) : Series :=
  mask_filter (mask_and (series_eq etapa (VStr "Matrícula OOGG"))
                        (series_eq subetapa (VStr "Formalizada"))) lk.

Definition bajas_de (subetapa lk : Series) : Series :=
  mask_filter (series_eq subetapa (VStr "Desmatriculado")) lk.

(** The label the specification prescribes for the identifier [x], read off
    a [target] cell [t]: 1 exactly when [x] reached the formalized enrollment
    and never the unenrolled sub-stage, 0 otherwise. *)
Definition labelled (historial_etapas : DataFrame) (x : value)
    (t : option value) : Prop :=
  (t = Some (VInt 1) /\
   formalized historial_etapas x /\ ~ unenrolled historial_etapas x) \/
  (t = Some (VInt 0) /\
   ~ (formalized historial_etapas x /\ ~ unenrolled historial_etapas x)).

(** ** Library functions taken as parameters *)

(** The text and date functions of Python and pandas that the code calls on
    cell contents.  [str_icontains k t] is the case-insensitive search of a
    literal keyword [k] in the text [t] ([re.search(k, t, re.IGNORECASE)]
    for a keyword without regular-expression operators).  [parse_datetime]
    is [pd.to_datetime] on a cell that is neither missing nor already a
    timestamp; [None] when pandas rejects it. *)
Class PyLib : Type := {
  str_lower : string -> string;
  str_strip : string -> string;
  str_icontains : string -> string -> bool;
  parse_datetime : value -> option Z
}.

(** ** Dates *)

Definition to_datetime_cell `{PyLib} (v : value) : result value :=
  if isna v then Ok VNull
  else match v with
       | VTime t => Ok (VTime t)
       | _ => match parse_datetime v with
              | Some t => Ok (VTime t)
              | None => Raise ValueError
              end
       end.

(** [pd.to_datetime(s)] *)
Definition to_datetime `{PyLib} (s : Series) : result Series :=
  mapM to_datetime_cell s.

Definition ns_per_day : Z := 86400000000000.

(** [a - b] on two timestamps: a [timedelta64[ns]], kept as its count of
    nanoseconds; missing when either side is.  The count is the one of
    pandas as long as it fits its 64 bits, which [en_rango] on the two
    columns ensures; pandas raises [OverflowError] beyond. *)
Definition datetime_sub (a b : value) : value :=
  match a, b with
  | VTime x, VTime y => VInt (x - y)
  | _, _ => VNull
  end.

(** A timestamp within 2^62 nanoseconds of the epoch (the years 1824 to
    2116): the difference of two such timestamps fits a [timedelta64[ns]]. *)
Definition en_rango (v : value) : bool :=
  match v with
  | VTime t => Z.leb (- 2 ^ 62) t && Z.ltb t (2 ^ 62)
  | _ => true
  end.

(** [.dt.days] of a timedelta: the whole days, rounded toward minus
    infinity. *)
Definition dt_days (d : value) : value :=
  match d with
  | VInt ns => VInt (ns / ns_per_day)
  | _ => VNull
  end.

(** [.fillna(v)] *)
Definition fillna (v : value) (x : value) : value := if isna x then v else x.

(** [a < b] on two datetime columns: false when either side is missing. *)
Definition datetime_lt (a b : value) : bool :=
  match a, b with
  | VTime x, VTime y => Z.ltb x y
  | _, _ => false
  end.

(** ** Sorting *)

Fixpoint insert_sorted {A : Type} (leb : A -> A -> bool) (x : A) (l : list A)
  : list A :=
  match l with
  | [] => [x]
  | y :: r => if leb x y then x :: y :: r else y :: insert_sorted leb x r
  end.

(** A stable sort: equal elements keep their order. *)
Fixpoint isort {A : Type} (leb : A -> A -> bool) (l : list A) : list A :=
  match l with
  | [] => []
  | x :: r => insert_sorted leb x (isort leb r)
  end.

Definition kind_rank (v : value) : Z :=
  match v with
  | VInt _ | VFloat _ => 0
  | VTime _ => 1
  | VStr _ => 2
  | VNull => 3
  end.

(** The ascending order of cells, missing values last. *)
Definition value_leb (a b : value) : bool :=
  if isna b then true
  else if isna a then false
  else match a, b with
       | VStr x, VStr y => String.leb x y
       | VInt x, VInt y => Z.leb x y
       | VTime x, VTime y => Z.leb x y
       | VFloat x, VFloat y => PrimFloat.leb x y
       | _, _ => Z.leb (kind_rank a) (kind_rank b)
       end.

(** Rows compared by their sort keys, first key first. *)
Fixpoint lex_leb (a b : list value) : bool :=
  match a, b with
  | x :: a', y :: b' =>
      if value_leb x y then (if value_leb y x then lex_leb a' b' else true)
      else false
  | _, _ => true
  end.

(** A key column can be ordered when its present cells are of one kind. *)
Definition sortable (s : Series) : bool :=
  match filter notna s with
  | [] => true
  | v :: r => forallb (fun w => Z.eqb (kind_rank w) (kind_rank v)) r
  end.

Definition take (s : Series) (rows : list nat) : Series :=
  map (fun i => nth i s VNull) rows.

Definition take_rows (df : DataFrame) (rows : list nat) : DataFrame :=
  mkDF (map (fun i => nth i (index df) 0%Z) rows)
       (map (fun cs => (fst cs, take (snd cs) rows)) (columns df)).

Definition row_keys (keys : list Series) (i : nat) : list value :=
  map (fun s => nth i s VNull) keys.

(** The positions of the rows in sorted order. *)
Definition sort_order (keys : list Series) (n : nat) : list nat :=
  isort (fun i j => lex_leb (row_keys keys i) (row_keys keys j)) (seq 0 n).

(** [df.sort_values(by=...)]: ascending, stable, missing keys last; the row
    labels travel with the rows. *)
Definition sort_values (df : DataFrame) (by_ : list string) : result DataFrame :=
  keys <- mapM (getitem df) by_ ;;
  if forallb sortable keys
  then Ok (take_rows df (sort_order keys (nrows df)))
  else Raise TypeError.

(** [df.groupby(keys)[vals].shift(-1)]: for each row the value of the next
    row of the same group; rows with a missing key belong to no group. *)
Fixpoint next_in_group (k : value) (keys vals : Series) : value :=
  match keys, vals with
  | k' :: keys', v :: vals' =>
      if value_same k k' then v else next_in_group k keys' vals'
  | _, _ => VNull
  end.

Fixpoint groupby_shift_next (keys vals : Series) : Series :=
  match keys, vals with
  | k :: keys', v :: vals' =>
      (if isna k then VNull else next_in_group k keys' vals')
        :: groupby_shift_next keys' vals'
  | _, _ => []
  end.

(** ** Temporal Stage Calculator *)

(** What a call leaves behind: the caller's table after the call and the
    table returned. *)
Record Tiempos : Type := mkTiempos {
  historial_del_llamador : DataFrame;
  historial_con_tiempos : DataFrame
}.

(** [(a - b).dt.days.fillna(0).astype(int)] *)
Definition dias_entre (a b : Series) : Series :=
  map (fun d => fillna (VInt 0) (dt_days d)) (map2 datetime_sub a b).

(** [calcular_tiempos_etapas(historial_etapas)].  The two date conversions
    are assigned into the table the caller passed; [sort_values] then binds
    the name to a new table, which receives the two derived columns. *)
Definition calcular_tiempos_etapas `{PyLib} (historial_etapas : DataFrame)
  : result Tiempos :=
  created <- getitem historial_etapas "CreatedDate" ;;
  created <- to_datetime created ;;
  let historial_etapas := setitem historial_etapas "CreatedDate" created in
  fin <- getitem historial_etapas "Fecha_fin_etapa__c" ;;
  fin <- to_datetime fin ;;
  let historial_etapas := setitem historial_etapas "Fecha_fin_etapa__c" fin in
  ordenado <- sort_values historial_etapas ["LK_Oportunidad__c"; "CreatedDate"] ;;
  fin <- getitem ordenado "Fecha_fin_etapa__c" ;;
  created <- getitem ordenado "CreatedDate" ;;
  let ordenado := setitem ordenado "tiempo_etapa_dias" (dias_entre fin created) in
  lk <- getitem ordenado "LK_Oportunidad__c" ;;
  created <- getitem ordenado "CreatedDate" ;;
  let fecha_siguiente := groupby_shift_next lk created in
  created <- getitem ordenado "CreatedDate" ;;
  let ordenado :=
    setitem ordenado "tiempo_entre_etapas_dias"
      (dias_entre fecha_siguiente created) in
  Ok (mkTiempos historial_etapas ordenado).

(** ** Selecting, merging and grouping *)

Definition mem (c : string) (l : list string) : bool := existsb (String.eqb c) l.

Definition has_col (df : DataFrame) (c : string) : bool := mem c (colnames df).

Definition column_or_empty (df : DataFrame) (c : string) : Series :=
  match assoc c (columns df) with
  | Some s => s
  | None => []
  end.

(** [df[[c1, ..., cn]]]: the error names every column that is not there. *)
Definition getitems (df : DataFrame) (cs : list string) : result DataFrame :=
  match filter (fun c => negb (has_col df c)) cs with
  | [] => Ok (mkDF (index df) (map (fun c => (c, column_or_empty df c)) cs))
  | missing => Raise (KeyError missing)
  end.

(** [df.drop(columns=cs)] *)
Definition drop_columns (df : DataFrame) (cs : list string) : result DataFrame :=
  match filter (fun c => negb (has_col df c)) cs with
  | [] => Ok (mkDF (index df)
                (filter (fun p => negb (mem (fst p) cs)) (columns df)))
  | missing => Raise (KeyError missing)
  end.

(** The default index 0, 1, ..., n-1. *)
Definition range_index (n : nat) : list Z := map Z.of_nat (seq 0 n).

(** [df.reset_index()] on a table whose index has no name: the labels become
    the first column, called [index], or [level_0] when [index] is taken. *)
Definition reset_index (df : DataFrame) : result DataFrame :=
  let name := if has_col df "index" then "level_0" else "index" in
  if has_col df name then Raise ValueError
  else Ok (mkDF (range_index (nrows df))
             ((name, map VInt (index df)) :: columns df)).

(** [df.rename(columns={old: new})] *)
Definition rename_column (df : DataFrame) (old new : string) : DataFrame :=
  mkDF (index df)
       (map (fun cs => (if String.eqb (fst cs) old then new else fst cs, snd cs))
            (columns df)).

Inductive how : Type := Inner | Left.

Fixpoint keys_same (a b : list value) : bool :=
  match a, b with
  | [], [] => true
  | x :: a', y :: b' => value_same x y && keys_same a' b'
  | _, _ => false
  end.

(** The rows of the right table whose keys match row [i] of the left. *)
Definition matches (lkeys rkeys : list Series) (nr i : nat) : list nat :=
  filter (fun j => keys_same (row_keys lkeys i) (row_keys rkeys j)) (seq 0 nr).

(** The joined pairs, in the order of the left rows; a left row without a
    match is kept alone by a left join. *)
Definition merge_pairs (h : how) (lkeys rkeys : list Series) (nl nr : nat)
  : list (nat * option nat) :=
  flat_map (fun i =>
              match matches lkeys rkeys nr i, h with
              | [], Left => [(i, None)]
              | js, _ => map (fun j => (i, Some j)) js
              end)
           (seq 0 nl).

Definition take_opt (s : Series) (rows : list (option nat)) : Series :=
  map (fun o => match o with Some j => nth j s VNull | None => VNull end) rows.

Definition suffixed (overlap : list string) (suffix c : string) : string :=
  if mem c overlap then c ++ suffix else c.

(** [pd.merge(left, right, left_on=..., right_on=..., how=...)]; with equal
    names on both sides this is [on=...], and the key column appears once.
    A column name present on both sides gets the suffixes [_x] and [_y].
    The key columns of the two sides are of one kind (pandas refuses to
    join a text key with a number), and the cells are kept as they are: the
    statements are about text keys and, where they speak of a joined cell,
    about columns without integers, which a missing value would turn to
    floats. *)
Definition merge (left right : DataFrame) (left_on right_on : list string)
    (h : how) : result DataFrame :=
  keys <- mapM (fun p => rk <- getitem right (snd p) ;;
                         lk <- getitem left (fst p) ;;
                         Ok (lk, rk))
               (combine left_on right_on) ;;
  let pairs :=
    merge_pairs h (map fst keys) (map snd keys) (nrows left) (nrows right) in
  let shared :=
    map fst (filter (fun p => String.eqb (fst p) (snd p))
               (combine left_on right_on)) in
  let right_cols :=
    filter (fun cs => negb (mem (fst cs) shared)) (columns right) in
  let overlap := filter (fun c => mem c (map fst right_cols)) (colnames left) in
  Ok (mkDF (range_index (length pairs))
        (map (fun cs => (suffixed overlap "_x" (fst cs),
                         take (snd cs) (map fst pairs)))
             (columns left)
         ++
         map (fun cs => (suffixed overlap "_y" (fst cs),
                         take_opt (snd cs) (map snd pairs)))
             right_cols)).

(** The groups of a [groupby]: the distinct present keys, in ascending
    order.  The order of the groups reaches the result of no caller. *)
Definition group_keys (keys : Series) : Series :=
  isort value_leb (unique (filter notna keys)).

(** The cells of [vals] in the rows of the group [k]. *)
Definition group_cells (keys vals : Series) (k : value) : Series :=
  mask_filter (map (value_same k) keys) vals.

(** [min] of a column, missing cells skipped; missing when none is present. *)
Fixpoint series_min (s : Series) : value :=
  match s with
  | [] => VNull
  | v :: r =>
      let m := series_min r in
      if isna v then m
      else if isna m then v
      else if value_leb v m then v else m
  end.

Definition int_of (v : value) : Z :=
  match v with
  | VInt z => z
  | _ => 0%Z
  end.

(** [sum] of an integer column. *)
Definition series_sum (s : Series) : value :=
  VInt (fold_right Z.add 0%Z (map int_of s)).

(** [df.groupby(key)[val].min().reset_index()] *)
Definition groupby_min (df : DataFrame) (key val : string) : result DataFrame :=
  keys <- getitem df key ;;
  vals <- getitem df val ;;
  let ks := group_keys keys in
  Ok (mkDF (range_index (length ks))
        [(key, ks); (val, map (fun k => series_min (group_cells keys vals k)) ks)]).

(** [df.groupby(key).agg(out1=(in1, 'sum'), ...).reset_index()] *)
Definition groupby_sum (df : DataFrame) (key : string)
    (aggs : list (string * string)) : result DataFrame :=
  keys <- getitem df key ;;
  let ks := group_keys keys in
  sums <- mapM (fun a => vals <- getitem df (snd a) ;;
                         Ok (fst a, map (fun k => series_sum (group_cells keys vals k)) ks))
               aggs ;;
  Ok (mkDF (range_index (length ks)) ((key, ks) :: sums)).

(** [df.columns = names] *)
Definition set_columns (df : DataFrame) (names : list string) : DataFrame :=
  mkDF (index df) (combine names (map snd (columns df))).

(** The masked cells of a column set to [v]; the other cells stay. *)
Fixpoint mask_assign (m : list bool) (v : value) (s : Series) : Series :=
  match s, m with
  | x :: s', b :: m' => (if b then v else x) :: mask_assign m' v s'
  | _, _ => s
  end.

(** [df.loc[mask, cs] = v]: a column of [cs] that the table lacks is first
    added, all missing.  The cells outside the mask are kept as they are,
    which is what pandas does on a column without integers
    ([sin_enteros]). *)
Definition loc_set (df : DataFrame) (m : list bool) (cs : list string)
    (v : value) : DataFrame :=
  let df :=
    fold_left (fun d c => if has_col d c then d
                          else setitem d c (repeat VNull (nrows d)))
              cs df in
  mkDF (index df)
       (map (fun p => if mem (fst p) cs
                      then (fst p, mask_assign m v (snd p)) else p)
            (columns df)).

(** [df.notna().any(axis=1)] *)
Definition any_notna (df : DataFrame) : list bool :=
  map (fun i => existsb (fun cs => notna (nth i (snd cs) VNull)) (columns df))
      (seq 0 (nrows df)).

(** ** Milestone-based leakage control *)

Definition cols_academicas : list string :=
  ["NU_NOTA_MEDIA_ADMISION"; "CH_PRUEBAS_CALIFICADAS";
   "NU_RESULTADO_ADMISION_PUNTOS"; "PL_RESOLUCION_DEFINITIVA"].

Definition cols_economicas : list string :=
  ["MINIMUMPAYMENTPAYED"; "PAID_AMOUNT"; "PAID_PERCENT"; "CH_PAGO_SUPERIOR";
   "CH_MATRICULA_SUJETA_BECA"; "CH_AYUDA_FINANCIACION"; "CU_IMPORTE_TOTAL"].

(** The date of a milestone per opportunity: the earliest [CreatedDate] of
    its events at the given stage and sub-stage, under the column name
    [nombre]. *)
Definition hito (df_historial : DataFrame) (etapa subetapa nombre : string)
  : result DataFrame :=
  e <- getitem df_historial "PL_Etapa__c" ;;
  s <- getitem df_historial "PL_Subetapa__c" ;;
  g <- groupby_min
         (filter_rows (mask_and (series_eq e (VStr etapa))
                                (series_eq s (VStr subetapa)))
            df_historial)
         "LK_Oportunidad__c" "CreatedDate" ;;
  Ok (set_columns g ["LK_Oportunidad__c"; nombre]).

(** [isna(fecha) | (CreatedDate < fecha)] *)
Definition mask_hito (df_final : DataFrame) (nombre : string)
  : result (list bool) :=
  fecha <- getitem df_final nombre ;;
  created <- getitem df_final "CreatedDate" ;;
  fecha' <- getitem df_final nombre ;;
  Ok (mask_or (map isna fecha) (map2 datetime_lt created fecha')).

Record Hitos : Type := mkHitos {
  df_historial_del_llamador : DataFrame;
  df_final : DataFrame
}.

(** [limpiar_historial_por_hitos(df_historial, df_principal)].  The date
    conversion is assigned into the caller's history table. *)
Definition limpiar_historial_por_hitos `{PyLib}
    (df_historial df_principal : DataFrame) : result Hitos :=
  created <- getitem df_historial "CreatedDate" ;;
  created <- to_datetime created ;;
  let df_historial := setitem df_historial "CreatedDate" created in
  hito_acad <- hito df_historial "Pruebas de admisión" "Pruebas calificadas"
                 "fecha_pruebas_calificadas" ;;
  hito_econ <- hito df_historial "Matrícula admisión" "Pago Mínimo"
                 "fecha_matricula_iniciada" ;;
  df_merge <- merge df_historial hito_acad
                ["LK_Oportunidad__c"] ["LK_Oportunidad__c"] Left ;;
  df_merge <- merge df_merge hito_econ
                ["LK_Oportunidad__c"] ["LK_Oportunidad__c"] Left ;;
  df_final <- merge df_merge df_principal ["LK_Oportunidad__c"] ["ID"] Left ;;
  mask_acad <- mask_hito df_final "fecha_pruebas_calificadas" ;;
  let df_final := loc_set df_final mask_acad cols_academicas VNull in
  mask_econ <- mask_hito df_final "fecha_matricula_iniciada" ;;
  let df_final := loc_set df_final mask_econ cols_economicas VNull in
  Ok (mkHitos df_historial df_final).

(** ** Progressive Activity Aggregator *)

Definition keywords_excluir : list string :=
  ["mail"; "email"; "whatsapp"; "masivo"; "comunicación"; "envío"].

Definition col_tipo_act : string := "Campaign.LK_tipoActividadPromocion__r.Name".

(** [s.str.strip()] and [s.str.lower()] on an object column: a cell that is
    not text gives a missing value.  The accessor [.str] exists on columns
    that hold text ([columna_de_texto]); on another column pandas raises
    [AttributeError], and the statements are about the former. *)
Definition series_str_strip `{PyLib} (s : Series) : Series :=
  map (fun v => match v with VStr t => VStr (str_strip t) | _ => VNull end) s.

Definition series_str_lower `{PyLib} (s : Series) : Series :=
  map (fun v => match v with VStr t => VStr (str_lower t) | _ => VNull end) s.

(** [s.str.contains(patron, case=False, na=False)] where [patron] is
    ['|'.join(keywords)], the alternation of the literal keywords. *)
Definition series_str_contains `{PyLib} (keywords : list string) (s : Series)
  : list bool :=
  map (fun v => match v with
                | VStr t => existsb (fun k => str_icontains k t) keywords
                | _ => false
                end) s.

(** [s != v] *)
Definition series_ne (s : Series) (v : value) : list bool :=
  map (fun x => negb (py_eq x v)) s.

(** [.astype(int)] of a boolean column. *)
Definition astype_int (m : list bool) : Series :=
  map (fun b : bool => VInt (if b then 1 else 0)) m.

Record Integracion : Type := mkIntegracion {
  df_master_del_llamador : DataFrame;
  df_actividades_del_llamador : DataFrame;
  resultado : DataFrame
}.

(** [integrar_actividades_progresivo_por_curso(df_master, df_actividades)].
    The filtered activities are a copy; [MasterDate] is assigned into the
    table the caller passed, before [reset_index] binds the name to a new
    table. *)
Definition integrar_actividades_progresivo_por_curso `{PyLib}
    (df_master df_actividades : DataFrame) : result Integracion :=
  tipo <- getitem df_actividades col_tipo_act ;;
  let df_act_clean :=
    filter_rows
      (mask_and (mask_and (map notna tipo)
                          (series_ne (series_str_strip tipo) (VStr "")))
                (mask_not (series_str_contains keywords_excluir tipo)))
      df_actividades in
  fecha <- getitem df_act_clean "CreatedDate" ;;
  fecha <- to_datetime fecha ;;
  let df_act_clean := setitem df_act_clean "ActivityDate" fecha in
  fecha_m <- getitem df_master "CreatedDate" ;;
  fecha_m <- to_datetime fecha_m ;;
  let df_master := setitem df_master "MasterDate" fecha_m in
  let del_llamador := df_master in
  estado <- getitem df_act_clean "Estado_del_miembro__c" ;;
  let df_act_clean :=
    setitem df_act_clean "status_lower" (series_str_lower estado) in
  df_master <- reset_index df_master ;;
  let df_master := rename_column df_master "index" "fila_id_unico" in
  izquierda <- getitems df_master
                 ["fila_id_unico"; "ID18__PC"; "MasterDate"; "PL_CURSO_ACADEMICO"] ;;
  derecha <- getitems df_act_clean
               ["ContactId"; "ActivityDate"; "status_lower";
                "Campaign.AcademicCourse__c"] ;;
  df_joined <- merge izquierda derecha
                 ["ID18__PC"; "PL_CURSO_ACADEMICO"]
                 ["ContactId"; "Campaign.AcademicCourse__c"] Inner ;;
  activity_date <- getitem df_joined "ActivityDate" ;;
  master_date <- getitem df_joined "MasterDate" ;;
  let df_joined :=
    filter_rows (map2 datetime_lt activity_date master_date) df_joined in
  status <- getitem df_joined "status_lower" ;;
  let df_joined :=
    setitem df_joined "es_asiste"
      (astype_int (series_eq status (VStr "asiste"))) in
  status <- getitem df_joined "status_lower" ;;
  let df_joined :=
    setitem df_joined "es_solicitado"
      (astype_int (isin status [VStr "solicitado"; VStr "solicita asistir"])) in
  resumen <- groupby_sum df_joined "fila_id_unico"
               [("num_asistencias_acum", "es_asiste");
                ("num_solicitudes_acum", "es_solicitado")] ;;
  df_final_v3 <- merge df_master resumen ["fila_id_unico"] ["fila_id_unico"] Left ;;
  contadores <- getitems df_final_v3
                  ["num_asistencias_acum"; "num_solicitudes_acum"] ;;
  asistencias <- getitem contadores "num_asistencias_acum" ;;
  solicitudes <- getitem contadores "num_solicitudes_acum" ;;
  let df_final_v3 :=
    setitem (setitem df_final_v3 "num_asistencias_acum"
               (map (fillna (VInt 0)) asistencias))
      "num_solicitudes_acum" (map (fillna (VInt 0)) solicitudes) in
  resultado <- drop_columns df_final_v3 ["fila_id_unico"; "MasterDate"] ;;
  Ok (mkIntegracion del_llamador df_actividades resultado).

(** ** Derived ratio *)

(** The cast of an [int64] to [float64], through the conversion of the
    63-bit machine integers; the least [int64], whose absolute value is no
    such integer, is the power of two -2^63. *)
Definition float_of_Z (z : Z) : float :=
  match z with
  | Z0 => 0%float
  | Zpos _ => PrimFloat.of_uint63 (Uint63.of_Z z)
  | Zneg p =>
      if Z.eqb z (- 2 ^ 63) then (-0x1p63)%float
      else PrimFloat.opp (PrimFloat.of_uint63 (Uint63.of_Z (Zpos p)))
  end.

(** The number in a cell of a numeric column; a missing cell is NaN. *)
Definition as_float (v : value) : result float :=
  match v with
  | VNull => Ok PrimFloat.nan
  | VFloat f => Ok f
  | VInt z => Ok (float_of_Z z)
  | _ => Raise TypeError
  end.

(** A float64 result as a cell: NaN is the missing value. *)
Definition of_float (f : float) : value :=
  if PrimFloat.is_nan f then VNull else VFloat f.

Fixpoint mapM2 {A B C : Type} (f : A -> B -> result C) (a : list A) (b : list B)
  : result (list C) :=
  match a, b with
  | x :: a', y :: b' => z <- f x y ;; zs <- mapM2 f a' b' ;; Ok (z :: zs)
  | _, _ => Ok []
  end.

(** [a / b * 100] on two numeric columns. *)
Definition porcentaje (a b : value) : result value :=
  x <- as_float a ;;
  y <- as_float b ;;
  Ok (of_float (x / y * 100)%float).

(** [s <= 0] *)
Definition le_zero (v : value) : result bool :=
  y <- as_float v ;; Ok (PrimFloat.leb y 0%float).

(** Lines 117-120 of the assembly script on the assembled table. *)
Definition porcentaje_pagado_final (df_definitivo : DataFrame)
  : result DataFrame :=
  aplicado <- getitem df_definitivo "CU_precioAplicado_def__c" ;;
  ordinario <- getitem df_definitivo "CU_precioOrdinario_def__c" ;;
  pct <- mapM2 porcentaje aplicado ordinario ;;
  let df_definitivo := setitem df_definitivo "PORCENTAJE_PAGADO_FINAL" pct in
  ordinario <- getitem df_definitivo "CU_precioOrdinario_def__c" ;;
  no_positivo <- mapM le_zero ordinario ;;
  Ok (loc_set df_definitivo no_positivo ["PORCENTAJE_PAGADO_FINAL"] VNull).

(** ** Leakage Guard *)

Definition etapas_pago : list string :=
  ["Solicitud"; "Pruebas"; "Admisión académica"].

Definition vars_pago_config : list string :=
  ["PAID_AMOUNT"; "MINIMUMPAYMENTPAYED"; "CU_precioAplicado_def__c";
   "PORCENTAJE_PAGADO_FINAL"].

(** Lines 152-157 of the assembly script on the assembled table. *)
Definition control_leakage (df_definitivo : DataFrame) : result DataFrame :=
  let vars_pago := filter (has_col df_definitivo) vars_pago_config in
  etapa <- getitem df_definitivo "PL_Etapa__c" ;;
  pagos <- getitems df_definitivo vars_pago ;;
  let mask_futuro :=
    mask_and (isin etapa (map VStr etapas_pago)) (any_notna pagos) in
  Ok (loc_set df_definitivo mask_futuro vars_pago VNull).

(** A cell of a numeric column: a number or missing. *)
Definition is_numeric (v : value) : bool :=
  match v with
  | VNull | VInt _ | VFloat _ => true
  | VStr _ | VTime _ => false
  end.

(** A cell of an [int64] or [float64] column: a float, a missing value or
    an integer of 64 bits. *)
Definition numero64 (v : value) : bool :=
  match v with
  | VNull | VFloat _ => true
  | VInt z => Z.leb (- 2 ^ 63) z && Z.ltb z (2 ^ 63)
  | VStr _ | VTime _ => false
  end.

(** A numeric column: an [int64] column, all integers of 64 bits, or a
    [float64] column, floats and missing values. *)
Definition columna_numerica (s : Series) : bool :=
  forallb (fun v => match v with VInt _ => numero64 v | _ => false end) s
  || forallb (fun v => match v with VNull | VFloat _ => true | _ => false end) s.

(** The float64 number that a cell of a numeric column stands for, as
    IEEE 754 defines it: the number itself, NaN for a missing cell, and for
    an integer the nearest float64, ties to even. *)
Definition es_numero (v : value) (x : float) : Prop :=
  match v with
  | VNull => x = PrimFloat.nan
  | VFloat f => x = f
  | VInt z => Prim2SF x = binary_normalize prec emax z 0 false
  | VStr _ | VTime _ => False
  end.

(** A cell of a text column, and a cell of a datetime column. *)
Definition is_text (v : value) : bool :=
  match v with
  | VNull | VStr _ => true
  | _ => false
  end.

(** A text that is there. *)
Definition es_texto (v : value) : bool :=
  match v with
  | VStr _ => true
  | _ => false
  end.

(** A text column, which pandas holds as an [object] column on which the
    [.str] methods and the joins with text keys work: every cell is a text
    or missing, and some cell is a text. *)
Definition columna_de_texto (s : Series) : bool :=
  forallb is_text s && existsb es_texto s.

(** The columns [cs] of the table hold no integer.  Assigning a missing
    value into an [int64] column turns the column into [float64]; a column
    without integers keeps its cells. *)
Definition sin_enteros (df : DataFrame) (cs : list string) : bool :=
  forallb (fun c =>
             forallb (fun v => match v with VInt _ => false | _ => true end)
                     (column_or_empty df c))
          cs.

Definition is_datetime (v : value) : bool :=
  match v with
  | VNull | VTime _ => true
  | _ => false
  end.

(** The whole days from [b] to [a], 0 when either timestamp is missing. *)
Definition dias_enteros (a b : value) : value :=
  match a, b with
  | VTime x, VTime y => VInt ((x - y) / ns_per_day)
  | _, _ => VInt 0
  end.

(** ** What the claims about the aggregator speak of *)

(** The cell of column [c] in row [i], missing outside the table. *)
Definition celda (df : DataFrame) (c : string) (i : nat) : value :=
  nth i (column_or_empty df c) VNull.

(** The timestamp a cell stands for, missing when it has none. *)
Definition fecha_de `{PyLib} (v : value) : value :=
  match to_datetime_cell v with
  | Ok d => d
  | Raise _ => VNull
  end.

(** An activity-type label that is present, not blank and free of every
    exclusion keyword. *)
Definition etiqueta_valida `{PyLib} (v : value) : bool :=
  notna v &&
  match v with
  | VStr t =>
      negb (String.eqb (str_strip t) "")
      && forallb (fun k => negb (str_icontains k t)) keywords_excluir
  | _ => true
  end.

(** A status that, lower-cased, is one of [estados]. *)
Definition estado_es `{PyLib} (estados : list string) (v : value) : bool :=
  match v with
  | VStr t => mem (str_lower t) estados
  | _ => false
  end.

(** Activity [j] belongs to the entity and cohort of master row [i], has a
    valid type label and happened strictly before the row's timestamp. *)
Definition actividad_previa `{PyLib} (df_master df_actividades : DataFrame)
    (i j : nat) : bool :=
  etiqueta_valida (celda df_actividades col_tipo_act j)
  && value_same (celda df_master "ID18__PC" i)
                (celda df_actividades "ContactId" j)
  && value_same (celda df_master "PL_CURSO_ACADEMICO" i)
                (celda df_actividades "Campaign.AcademicCourse__c" j)
  && datetime_lt (fecha_de (celda df_actividades "CreatedDate" j))
                 (fecha_de (celda df_master "CreatedDate" i)).

(** The number of such activities with one of the given statuses. *)
Definition cuenta_previa `{PyLib} (df_master df_actividades : DataFrame)
    (estados : list string) (i : nat) : nat :=
  length
    (filter (fun j =>
               actividad_previa df_master df_actividades i j
               && estado_es estados (celda df_actividades "Estado_del_miembro__c" j))
            (seq 0 (nrows df_actividades))).

(** The same in the words of the specification: activity [j] has a valid
    type label, the entity key and the cohort of master row [i], and a
    timestamp strictly before the timestamp of the row. *)
Definition actividad_anterior `{PyLib} (df_master df_actividades : DataFrame)
    (i j : nat) : Prop :=
  etiqueta_valida (celda df_actividades col_tipo_act j) = true /\
  celda df_master "ID18__PC" i = celda df_actividades "ContactId" j /\
  celda df_master "PL_CURSO_ACADEMICO" i =
  celda df_actividades "Campaign.AcademicCourse__c" j /\
  exists ta tm,
    fecha_de (celda df_actividades "CreatedDate" j) = VTime ta /\
    fecha_de (celda df_master "CreatedDate" i) = VTime tm /\
    (ta < tm)%Z.

(** Activity [j] is counted for master row [i] under the statuses
    [estados]. *)
Definition actividad_contada `{PyLib} (df_master df_actividades : DataFrame)
    (estados : list string) (i j : nat) : Prop :=
  j < nrows df_actividades /\
  actividad_anterior df_master df_actividades i j /\
  estado_es estados (celda df_actividades "Estado_del_miembro__c" j) = true.

(** The joined pairs (master row, activity row) of an inner join. *)
Definition inner_pairs (lkeys rkeys : list Series) (nl nr : nat)
  : list (nat * nat) :=
  flat_map (fun i => map (pair i) (matches lkeys rkeys nr i)) (seq 0 nl).

(** The positions a boolean mask keeps. *)
Definition kept (m : list bool) : list nat :=
  filter (fun j => nth j m false) (seq 0 (length m)).

(** The activity filter of the aggregator on the type-label column. *)
Definition mascara_tipo `{PyLib} (tipo : Series) : list bool :=
  mask_and (mask_and (map notna tipo)
                     (series_ne (series_str_strip tipo) (VStr "")))
           (mask_not (series_str_contains keywords_excluir tipo)).

(** The pairs (master row, filtered activity) that survive the join and the
    temporal filter. *)
Definition pares_previos (id18 curso m_dates contact course a_dates : Series)
    (n nr : nat) : list (nat * nat) :=
  filter (fun p => datetime_lt (nth (snd p) a_dates VNull)
                               (nth (fst p) m_dates VNull))
         (inner_pairs [id18; curso] [contact; course] n nr).

(** The counter a master row receives: the surviving pairs grouped under
    the row's label whose status satisfies [ind]. *)
Definition contador (labels : list Z) (pares : list (nat * nat))
    (status : Series) (ind : value -> bool) (i : nat) : value :=
  VInt (Z.of_nat
          (length (filter (fun p => Z.eqb (nth i labels 0%Z)
                                          (nth (fst p) labels 0%Z)
                                    && ind (nth (snd p) status VNull))
                          pares))).

(** The columns the aggregator reads from each input. *)
Definition columnas_master : list string :=
  ["CreatedDate"; "ID18__PC"; "PL_CURSO_ACADEMICO"].

Definition columnas_actividades : list string :=
  [col_tipo_act; "CreatedDate"; "Estado_del_miembro__c"; "ContactId";
   "Campaign.AcademicCourse__c"].

(** The names the aggregator gives to its own columns. *)
Definition columnas_reservadas : list string :=
  ["index"; "fila_id_unico"; "num_asistencias_acum"; "num_solicitudes_acum"].

(** The text columns the aggregator reads from each input. *)
Definition columnas_de_texto_master : list string :=
  ["ID18__PC"; "PL_CURSO_ACADEMICO"].

Definition columnas_de_texto_actividades : list string :=
  [col_tipo_act; "Estado_del_miembro__c"; "ContactId";
   "Campaign.AcademicCourse__c"].

(** Each of these columns that a table has is a text column. *)
Definition texto_valido (df_master df_actividades : DataFrame) : bool :=
  forallb (fun c => negb (has_col df_master c)
                    || columna_de_texto (column_or_empty df_master c))
          columnas_de_texto_master
  && forallb (fun c => negb (has_col df_actividades c)
                       || columna_de_texto (column_or_empty df_actividades c))
             columnas_de_texto_actividades.

(** The timestamps the aggregator converts are accepted. *)
Definition fechas_validas `{PyLib} (df_master df_actividades : DataFrame)
  : Prop :=
  (exists d, to_datetime (column_or_empty df_master "CreatedDate") = Ok d) /\
  (exists d,
      to_datetime
        (mask_filter (mascara_tipo (column_or_empty df_actividades col_tipo_act))
           (column_or_empty df_actividades "CreatedDate")) = Ok d).

(** Inputs of the types the aggregator works on, whatever columns they
    have: the master table has none of the columns the aggregator creates,
    the text columns that are there are text columns, and the timestamps
    convert. *)
Definition entrada_bien_tipada `{PyLib} (df_master df_actividades : DataFrame)
  : Prop :=
  forallb (fun c => negb (has_col df_master c)) columnas_reservadas = true /\
  texto_valido df_master df_actividades = true /\
  fechas_validas df_master df_actividades.

(** The inputs on which the aggregator returns: well typed, both tables
    with the columns it reads, and the activity table with one cell per row
    in every column. *)
Definition entrada_admisible `{PyLib} (df_master df_actividades : DataFrame)
  : Prop :=
  forallb (has_col df_master) columnas_master = true /\
  forallb (has_col df_actividades) columnas_actividades = true /\
  well_formed df_actividades /\
  entrada_bien_tipada df_master df_actividades.

(** The inputs on which the counters are those of the rows: admissible, and
    the master table has distinct row labels. *)
Definition entrada_valida `{PyLib} (df_master df_actividades : DataFrame)
  : Prop :=
  entrada_admisible df_master df_actividades /\
  NoDup (index df_master).

(** A required column that one of the two inputs lacks. *)
Definition columna_ausente (df_master df_actividades : DataFrame) (c : string)
  : Prop :=
  (In c columnas_master /\ has_col df_master c = false) \/
  (In c columnas_actividades /\ has_col df_actividades c = false).

(** The failure of the aggregator on a table that lacks a column: a
    [KeyError] whose message names required columns that are absent. *)
Definition fallo_por_columna (df_master df_actividades : DataFrame) (e : exn)
  : Prop :=
  exists names,
    e = KeyError names /\ names <> [] /\
    forall c, In c names -> columna_ausente df_master df_actividades c.

(** A cell of an identity-key column: an exact key or missing. *)
Definition is_key_or_null (v : value) : bool :=
  match v with
  | VFloat _ => false
  | _ => true
  end.

(** ** Milestones, as the specification words them *)

(** Row [j] of the history is an event of the opportunity [k] at the stage
    [etapa] and sub-stage [subetapa], created at time [d]. *)
Definition evento `{PyLib} (df_historial : DataFrame) (etapa subetapa : string)
    (k : value) (j : nat) (d : Z) : Prop :=
  is_key k = true /\
  j < nrows df_historial /\
  celda df_historial "LK_Oportunidad__c" j = k /\
  celda df_historial "PL_Etapa__c" j = VStr etapa /\
  celda df_historial "PL_Subetapa__c" j = VStr subetapa /\
  fecha_de (celda df_historial "CreatedDate" j) = VTime d.

(** [v] is the milestone date of [k]: the earliest creation time of its
    events at that stage and sub-stage, missing when it has none. *)
Definition primer_hito `{PyLib} (df_historial : DataFrame)
    (etapa subetapa : string) (k v : value) : Prop :=
  match v with
  | VTime d =>
      (exists j, evento df_historial etapa subetapa k j d) /\
      (forall j d', evento df_historial etapa subetapa k j d' -> (d <= d')%Z)
  | VNull => forall j d', ~ evento df_historial etapa subetapa k j d'
  | _ => False
  end.

(** The row was created strictly before the milestone, or there is no
    milestone. *)
Definition antes_del_hito (fecha hito : value) : bool :=
  isna hito || datetime_lt fecha hito.

(** The cell of column [c] that the joins give to the result row made of the
    history row [i] and of the row [oj] of the principal table. *)
Definition valor_unido (df_historial df_principal : DataFrame) (c : string)
    (i : nat) (oj : option nat) : value :=
  if has_col df_historial c then celda df_historial c i
  else match oj with
       | Some j => celda df_principal c j
       | None => VNull
       end.

(** The result rows: each history row with each row of the principal table
    whose [ID] is its opportunity, or alone when there is none. *)
Definition filas_unidas (df_historial df_principal : DataFrame)
  : list (nat * option nat) :=
  merge_pairs Left
    [column_or_empty df_historial "LK_Oportunidad__c"]
    [column_or_empty df_principal "ID"]
    (nrows df_historial) (nrows df_principal).

Definition columnas_historial : list string :=
  ["CreatedDate"; "PL_Etapa__c"; "PL_Subetapa__c"; "LK_Oportunidad__c"].

Definition columnas_hito : list string :=
  ["fecha_pruebas_calificadas"; "fecha_matricula_iniciada"].

(** The inputs on which the milestone cleaning is specified: the history has
    the columns the function reads, one cell per row in every column, text
    or missing opportunity keys and creation dates that convert; the
    principal table has a text [ID]; no column name of the principal table
    is a column name of the history, and neither table has a column named
    like the two milestone dates. *)
Definition entrada_hitos_valida `{PyLib} (df_historial df_principal : DataFrame)
  : Prop :=
  forallb (has_col df_historial) columnas_historial = true /\
  has_col df_principal "ID" = true /\
  well_formed df_historial /\
  forallb is_text (column_or_empty df_historial "LK_Oportunidad__c") = true /\
  forallb is_text (column_or_empty df_principal "ID") = true /\
  (exists d, to_datetime (column_or_empty df_historial "CreatedDate") = Ok d) /\
  forallb (fun c => negb (has_col df_historial c) && negb (has_col df_principal c))
          columnas_hito = true /\
  forallb (fun c => negb (has_col df_historial c)) (colnames df_principal) = true.

(** Inputs of the milestone cleaning on which the joined cells are kept as
    they are: the two key columns hold text, and the academic and economic
    columns of the two tables hold no integer. *)
Definition entrada_hitos_tipada (df_historial df_principal : DataFrame) : bool :=
  existsb es_texto (column_or_empty df_historial "LK_Oportunidad__c")
  && existsb es_texto (column_or_empty df_principal "ID")
  && sin_enteros df_historial (cols_academicas ++ cols_economicas)
  && sin_enteros df_principal (cols_academicas ++ cols_economicas).

(** ** A concrete library instance for ASCII text *)

Definition ascii_lower_char (c : ascii) : ascii :=
  let n := nat_of_ascii c in
  if (Nat.leb 65 n && Nat.leb n 90)%bool then ascii_of_nat (n + 32) else c.

Fixpoint ascii_lower (s : string) : string :=
  match s with
  | EmptyString => EmptyString
  | String c r => String (ascii_lower_char c) (ascii_lower r)
  end.

Definition is_space (c : ascii) : bool :=
  let n := nat_of_ascii c in
  (Nat.eqb n 32 || (Nat.leb 9 n && Nat.leb n 13))%bool.

Fixpoint lstrip (s : string) : string :=
  match s with
  | EmptyString => EmptyString
  | String c r => if is_space c then lstrip r else s
  end.

Fixpoint rstrip (s : string) : string :=
  match s with
  | EmptyString => EmptyString
  | String c r =>
      match rstrip r with
      | EmptyString => if is_space c then EmptyString else String c EmptyString
      | r' => String c r'
      end
  end.

Fixpoint contains_at (t : string) (k : string) : bool :=
  match t with
  | EmptyString => String.prefix k EmptyString
  | String _ r => (String.prefix k t || contains_at r k)%bool
  end.

(** Lower-casing, stripping and keyword search on ASCII text; integers read
    as nanoseconds after the epoch, as [pd.to_datetime] reads them. *)
Definition ascii_lib : PyLib := {|
  str_lower := ascii_lower;
  str_strip := fun s => rstrip (lstrip s);
  str_icontains := fun k t => contains_at (ascii_lower t) (ascii_lower k);
  parse_datetime := fun v => match v with VInt z => Some z | _ => None end
|}.

(** ** Sample tables *)

(** Two master rows at time 10 and three activities of entity A in cohort C
    at times 5, 15 and 3. *)
Definition ejemplo_master : DataFrame :=
  mkDF [0%Z; 1%Z]
    [("ID18__PC", [VStr "A"; VStr "B"]);
     ("PL_CURSO_ACADEMICO", [VStr "C"; VStr "C"]);
     ("CreatedDate", [VTime 10; VTime 10])].

Definition ejemplo_actividades : DataFrame :=
  mkDF [0%Z; 1%Z; 2%Z]
    [("ContactId", [VStr "A"; VStr "A"; VStr "A"]);
     ("Campaign.AcademicCourse__c", [VStr "C"; VStr "C"; VStr "C"]);
     ("CreatedDate", [VTime 5; VTime 15; VTime 3]);
     ("Estado_del_miembro__c", [VStr "Asiste"; VStr "asiste"; VStr "Solicitado"]);
     (col_tipo_act, [VStr "Jornada"; VStr "Jornada"; VStr " Feria "])].

(** The same master rows without the entity key column. *)
Definition ejemplo_master_sin_id : DataFrame :=
  mkDF [0%Z; 1%Z]
    [("PL_CURSO_ACADEMICO", [VStr "C"; VStr "C"]);
     ("CreatedDate", [VTime 10; VTime 10])].

(** The same master rows under one repeated row label. *)
Definition ejemplo_master_etiqueta_repetida : DataFrame :=
  mkDF [0%Z; 0%Z] (columns ejemplo_master).

(** A stage history of three events whose start dates are epoch integers. *)
Definition ejemplo_historial : DataFrame :=
  mkDF [0%Z; 1%Z; 2%Z]
    [("LK_Oportunidad__c", [VStr "b"; VStr "a"; VStr "a"]);
     ("PL_Etapa__c", [VStr "Solicitud"; VStr "Matrícula OOGG"; VStr "Solicitud"]);
     ("PL_Subetapa__c", [VStr "Abierta"; VStr "Formalizada"; VStr "Abierta"]);
     ("CreatedDate", [VInt 0; VInt 200000000000000; VInt 5]);
     ("Fecha_fin_etapa__c", [VNull; VTime 400000000000000; VTime 86400000000005])].

(** A stage history without any formalized enrollment. *)
Definition ejemplo_historial_sin_matricula : DataFrame :=
  mkDF [0%Z]
    [("LK_Oportunidad__c", [VStr "e1"]);
     ("PL_Etapa__c", [VStr "Solicitud"]);
     ("PL_Subetapa__c", [VStr "Abierta"])].

Definition ejemplo_oportunidad : DataFrame :=
  mkDF [0%Z; 1%Z; 2%Z] [("ID", [VStr "a"; VStr "b"; VStr "c"])].

(** An assembled table with prices, a stage and a payment field. *)
Definition ejemplo_definitivo : DataFrame :=
  mkDF [0%Z; 1%Z; 2%Z]
    [("CU_precioAplicado_def__c", [VFloat 50; VFloat 1; VNull]);
     ("CU_precioOrdinario_def__c", [VFloat 200; VFloat 0; VFloat 3]);
     ("PL_Etapa__c", [VStr "Solicitud"; VStr "Matrícula"; VStr "Pruebas"]);
     ("PAID_AMOUNT", [VInt 1; VInt 2; VNull])].

(** A stage history of two opportunities: [a] passes its graded tests at
    time 20 and pays at time 40; [b] never reaches either milestone. *)
Definition ejemplo_historial_hitos : DataFrame :=
  mkDF [0%Z; 1%Z; 2%Z; 3%Z; 4%Z]
    [("LK_Oportunidad__c", [VStr "a"; VStr "a"; VStr "a"; VStr "a"; VStr "b"]);
     ("PL_Etapa__c", [VStr "Solicitud"; VStr "Pruebas de admisión";
                      VStr "Pruebas de admisión"; VStr "Matrícula admisión";
                      VStr "Solicitud"]);
     ("PL_Subetapa__c", [VStr "Abierta"; VStr "Pruebas calificadas";
                         VStr "Pruebas calificadas"; VStr "Pago Mínimo";
                         VStr "Abierta"]);
     ("CreatedDate", [VInt 10; VInt 30; VInt 20; VInt 40; VInt 50])].

Definition ejemplo_principal : DataFrame :=
  mkDF [0%Z; 1%Z]
    [("ID", [VStr "a"; VStr "b"]);
     ("NU_NOTA_MEDIA_ADMISION", [VFloat 7; VFloat 8]);
     ("PAID_AMOUNT", [VFloat 100; VFloat 200])].

(** An assembled table whose prices are integers. *)
Definition ejemplo_precios_enteros : DataFrame :=
  mkDF [0%Z; 1%Z; 2%Z]
    [("CU_precioAplicado_def__c", [VInt 50; VInt 1; VInt 7]);
     ("CU_precioOrdinario_def__c", [VInt 200; VInt 0; VInt (-4)])].

(** An assembled table whose payment field holds floats. *)
Definition ejemplo_definitivo_pagos : DataFrame :=
  mkDF [0%Z; 1%Z; 2%Z]
    [("PL_Etapa__c", [VStr "Solicitud"; VStr "Matrícula"; VStr "Pruebas"]);
     ("PAID_AMOUNT", [VFloat 1; VFloat 2; VNull]);
     ("TITULACION", [VStr "x"; VStr "y"; VStr "z"])].

(** Two observations of entity A in cohort C, at times 4 and 10, under one
    repeated row label, and the one activity of A in C, at time 5. *)
Definition ejemplo_master_fuga : DataFrame :=
  mkDF [0%Z; 0%Z]
    [("ID18__PC", [VStr "A"; VStr "A"]);
     ("PL_CURSO_ACADEMICO", [VStr "C"; VStr "C"]);
     ("CreatedDate", [VTime 4; VTime 10])].

Definition ejemplo_actividad_unica : DataFrame :=
  mkDF [0%Z]
    [("ContactId", [VStr "A"]);
     ("Campaign.AcademicCourse__c", [VStr "C"]);
     ("CreatedDate", [VTime 5]);
     ("Estado_del_miembro__c", [VStr "Asiste"]);
     (col_tipo_act, [VStr "Jornada"])].

(** ** Columns with too many missing values *)

(** [df.isna().sum()] of one column. *)
Definition total_na (s : Series) : Z := Z.of_nat (length (filter isna s)).

(** [(df.isna().sum() / num_registros) * 100] of one column, in float64; on
    a table without rows the division of zero by zero gives NaN and raises
    nothing. *)
Definition porcentaje_na (num_registros : nat) (s : Series) : float :=
  (float_of_Z (total_na s) / float_of_Z (Z.of_nat num_registros) * 100)%float.

(** [eliminar_columnas_na(df, umbral)] of [utils.py]: the labels of the
    columns whose percentage is above the threshold are dropped. *)
Definition eliminar_columnas_na (df : DataFrame) (umbral : float)
  : result DataFrame :=
  let num_registros := nrows df in
  let columnas_a_eliminar :=
    map fst (filter (fun cs => PrimFloat.ltb umbral
                                 (porcentaje_na num_registros (snd cs)))
               (columns df)) in
  drop_columns df columnas_a_eliminar.

(** A column named [c] is above the threshold. *)
Definition supera_umbral (df : DataFrame) (umbral : float) (c : string) : bool :=
  existsb (fun cs => String.eqb (fst cs) c
                     && PrimFloat.ltb umbral (porcentaje_na (nrows df) (snd cs)))
          (columns df).

(** The functions the assembly script defines itself. *)
Module Limpieza.

(** [df.isna().mean()] of one column; NaN on a table without rows. *)
Definition fraccion_na (num_registros : nat) (s : Series) : float :=
  (float_of_Z (total_na s) / float_of_Z (Z.of_nat num_registros))%float.

(** [eliminar_columnas_na(df, umbral)] as the script redefines it:
    [df.loc[:, df.isna().mean() < umbral]]. *)
Definition eliminar_columnas_na (df : DataFrame) (umbral : float) : DataFrame :=
  mkDF (index df)
       (filter (fun cs => PrimFloat.ltb (fraccion_na (nrows df) (snd cs)) umbral)
          (columns df)).

(** [str(x)]: a text cell is its own text; what Python prints for a number
    or a timestamp is the parameter [repr]. *)
Definition py_str (repr : value -> string) (x : value) : string :=
  match x with
  | VStr s => s
  | _ => repr x
  end.

(** [normalizar_plazo(x)] *)
Definition normalizar_plazo `{PyLib} (repr : value -> string) (x : value)
  : string :=
  if isna x then "Rolling"
  else
    let x := str_lower (str_strip (py_str repr x)) in
    if contains_at x "dic" then "Diciembre"
    else if contains_at x "mar" then "Marzo"
    else "Otros".

(** [df_unido['PLAZO_ADMISION_LIMPIO'] =
     df_unido['PL_PLAZO_ADMISION'].apply(normalizar_plazo)] *)
Definition plazo_admision_limpio `{PyLib} (repr : value -> string)
    (df_unido : DataFrame) : result DataFrame :=
  plazo <- getitem df_unido "PL_PLAZO_ADMISION" ;;
  Ok (setitem df_unido "PLAZO_ADMISION_LIMPIO"
        (map (fun x => VStr (normalizar_plazo repr x)) plazo)).

End Limpieza.

(** The inputs on which a second run of the aggregator is studied: the
    columns read are there, the text columns hold text and the timestamps
    convert, both counter columns are there already, and the master table
    has no column [index] or [fila_id_unico] and no column named like a
    counter with the suffix [_x] (pandas refuses a join whose suffixes would
    repeat a column name). *)
Definition entrada_repetida `{PyLib} (df_master df_actividades : DataFrame)
  : Prop :=
  forallb (has_col df_master) columnas_master = true /\
  forallb (has_col df_actividades) columnas_actividades = true /\
  has_col df_master "index" = false /\
  has_col df_master "fila_id_unico" = false /\
  has_col df_master "num_asistencias_acum" = true /\
  has_col df_master "num_solicitudes_acum" = true /\
  has_col df_master "num_asistencias_acum_x" = false /\
  has_col df_master "num_solicitudes_acum_x" = false /\
  texto_valido df_master df_actividades = true /\
  fechas_validas df_master df_actividades.

(** ** More sample tables *)

(** Two observations of entity A in cohort C, at times 4 and 10. *)
Definition ejemplo_master_progresivo : DataFrame :=
  mkDF [0%Z; 1%Z]
    [("ID18__PC", [VStr "A"; VStr "A"]);
     ("PL_CURSO_ACADEMICO", [VStr "C"; VStr "C"]);
     ("CreatedDate", [VTime 4; VTime 10])].

(** A master row without a timestamp. *)
Definition ejemplo_master_sin_fecha : DataFrame :=
  mkDF [0%Z]
    [("ID18__PC", [VStr "A"]);
     ("PL_CURSO_ACADEMICO", [VStr "C"]);
     ("CreatedDate", [VNull])].

(** A table with two columns and no rows. *)
Definition ejemplo_vacio : DataFrame := mkDF [] [("A", []); ("B", [])].

(** A column that is missing throughout and one that is half missing. *)
Definition ejemplo_con_na : DataFrame :=
  mkDF [0%Z; 1%Z] [("A", [VNull; VNull]); ("B", [VInt 1; VNull])].

Definition ejemplo_plazos : DataFrame :=
  mkDF [0%Z; 1%Z; 2%Z]
    [("PL_PLAZO_ADMISION", [VStr " Diciembre "; VNull; VStr "MARZO"])].


(** The inputs on which a name collision of the milestone cleaning is
    studied: the history is as for valid inputs, the principal table has an
    [ID] and, like the history, a column [CreatedDate], which is the only
    name the two tables share; neither has a column named like a milestone
    date, the history has no column [CreatedDate_x] and the principal table
    no column [CreatedDate_y]; the keys are text as for valid inputs. *)
Definition entrada_hitos_con_colision `{PyLib}
    (df_historial df_principal : DataFrame) : Prop :=
  forallb (has_col df_historial) columnas_historial = true /\
  has_col df_principal "ID" = true /\
  has_col df_principal "CreatedDate" = true /\
  well_formed df_historial /\
  forallb is_text (column_or_empty df_historial "LK_Oportunidad__c") = true /\
  forallb is_text (column_or_empty df_principal "ID") = true /\
  (exists d, to_datetime (column_or_empty df_historial "CreatedDate") = Ok d) /\
  forallb (fun c => negb (has_col df_historial c) && negb (has_col df_principal c))
          columnas_hito = true /\
  has_col df_historial "CreatedDate_x" = false /\
  has_col df_principal "CreatedDate_y" = false /\
  forallb (fun c => String.eqb c "CreatedDate" || negb (has_col df_historial c))
          (colnames df_principal) = true.

Definition ejemplo_principal_con_fecha : DataFrame :=
  mkDF [0%Z; 1%Z]
    [("ID", [VStr "a"; VStr "b"]);
     ("CreatedDate", [VInt 5; VInt 6]);
     ("NU_NOTA_MEDIA_ADMISION", [VFloat 7; VFloat 8])].

(** * Properties *)

Example scenario_A :
  crear_target
    (mkDF [0%Z] [("ID", [VStr "e1"])])
    (mkDF [0%Z] [("LK_Oportunidad__c", [VStr "e1"]);
                 ("PL_Etapa__c", [VStr "Matrícula OOGG"]);
                 ("PL_Subetapa__c", [VStr "Formalizada"])])
  = Ok (mkDF [0%Z] [("ID", [VStr "e1"]); ("target", [VInt 1])]).
Proof. reflexivity. Qed.

(** ** Lists, masks and columns *)

Lemma nth_error_map2 {A B C : Type} (f : A -> B -> C) (a : list A) (b : list B)
    (i : nat) (z : C) :
  nth_error (map2 f a b) i = Some z <->
  exists x y, nth_error a i = Some x /\ nth_error b i = Some y /\ z = f x y.
Proof.
  revert b i; induction a as [|x a IH]; intros [|y b] [|i]; simpl;
    try (split; [discriminate | intros (? & ? & ? & ? & ?); discriminate]).
  - split.
    + intros [= <-]. now exists x, y.
    + intros (x' & y' & [= <-] & [= <-] & ->). reflexivity.
  - apply IH.
Qed.

Lemma nth_error_map_Some {A B : Type} (f : A -> B) (l : list A) (i : nat) (z : B) :
  nth_error (map f l) i = Some z <-> exists x, nth_error l i = Some x /\ z = f x.
Proof.
  rewrite nth_error_map. destruct (nth_error l i) as [x|]; simpl.
  - split.
    + intros [= <-]. now exists x.
    + intros (x' & [= <-] & ->). reflexivity.
  - split; [discriminate | intros (? & ? & _); discriminate].
Qed.

Lemma In_mask_filter {A : Type} (m : list bool) (s : list A) (x : A) :
  In x (mask_filter m s) <->
  exists i, nth_error m i = Some true /\ nth_error s i = Some x.
Proof.
  revert s; induction m as [|b m IH]; intros [|y s]; simpl.
  - split; [tauto | intros ([|?] & ? & ?); discriminate].
  - split; [tauto | intros ([|?] & ? & ?); discriminate].
  - split; [tauto | intros ([|?] & ? & ?); discriminate].
  - destruct b; simpl; rewrite IH; split.
    + intros [<- | (i & Hm & Hs)]; [now exists 0 | now exists (S i)].
    + intros ([|i] & Hm & Hs); simpl in *.
      * left. congruence.
      * right. now exists i.
    + intros (i & Hm & Hs). now exists (S i).
    + intros ([|i] & Hm & Hs); simpl in *; [discriminate | now exists i].
Qed.

Lemma assoc_map_snd (g : Series -> Series) (c : string) (l : list (string * Series)) :
  assoc c (map (fun cs => (fst cs, g (snd cs))) l) = option_map g (assoc c l).
Proof.
  induction l as [|[c' s] l IH]; simpl; [reflexivity|].
  destruct (String.eqb c c'); [reflexivity | exact IH].
Qed.

Lemma getitem_filter_rows (m : list bool) (df : DataFrame) (c : string) :
  getitem (filter_rows m df) c = (s <- getitem df c ;; Ok (mask_filter m s)).
Proof.
  unfold getitem, filter_rows; simpl. rewrite assoc_map_snd.
  destruct (assoc c (columns df)); reflexivity.
Qed.

Lemma assoc_set_same (c : string) (s : Series) (l : list (string * Series)) :
  assoc c (assoc_set c s l) = Some s.
Proof.
  induction l as [|[c' s'] l IH]; simpl.
  - now rewrite String.eqb_refl.
  - destruct (String.eqb c c') eqn:E; simpl; rewrite E; [reflexivity | exact IH].
Qed.

Lemma assoc_set_other (c c' : string) (s : Series) (l : list (string * Series)) :
  c' <> c -> assoc c' (assoc_set c s l) = assoc c' l.
Proof.
  intros Hne. induction l as [|[d s'] l IH]; simpl.
  - destruct (String.eqb c' c) eqn:E; [apply String.eqb_eq in E; contradiction | reflexivity].
  - destruct (String.eqb c d) eqn:E; simpl.
    + apply String.eqb_eq in E; subst d.
      destruct (String.eqb c' c) eqn:E'; [apply String.eqb_eq in E'; contradiction | reflexivity].
    + destruct (String.eqb c' d); [reflexivity | exact IH].
Qed.

Lemma getitem_Ok_cell (df : DataFrame) (c : string) (s : Series) (i : nat) :
  getitem df c = Ok s -> cell df c i = nth_error s i.
Proof.
  unfold getitem, cell. destruct (assoc c (columns df)); [intros [= ->]; reflexivity | discriminate].
Qed.

Lemma cell_setitem_same (df : DataFrame) (c : string) (s : Series) (i : nat) :
  cell (setitem df c s) c i = nth_error s i.
Proof. unfold cell, setitem; simpl. now rewrite assoc_set_same. Qed.

(** ** Keys *)

Lemma py_eq_key (y x : value) : is_key x = true -> (py_eq y x = true <-> y = x).
Proof.
  destruct x, y; simpl; try discriminate; intros _;
    try (split; [discriminate | intros [=]]).
  - rewrite String.eqb_eq. split; [now intros -> | now intros [= ->]].
  - rewrite Z.eqb_eq. split; [now intros -> | now intros [= ->]].
  - rewrite Z.eqb_eq. split; [now intros -> | now intros [= ->]].
Qed.

Lemma value_same_key (y x : value) : is_key x = true -> (value_same y x = true <-> y = x).
Proof.
  destruct x, y; simpl; try discriminate; intros _;
    try (split; [discriminate | intros [=]]).
  - rewrite String.eqb_eq. split; [now intros -> | now intros [= ->]].
  - rewrite Z.eqb_eq. split; [now intros -> | now intros [= ->]].
  - rewrite Z.eqb_eq. split; [now intros -> | now intros [= ->]].
Qed.

Lemma In_unique_key (x : value) (s : Series) :
  is_key x = true -> (In x (unique s) <-> In x s).
Proof.
  intros Hk. induction s as [|a s IH]; simpl; [tauto|].
  rewrite filter_In, IH. split.
  - intros [-> | [H _]]; auto.
  - intros [-> | H]; auto.
    destruct (value_same a x) eqn:E.
    + left. now apply value_same_key in E.
    + right. auto.
Qed.

Lemma ndarray_contains_key (x : value) (arr : Series) :
  is_key x = true -> (ndarray_contains arr x = true <-> In x arr).
Proof.
  intros Hk. unfold ndarray_contains. rewrite existsb_exists. split.
  - intros (y & Hy & E). apply py_eq_key in E; subst; auto.
  - intros H. exists x. split; [exact H | now apply py_eq_key].
Qed.

Lemma set_contains_key (x : value) (s : Series) :
  is_key x = true -> (set_contains s x = true <-> In x s).
Proof.
  intros Hk. unfold set_contains. rewrite existsb_exists. split.
  - intros (y & Hy & E). apply value_same_key in E; subst; auto.
  - intros H. exists x. split; [exact H | now apply value_same_key].
Qed.

(** ** Target Labeler *)

Section TargetLabeler.

Variables (oportunidad historial_etapas : DataFrame).
Variables (ids lk etapa subetapa : Series).
Hypothesis H_ID : getitem oportunidad "ID" = Ok ids.
Hypothesis H_LK : getitem historial_etapas "LK_Oportunidad__c" = Ok lk.
Hypothesis H_etapa : getitem historial_etapas "PL_Etapa__c" = Ok etapa.
Hypothesis H_subetapa : getitem historial_etapas "PL_Subetapa__c" = Ok subetapa.

Local Abbreviation formalizadas := (formalizadas_de etapa subetapa lk).
Local Abbreviation bajas := (bajas_de subetapa lk).

Lemma series_eq_true (s : Series) (t : string) (i : nat) :
  nth_error (series_eq s (VStr t)) i = Some true <-> nth_error s i = Some (VStr t).
Proof.
  unfold series_eq. rewrite nth_error_map_Some. split.
  - intros (x & Hx & E). symmetry in E. apply py_eq_key in E; [congruence | reflexivity].
  - intros H. exists (VStr t). split; [exact H|]. simpl. now rewrite String.eqb_refl.
Qed.

Lemma In_formalizadas (x : value) :
  In x formalizadas <-> formalized historial_etapas x.
Proof.
  unfold formalizadas_de, formalized, event_at. rewrite In_mask_filter.
  split; intros (i & H); exists i; revert H;
    rewrite (getitem_Ok_cell _ _ _ i H_LK), (getitem_Ok_cell _ _ _ i H_etapa),
      (getitem_Ok_cell _ _ _ i H_subetapa);
    unfold mask_and; rewrite nth_error_map2.
  - intros [(a & b & Ha & Hb & E) Hx].
    symmetry in E. apply andb_true_iff in E as [-> ->].
    apply series_eq_true in Ha, Hb. auto.
  - intros (Hx & Hs & He). split; [|exact Hx].
    exists true, true. rewrite !series_eq_true. auto.
Qed.

Lemma In_bajas (x : value) : In x bajas <-> unenrolled historial_etapas x.
Proof.
  unfold bajas_de, unenrolled, event_at. rewrite In_mask_filter.
  split; intros (i & H); exists i; revert H;
    rewrite (getitem_Ok_cell _ _ _ i H_LK), (getitem_Ok_cell _ _ _ i H_subetapa),
      series_eq_true; tauto.
Qed.

Lemma label_array (x : value) :
  is_key x = true ->
  labelled historial_etapas x
    (Some (VInt (if ndarray_contains (unique formalizadas) x
                    && negb (ndarray_contains (unique bajas) x)
                 then 1 else 0))).
Proof.
  intros Hk. unfold labelled.
  pose proof (ndarray_contains_key x (unique formalizadas) Hk) as Hf.
  pose proof (ndarray_contains_key x (unique bajas) Hk) as Hb.
  rewrite (In_unique_key _ _ Hk), In_formalizadas in Hf.
  rewrite (In_unique_key _ _ Hk), In_bajas in Hb.
  destruct (ndarray_contains (unique formalizadas) x);
    destruct (ndarray_contains (unique bajas) x); simpl.
  - right. split; [reflexivity|]. intros [_ H]. apply H, Hb. reflexivity.
  - left. split; [reflexivity|]. split; [now apply Hf|].
    intros H. apply Hb in H. discriminate.
  - right. split; [reflexivity|]. intros [H _]. apply Hf in H. discriminate.
  - right. split; [reflexivity|]. intros [H _]. apply Hf in H. discriminate.
Qed.

Lemma label_set (x : value) :
  is_key x = true ->
  labelled historial_etapas x
    (Some (VInt (if set_contains
                      (set_difference (unique formalizadas) (unique bajas)) x
                 then 1 else 0))).
Proof.
  intros Hk. unfold labelled.
  pose proof (set_contains_key x
                (set_difference (unique formalizadas) (unique bajas)) Hk) as Hd.
  unfold set_difference in Hd at 2.
  rewrite filter_In, (In_unique_key _ _ Hk), In_formalizadas, negb_true_iff in Hd.
  assert (Hb : set_contains (unique bajas) x = false <->
               ~ unenrolled historial_etapas x).
  { rewrite <- In_bajas, <- (In_unique_key x bajas Hk),
      <- (set_contains_key _ _ Hk).
    destruct (set_contains (unique bajas) x); split; intros; congruence. }
  rewrite Hb in Hd.
  destruct (set_contains _ x).
  - left. split; [reflexivity|]. now apply Hd.
  - right. split; [reflexivity|]. intros H. apply Hd in H. discriminate.
Qed.

Lemma crear_target_auditado_eq :
  crear_target_auditado oportunidad historial_etapas =
  Ok (setitem oportunidad "target"
        (map (fun b : bool => VInt (if b then 1 else 0))
           (isin ids (set_difference (unique formalizadas) (unique bajas))))).
Proof.
  unfold crear_target_auditado.
  rewrite H_ID, H_LK, H_etapa, H_subetapa; simpl.
  rewrite !getitem_filter_rows, H_LK. reflexivity.
Qed.

Lemma crear_target_eq :
  crear_target oportunidad historial_etapas =
  (_ <- py_truediv (length (unique formalizadas)) (length (unique lk)) ;;
   _ <- py_truediv (length (unique bajas)) (length (unique formalizadas)) ;;
   Ok (setitem oportunidad "target"
         (map (fun x =>
                 VInt (if ndarray_contains (unique formalizadas) x
                          && negb (ndarray_contains (unique bajas) x)
                       then 1 else 0))
            ids))).
Proof.
  unfold crear_target.
  rewrite H_ID, H_LK, H_etapa, H_subetapa; simpl.
  rewrite getitem_filter_rows, H_LK; simpl.
  fold formalizadas.
  destruct (py_truediv _ _); simpl; [|reflexivity].
  rewrite getitem_filter_rows, H_LK. reflexivity.
Qed.

End TargetLabeler.

Lemma unique_nil_iff (s : Series) : length (unique s) = 0 <-> s = [].
Proof. destruct s; simpl; split; intros; try reflexivity; discriminate. Qed.

Lemma mask_filter_incl {A : Type} (m : list bool) (s : list A) (x : A) :
  In x (mask_filter m s) -> In x s.
Proof.
  rewrite In_mask_filter. intros (i & _ & H). eapply nth_error_In; eauto.
Qed.

Lemma es_texto_is_key (v : value) : es_texto v = true -> is_key v = true.
Proof. now destruct v. Qed.


(** C10: on a stage history without any event at stage 'Matrícula OOGG',
    sub-stage 'Formalizada', [crear_target] raises a division-by-zero error,
    whatever the opportunity table, where every target would be 0. *)
Theorem crear_target_zero_division
    (oportunidad historial_etapas : DataFrame) (lk etapa subetapa : Series)
    (H_LK : getitem historial_etapas "LK_Oportunidad__c" = Ok lk)
    (H_etapa : getitem historial_etapas "PL_Etapa__c" = Ok etapa)
    (H_subetapa : getitem historial_etapas "PL_Subetapa__c" = Ok subetapa)
    (H_none : forall x, ~ formalized historial_etapas x) :
  crear_target oportunidad historial_etapas = Raise ZeroDivisionError.
Proof.
  assert (E : formalizadas_de etapa subetapa lk = []).
  { destruct (formalizadas_de etapa subetapa lk) as [|x l] eqn:E; [reflexivity|].
    exfalso. apply (H_none x).
    apply (In_formalizadas _ _ _ _ H_LK H_etapa H_subetapa).
    rewrite E. now left. }
  unfold crear_target.
  rewrite H_LK, H_etapa, H_subetapa; simpl.
  rewrite getitem_filter_rows, H_LK; simpl.
  fold (formalizadas_de etapa subetapa lk). rewrite E. simpl.
  unfold py_truediv at 1.
  destruct (Nat.eqb (length (unique lk)) 0); simpl; [reflexivity|].
  rewrite getitem_filter_rows, H_LK. reflexivity.
Qed.

(** ** Columns under assignment *)

Lemma getitem_setitem_other (df : DataFrame) (c c' : string) (s : Series) :
  c' <> c -> getitem (setitem df c s) c' = getitem df c'.
Proof.
  intros Hne. unfold getitem, setitem; simpl. now rewrite assoc_set_other.
Qed.

Lemma getitem_setitem_same (df : DataFrame) (c : string) (s : Series) :
  getitem (setitem df c s) c = Ok s.
Proof. unfold getitem, setitem; simpl. now rewrite assoc_set_same. Qed.

Lemma mem_In (c : string) (l : list string) : mem c l = true <-> In c l.
Proof.
  unfold mem. rewrite existsb_exists. split.
  - intros (x & Hx & E). apply String.eqb_eq in E. now subst.
  - intros H. exists c. split; [exact H | apply String.eqb_refl].
Qed.

Lemma mem_false (c : string) (l : list string) : mem c l = false <-> ~ In c l.
Proof.
  rewrite <- mem_In. destruct (mem c l); split; intros; congruence.
Qed.

Lemma assoc_Some_mem (c : string) (l : list (string * Series)) :
  mem c (map fst l) = true <-> exists s, assoc c l = Some s.
Proof.
  induction l as [|[c' s'] l IH]; simpl.
  - split; [discriminate | intros (? & ?); discriminate].
  - destruct (String.eqb c c'); simpl; [|exact IH].
    split; eauto.
Qed.

Lemma has_col_getitem (df : DataFrame) (c : string) :
  has_col df c = true <-> exists s, getitem df c = Ok s.
Proof.
  unfold has_col, colnames, getitem. rewrite assoc_Some_mem.
  destruct (assoc c (columns df)); split; intros (s' & H);
    try discriminate; eauto.
Qed.

Lemma colnames_assoc_set_in (c : string) (s : Series) (l : list (string * Series)) :
  mem c (map fst l) = true -> map fst (assoc_set c s l) = map fst l.
Proof.
  induction l as [|[c' s'] l IH]; simpl; [discriminate|].
  destruct (String.eqb c c') eqn:E; simpl; [reflexivity|].
  intros H. now rewrite IH.
Qed.

Lemma colnames_assoc_set_new (c : string) (s : Series) (l : list (string * Series)) :
  mem c (map fst l) = false -> map fst (assoc_set c s l) = map fst l ++ [c].
Proof.
  induction l as [|[c' s'] l IH]; simpl; [reflexivity|].
  destruct (String.eqb c c') eqn:E; simpl; [discriminate|].
  intros H. now rewrite IH.
Qed.

Lemma has_col_setitem (df : DataFrame) (c c' : string) (s : Series) :
  has_col (setitem df c s) c' = (String.eqb c' c || has_col df c')%bool.
Proof.
  unfold has_col, colnames, setitem; simpl.
  destruct (mem c (map fst (columns df))) eqn:E.
  - rewrite colnames_assoc_set_in by exact E.
    destruct (String.eqb c' c) eqn:E'; simpl; [|reflexivity].
    apply String.eqb_eq in E'. now subst.
  - rewrite colnames_assoc_set_new by exact E.
    unfold mem. rewrite existsb_app. simpl. rewrite orb_false_r. apply orb_comm.
Qed.

(** ** Masked assignment *)

Lemma nth_error_mask_assign (m : list bool) (v : value) (s : Series) (i : nat) :
  nth_error (mask_assign m v s) i =
  option_map (fun x => if nth i m false then v else x) (nth_error s i).
Proof.
  revert m i; induction s as [|x s IH]; intros [|b m] [|i]; simpl;
    try reflexivity.
  - now destruct (nth_error s i).
  - apply IH.
Qed.

Lemma length_mask_assign (m : list bool) (v : value) (s : Series) :
  length (mask_assign m v s) = length s.
Proof.
  revert m; induction s as [|x s IH]; intros [|b m]; simpl; auto.
Qed.

Lemma loc_set_fold_present (cs : list string) (df : DataFrame) :
  (forall c, In c cs -> has_col df c = true) ->
  fold_left (fun d c => if has_col d c then d
                        else setitem d c (repeat VNull (nrows d))) cs df = df.
Proof.
  revert df; induction cs as [|c cs IH]; intros df H; simpl; [reflexivity|].
  rewrite (H c) by now left. apply IH. intros c' Hc'. apply H. now right.
Qed.

Lemma loc_set_present (df : DataFrame) (m : list bool) (cs : list string) (v : value) :
  (forall c, In c cs -> has_col df c = true) ->
  loc_set df m cs v =
  mkDF (index df)
       (map (fun p => if mem (fst p) cs
                      then (fst p, mask_assign m v (snd p)) else p)
            (columns df)).
Proof. intros H. unfold loc_set. now rewrite loc_set_fold_present. Qed.

Lemma assoc_loc_map (m : list bool) (cs : list string) (v : value) (c : string)
    (l : list (string * Series)) :
  assoc c (map (fun p => if mem (fst p) cs
                         then (fst p, mask_assign m v (snd p)) else p) l) =
  option_map (fun s => if mem c cs then mask_assign m v s else s) (assoc c l).
Proof.
  induction l as [|[c' s'] l IH]; simpl; [reflexivity|].
  destruct (mem c' cs) eqn:Em; simpl;
    destruct (String.eqb c c') eqn:E; simpl; auto;
    apply String.eqb_eq in E; subst; now rewrite Em.
Qed.

Lemma colnames_loc_map (m : list bool) (cs : list string) (v : value)
    (l : list (string * Series)) :
  map fst (map (fun p => if mem (fst p) cs
                         then (fst p, mask_assign m v (snd p)) else p) l) =
  map fst l.
Proof.
  rewrite map_map. apply map_ext. intros [c s]; simpl. now destruct (mem c cs).
Qed.

(** ** Cell-wise computations that may fail *)

Lemma mapM_Ok_nth {A B : Type} (f : A -> result B) (l : list A) (r : list B) :
  mapM f l = Ok r ->
  length r = length l /\
  forall i x, nth_error l i = Some x ->
              exists y, f x = Ok y /\ nth_error r i = Some y.
Proof.
  revert r; induction l as [|a l IH]; simpl; intros r H.
  - injection H as <-. split; [reflexivity|]. intros [|i] x E; discriminate.
  - destruct (f a) as [y|] eqn:Ea; simpl in H; [|discriminate].
    destruct (mapM f l) as [ys|] eqn:El; simpl in H; [|discriminate].
    injection H as <-. destruct (IH ys eq_refl) as [Hlen Hnth].
    split; [simpl; now rewrite Hlen|].
    intros [|i] x E; simpl in *.
    + injection E as <-. eauto.
    + auto.
Qed.

Lemma mapM_total {A B : Type} (f : A -> result B) (l : list A) :
  Forall (fun x => exists y, f x = Ok y) l -> exists r, mapM f l = Ok r.
Proof.
  induction 1 as [|a l (y & Ha) _ (r & IH)]; simpl; [eauto|].
  rewrite Ha, IH. simpl. eauto.
Qed.

Lemma mapM2_Ok_nth {A B C : Type} (f : A -> B -> result C)
    (a : list A) (b : list B) (r : list C) :
  mapM2 f a b = Ok r ->
  forall i x y, nth_error a i = Some x -> nth_error b i = Some y ->
                exists z, f x y = Ok z /\ nth_error r i = Some z.
Proof.
  revert b r; induction a as [|x0 a IH]; intros [|y0 b] r H [|i] x y Ex Ey;
    simpl in *; try discriminate.
  - injection Ex as <-. injection Ey as <-.
    destruct (f x0 y0) as [z|]; simpl in H; [|discriminate].
    destruct (mapM2 f a b); simpl in H; [|discriminate].
    injection H as <-. eauto.
  - destruct (f x0 y0) as [z|]; simpl in H; [|discriminate].
    destruct (mapM2 f a b) as [zs|] eqn:E; simpl in H; [|discriminate].
    injection H as <-. simpl. eapply IH; eauto.
Qed.

Lemma mapM2_total {A B C : Type} (f : A -> B -> result C) (P : A -> Prop)
    (Q : B -> Prop) (a : list A) (b : list B) :
  (forall x y, P x -> Q y -> exists z, f x y = Ok z) ->
  Forall P a -> Forall Q b -> exists r, mapM2 f a b = Ok r.
Proof.
  intros Hf Ha. revert b. induction Ha as [|x a Hx _ IH]; intros b Hb; simpl.
  - eauto.
  - destruct Hb as [|y b Hy Hb]; [eauto|].
    destruct (Hf x y Hx Hy) as (z & ->). destruct (IH b Hb) as (r & ->).
    simpl. eauto.
Qed.

Lemma as_float_numeric (v : value) :
  is_numeric v = true -> exists x, as_float v = Ok x.
Proof. destruct v; simpl; try discriminate; eauto. Qed.

(** ** Derived ratio *)

Lemma float_pos_not_le (y : float) :
  PrimFloat.ltb 0 y = true -> PrimFloat.leb y 0 = false.
Proof.
  rewrite ltb_spec, leb_spec.
  replace (Prim2SF 0) with (S754_zero false) by reflexivity.
  destruct (Prim2SF y) as [[]| [] | |[] m e]; cbn; congruence.
Qed.

Lemma binary_round_opp (m : positive) (e : Z) :
  binary_round prec emax true m e = SFopp (binary_round prec emax false m e).
Proof.
  unfold binary_round.
  destruct (shl_align m e (fexp prec emax (Z.pos (digits2_pos m) + e)))
    as [mz ez].
  unfold binary_round_aux.
  destruct (shr_fexp prec emax (Z.pos mz) ez loc_Exact) as [mrs' e'].
  match goal with
  | |- context [shr_fexp prec emax ?a ?b ?c] =>
      destruct (shr_fexp prec emax a b c) as [mrs'' e'']
  end.
  destruct (shr_m mrs''); [reflexivity| |reflexivity].
  now destruct (e'' <=? emax - prec)%Z.
Qed.

Lemma wB_int63 : Uint63.wB = (2 ^ 63)%Z.
Proof. reflexivity. Qed.

(** The cast of a 64-bit integer is its IEEE 754 rounding. *)
Lemma float_of_Z_spec (z : Z) :
  numero64 (VInt z) = true ->
  Prim2SF (float_of_Z z) = binary_normalize prec emax z 0 false.
Proof.
  cbn [numero64]. intros Hz. apply andb_true_iff in Hz as [Hlo Hhi].
  apply Z.leb_le in Hlo. apply Z.ltb_lt in Hhi.
  destruct z as [|p|p]; cbn [float_of_Z].
  - reflexivity.
  - rewrite of_uint63_spec, Uint63.of_Z_spec, Z.mod_small; [reflexivity|].
    rewrite wB_int63. lia.
  - destruct (Z.eqb_spec (Z.neg p) (- 2 ^ 63)) as [E | E].
    + rewrite E. vm_compute. reflexivity.
    + rewrite FloatAxioms.opp_spec, of_uint63_spec, Uint63.of_Z_spec, Z.mod_small
        by (rewrite wB_int63; lia).
      cbn [binary_normalize]. symmetry. apply binary_round_opp.
Qed.

Lemma es_numero_as_float (v : value) (x : float) :
  numero64 v = true -> es_numero v x -> as_float v = Ok x.
Proof.
  intros Hv Hx. destruct v; cbn in *; try discriminate; try contradiction.
  - now subst.
  - f_equal. apply Prim2SF_inj. rewrite Hx. now apply float_of_Z_spec.
  - now subst.
Qed.

Lemma columna_numerica_numero64 (s : Series) :
  columna_numerica s = true -> Forall (fun v => numero64 v = true) s.
Proof.
  unfold columna_numerica. intros Hs. apply Forall_forall. intros v Hv.
  apply orb_true_iff in Hs as [Hs | Hs];
    rewrite forallb_forall in Hs; specialize (Hs v Hv);
    destruct v; try discriminate; auto.
Qed.

Lemma numero64_numeric (v : value) : numero64 v = true -> is_numeric v = true.
Proof. now destruct v. Qed.

(** C4: on numeric price columns the ratio step raises nothing; in every
    row whose ordinary price is at most 0 the field PORCENTAJE_PAGADO_FINAL
    is null, and in every row whose ordinary price is positive it is the
    float64 value of applied / ordinary * 100, the two prices taken as the
    float64 numbers they stand for. *)
Theorem porcentaje_pagado_final_guard
    (df_definitivo : DataFrame) (aplicado ordinario : Series)
    (H_aplicado : getitem df_definitivo "CU_precioAplicado_def__c" = Ok aplicado)
    (H_ordinario : getitem df_definitivo "CU_precioOrdinario_def__c" = Ok ordinario)
    (H_num_a : columna_numerica aplicado = true)
    (H_num_o : columna_numerica ordinario = true) :
  exists out,
    porcentaje_pagado_final df_definitivo = Ok out /\
    forall i a b x y,
      nth_error aplicado i = Some a -> nth_error ordinario i = Some b ->
      es_numero a x -> es_numero b y ->
      (PrimFloat.leb y 0 = true ->
       cell out "PORCENTAJE_PAGADO_FINAL" i = Some VNull) /\
      (PrimFloat.ltb 0 y = true ->
       cell out "PORCENTAJE_PAGADO_FINAL" i = Some (of_float (x / y * 100)%float)).
Proof.
  apply columna_numerica_numero64 in H_num_a, H_num_o.
  unfold porcentaje_pagado_final. rewrite H_aplicado, H_ordinario; simpl.
  destruct (mapM2_total porcentaje (fun v => numero64 v = true)
              (fun v => numero64 v = true) aplicado ordinario) as (pct & Hpct);
    [ | exact H_num_a | exact H_num_o | ].
  { intros a b Ha Hb. unfold porcentaje.
    destruct (as_float_numeric a (numero64_numeric a Ha)) as (x & ->).
    destruct (as_float_numeric b (numero64_numeric b Hb)) as (y & ->).
    simpl. eauto. }
  rewrite Hpct; simpl.
  rewrite getitem_setitem_other, H_ordinario by discriminate; simpl.
  destruct (mapM_total le_zero ordinario) as (no_pos & Hno).
  { eapply Forall_impl; [|exact H_num_o]. intros b Hb. unfold le_zero.
    destruct (as_float_numeric b (numero64_numeric b Hb)) as (y & ->).
    simpl. eauto. }
  rewrite Hno; simpl. eexists. split; [reflexivity|].
  intros i a b x y Ea Eb Nx Ny.
  assert (Ex : as_float a = Ok x).
  { apply es_numero_as_float; [|exact Nx].
    rewrite Forall_forall in H_num_a. apply H_num_a.
    eapply nth_error_In; eassumption. }
  assert (Ey : as_float b = Ok y).
  { apply es_numero_as_float; [|exact Ny].
    rewrite Forall_forall in H_num_o. apply H_num_o.
    eapply nth_error_In; eassumption. }
  destruct (mapM2_Ok_nth _ _ _ _ Hpct i a b Ea Eb) as (z & Hz & Ez).
  unfold porcentaje in Hz. rewrite Ex, Ey in Hz. simpl in Hz. injection Hz as <-.
  destruct (mapM_Ok_nth _ _ _ Hno) as [Hlen Hnth].
  destruct (Hnth i b Eb) as (w & Hw & Ew).
  unfold le_zero in Hw. rewrite Ey in Hw. simpl in Hw. injection Hw as <-.
  rewrite loc_set_present.
  2:{ intros c [<- | []]. rewrite has_col_setitem. reflexivity. }
  unfold cell; cbn [columns setitem]. rewrite assoc_loc_map, assoc_set_same.
  cbn [option_map mem existsb String.eqb Ascii.eqb Bool.eqb orb].
  rewrite nth_error_mask_assign, Ez. simpl.
  rewrite (nth_error_nth _ _ false Ew).
  split; intros H.
  - now rewrite H.
  - now rewrite (float_pos_not_le _ H).
Qed.

(** ** Leakage Guard *)

Lemma nth_map2_andb (a b : list bool) (i : nat) :
  nth i (map2 andb a b) false = (nth i a false && nth i b false)%bool.
Proof.
  revert b i; induction a as [|x a IH]; intros [|y b] [|i]; simpl;
    rewrite ?andb_false_r; auto; destruct i; reflexivity.
Qed.

Lemma nth_mask_assign_null (m : list bool) (s : Series) (i : nat) :
  nth i (mask_assign m VNull s) VNull =
  if nth i m false then VNull else nth i s VNull.
Proof.
  revert m i; induction s as [|x s IH]; intros [|b m] [|i]; simpl;
    try reflexivity; try (now destruct b); try apply IH.
  now destruct (nth i m false).
Qed.

Lemma mask_assign_all_false (m : list bool) (v : value) (s : Series) :
  (forall i, nth i m false = false) -> mask_assign m v s = s.
Proof.
  revert m; induction s as [|x s IH]; intros [|b m] H; simpl; try reflexivity.
  pose proof (H 0) as H0. simpl in H0. subst b.
  f_equal. apply IH. intros i. exact (H (S i)).
Qed.

Lemma filter_filter_negb {A : Type} (p : A -> bool) (l : list A) :
  filter (fun x => negb (p x)) (filter p l) = [].
Proof.
  induction l as [|x l IH]; simpl; [reflexivity|].
  destruct (p x) eqn:E; simpl; [rewrite E; simpl|]; exact IH.
Qed.

Lemma getitems_present (df : DataFrame) (cs : list string) :
  (forall c, In c cs -> has_col df c = true) ->
  getitems df cs =
  Ok (mkDF (index df) (map (fun c => (c, column_or_empty df c)) cs)).
Proof.
  intros H. unfold getitems.
  replace (filter (fun c => negb (has_col df c)) cs) with (@nil string);
    [reflexivity|].
  symmetry. induction cs as [|c cs IH]; simpl; [reflexivity|].
  rewrite (H c) by now left. simpl. apply IH. intros c' Hc'. apply H. now right.
Qed.

Lemma nth_any_notna (df : DataFrame) (i : nat) :
  nth i (any_notna df) false =
  (Nat.ltb i (nrows df)
   && existsb (fun cs => notna (nth i (snd cs) VNull)) (columns df))%bool.
Proof.
  unfold any_notna.
  destruct (Nat.ltb i (nrows df)) eqn:E.
  - apply Nat.ltb_lt in E.
    rewrite (nth_indep _ false
               (existsb (fun cs => notna (nth 0 (snd cs) VNull)) (columns df)))
      by now rewrite length_map, length_seq.
    rewrite (map_nth (fun i => existsb _ (columns df))).
    now rewrite seq_nth.
  - apply Nat.ltb_ge in E. apply nth_overflow.
    now rewrite length_map, length_seq.
Qed.

Lemma existsb_masked (l : list string) (col col' : string -> Series)
    (m : list bool) (i : nat) :
  (forall c, In c l -> col' c = mask_assign m VNull (col c)) ->
  existsb (fun cs : string * Series => notna (nth i (snd cs) VNull))
    (map (fun c => (c, col' c)) l) =
  if nth i m false then false
  else existsb (fun cs : string * Series => notna (nth i (snd cs) VNull))
         (map (fun c => (c, col c)) l).
Proof.
  intros H. induction l as [|c l IH]; simpl.
  - now destruct (nth i m false).
  - rewrite IH by (intros c' Hc'; apply H; now right).
    rewrite (H c) by now left.
    rewrite nth_mask_assign_null.
    destruct (nth i m false); reflexivity.
Qed.

(** C5: the Leakage Guard is idempotent.  On a table with the stage column
    it returns a table, and applied to that table it returns it unchanged. *)
Theorem control_leakage_idempotent (df_definitivo : DataFrame) (etapa : Series)
    (H_etapa : getitem df_definitivo "PL_Etapa__c" = Ok etapa) :
  exists out,
    control_leakage df_definitivo = Ok out /\ control_leakage out = Ok out.
Proof.
  set (vars := filter (has_col df_definitivo) vars_pago_config).
  assert (Hvars : forall c, In c vars -> has_col df_definitivo c = true).
  { intros c Hc. apply filter_In in Hc. tauto. }
  assert (Hnot : mem "PL_Etapa__c" vars = false).
  { apply mem_false. intros Hin. apply filter_In in Hin as [Hin _].
    simpl in Hin. repeat destruct Hin as [Hin | Hin]; try discriminate; tauto. }
  set (pagos := mkDF (index df_definitivo)
                  (map (fun c => (c, column_or_empty df_definitivo c)) vars)).
  set (m := mask_and (isin etapa (map VStr etapas_pago)) (any_notna pagos)).
  set (g := fun p : string * Series =>
              if mem (fst p) vars
              then (fst p, mask_assign m VNull (snd p)) else p).
  exists (mkDF (index df_definitivo) (map g (columns df_definitivo))).
  assert (E1 : control_leakage df_definitivo =
               Ok (mkDF (index df_definitivo) (map g (columns df_definitivo)))).
  { unfold control_leakage. fold vars. rewrite H_etapa; simpl.
    rewrite getitems_present by exact Hvars. simpl.
    fold pagos. fold m. now rewrite loc_set_present by exact Hvars. }
  split; [exact E1|].
  set (out := mkDF (index df_definitivo) (map g (columns df_definitivo))).
  assert (Hcols : colnames out = colnames df_definitivo).
  { unfold colnames, out; simpl. apply colnames_loc_map. }
  assert (Hhas : forall c, has_col out c = has_col df_definitivo c).
  { intros c. unfold has_col. now rewrite Hcols. }
  assert (Hvars' : filter (has_col out) vars_pago_config = vars).
  { unfold vars. apply filter_ext. exact Hhas. }
  assert (Hcol : forall c, In c vars ->
            column_or_empty out c =
            mask_assign m VNull (column_or_empty df_definitivo c)).
  { intros c Hc. unfold column_or_empty, out; simpl.
    unfold g. rewrite assoc_loc_map.
    pose proof (Hvars c Hc) as Hs. apply has_col_getitem in Hs.
    destruct Hs as (s & Hs).
    unfold getitem in Hs. destruct (assoc c (columns df_definitivo)); [|discriminate].
    simpl. apply (proj2 (mem_In _ _)) in Hc. now rewrite Hc. }
  unfold control_leakage. rewrite Hvars'.
  assert (E2 : getitem out "PL_Etapa__c" = Ok etapa).
  { unfold getitem, out; simpl. unfold g. rewrite assoc_loc_map.
    unfold getitem in H_etapa.
    destruct (assoc "PL_Etapa__c" (columns df_definitivo)); [|discriminate].
    simpl. now rewrite Hnot. }
  rewrite E2; simpl.
  rewrite getitems_present by (intros c Hc; rewrite Hhas; auto). simpl.
  set (pagos' := mkDF (index out) (map (fun c => (c, column_or_empty out c)) vars)).
  set (m' := mask_and (isin etapa (map VStr etapas_pago)) (any_notna pagos')).
  assert (Hm' : forall i, nth i m' false = false).
  { intros i. unfold m', mask_and. rewrite nth_map2_andb, nth_any_notna.
    assert (Hm : nth i m false =
                 (nth i (isin etapa (map VStr etapas_pago)) false
                  && (Nat.ltb i (nrows pagos)
                      && existsb (fun cs => notna (nth i (snd cs) VNull))
                           (columns pagos)))%bool).
    { unfold m, mask_and. now rewrite nth_map2_andb, nth_any_notna. }
    assert (Hex : existsb (fun cs => notna (nth i (snd cs) VNull)) (columns pagos') =
                  if nth i m false then false
                  else existsb (fun cs => notna (nth i (snd cs) VNull)) (columns pagos)).
    { unfold pagos', pagos; simpl. now apply existsb_masked. }
    rewrite Hex. change (nrows pagos') with (nrows pagos).
    destruct (nth i m false) eqn:Em.
    - now rewrite !andb_false_r.
    - symmetry. exact Hm. }
  rewrite loc_set_present by (intros c Hc; rewrite Hhas; auto).
  assert (Hmap : map (fun p : string * Series =>
                        if mem (fst p) vars
                        then (fst p, mask_assign m' VNull (snd p)) else p)
                   (columns out) = columns out).
  { rewrite <- (map_id (columns out)) at 2. apply map_ext.
    intros [c s]; simpl. destruct (mem c vars); [|reflexivity].
    now rewrite mask_assign_all_false. }
  f_equal. transitivity (mkDF (index out) (columns out)); [|reflexivity].
  f_equal. exact Hmap.
Qed.

(** ** Sorting *)

Lemma insert_sorted_perm {A : Type} (leb : A -> A -> bool) (x : A) (l : list A) :
  Permutation (insert_sorted leb x l) (x :: l).
Proof.
  induction l as [|y l IH]; simpl; [reflexivity|].
  destruct (leb x y); [reflexivity|].
  rewrite IH. apply perm_swap.
Qed.

Lemma isort_perm {A : Type} (leb : A -> A -> bool) (l : list A) :
  Permutation (isort leb l) l.
Proof.
  induction l as [|x l IH]; simpl; [reflexivity|].
  rewrite insert_sorted_perm. now constructor.
Qed.

Section SortedOn.

Context {A : Type} (leb : A -> A -> bool) (D : A -> Prop).
Hypothesis leb_total : forall x y, D x -> D y -> leb x y = true \/ leb y x = true.
Hypothesis leb_trans :
  forall x y z, D x -> D y -> D z ->
                leb x y = true -> leb y z = true -> leb x z = true.

Lemma insert_sorted_strongly (x : A) (l : list A) :
  D x -> Forall D l ->
  StronglySorted (fun a b => leb a b = true) l ->
  StronglySorted (fun a b => leb a b = true) (insert_sorted leb x l).
Proof.
  intros Hx Hl Hs. induction Hs as [|y l Hs IH Hy]; simpl.
  - constructor; constructor.
  - inversion Hl as [|? ? Dy Dl]; subst.
    destruct (leb x y) eqn:E.
    + constructor; [constructor; assumption|].
      constructor; [exact E|].
      rewrite Forall_forall in *. intros z Hz.
      apply (leb_trans x y z); auto.
    + constructor; [apply IH; assumption|].
      assert (Hyx : leb y x = true).
      { destruct (leb_total x y Hx Dy); congruence. }
      rewrite Forall_forall in *. intros z Hz.
      apply (Permutation_in _ (insert_sorted_perm leb x l)) in Hz.
      destruct Hz as [<- | Hz]; auto.
Qed.

Lemma isort_strongly (l : list A) :
  Forall D l -> StronglySorted (fun a b => leb a b = true) (isort leb l).
Proof.
  induction 1 as [|x l Hx Hl IH]; simpl; [constructor|].
  apply insert_sorted_strongly; auto.
  rewrite Forall_forall in *. intros z Hz. apply Hl.
  now apply (Permutation_in _ (isort_perm leb l)).
Qed.

End SortedOn.

Lemma StronglySorted_nth {A : Type} (R : A -> A -> Prop) (l : list A) (d : A) :
  StronglySorted R l ->
  forall i j, i < j -> j < length l -> R (nth i l d) (nth j l d).
Proof.
  induction 1 as [|x l Hs IH Hx]; intros i j Hij Hj; simpl in *; [lia|].
  destruct j as [|j]; [lia|]. destruct i as [|i].
  - rewrite Forall_forall in Hx. apply Hx. apply nth_In. lia.
  - apply IH; lia.
Qed.

(** ** The order of cells *)

Lemma string_compare_trans_lt_eq (a b c : string) :
  String.leb a b = true -> String.leb b c = true -> String.leb a c = true.
Proof.
  unfold String.leb. revert b c.
  induction a as [|x a IH]; intros [|y b] [|z c]; simpl; try congruence.
  unfold Ascii.compare.
  destruct (N.compare_spec (N_of_ascii x) (N_of_ascii y)) as [Exy|Exy|Exy];
    destruct (N.compare_spec (N_of_ascii y) (N_of_ascii z)) as [Eyz|Eyz|Eyz];
    destruct (N.compare_spec (N_of_ascii x) (N_of_ascii z)) as [Exz|Exz|Exz];
    try congruence; try lia; auto.
  apply IH.
Qed.

Lemma value_leb_total_text (a b : value) :
  is_text a = true -> is_text b = true ->
  value_leb a b = true \/ value_leb b a = true.
Proof.
  destruct a, b; cbn -[Z.leb String.leb]; try discriminate; auto. intros _ _.
  apply String.leb_total.
Qed.

Lemma value_leb_trans_text (a b c : value) :
  is_text a = true -> is_text b = true -> is_text c = true ->
  value_leb a b = true -> value_leb b c = true -> value_leb a c = true.
Proof.
  destruct a, b, c; cbn -[Z.leb String.leb]; try discriminate; auto. intros _ _ _.
  apply string_compare_trans_lt_eq.
Qed.

Lemma value_leb_total_datetime (a b : value) :
  is_datetime a = true -> is_datetime b = true ->
  value_leb a b = true \/ value_leb b a = true.
Proof.
  destruct a, b; cbn -[Z.leb String.leb]; try discriminate; auto. intros _ _.
  rewrite !Z.leb_le. lia.
Qed.

Lemma value_leb_trans_datetime (a b c : value) :
  is_datetime a = true -> is_datetime b = true -> is_datetime c = true ->
  value_leb a b = true -> value_leb b c = true -> value_leb a c = true.
Proof.
  destruct a, b, c; cbn -[Z.leb String.leb]; try discriminate; auto. intros _ _ _.
  rewrite !Z.leb_le. lia.
Qed.

Lemma lex_leb_pair (a1 a2 b1 b2 : value) :
  lex_leb [a1; a2] [b1; b2] = true <->
  value_leb a1 b1 = true /\ (value_leb b1 a1 = true -> value_leb a2 b2 = true).
Proof.
  simpl. destruct (value_leb a1 b1), (value_leb b1 a1), (value_leb a2 b2),
    (value_leb b2 a2); simpl; intuition congruence.
Qed.

(** ** Dates *)

Lemma to_datetime_cell_datetime `{PyLib} (v d : value) :
  to_datetime_cell v = Ok d -> is_datetime d = true.
Proof.
  unfold to_datetime_cell. destruct (isna v); [now intros [= <-]|].
  destruct v; try (destruct (parse_datetime _); intros [= <-]; reflexivity).
  now intros [= <-].
Qed.

Lemma to_datetime_datetime `{PyLib} (s s' : Series) :
  to_datetime s = Ok s' ->
  length s' = length s /\ Forall (fun d => is_datetime d = true) s'.
Proof.
  unfold to_datetime. revert s'. induction s as [|v s IH]; simpl; intros s' E.
  - injection E as <-. auto.
  - destruct (to_datetime_cell v) as [d|] eqn:Ev; simpl in E; [|discriminate].
    destruct (mapM to_datetime_cell s) as [ds|]; simpl in E; [|discriminate].
    injection E as <-. destruct (IH ds eq_refl) as [Hl Hf].
    split; [simpl; congruence|]. constructor; [|exact Hf].
    eapply to_datetime_cell_datetime; eauto.
Qed.

Lemma to_datetime_idempotent `{PyLib} (s : Series) :
  Forall (fun d => is_datetime d = true) s -> to_datetime s = Ok s.
Proof.
  unfold to_datetime. induction 1 as [|v s Hv _ IH]; simpl; [reflexivity|].
  rewrite IH. destruct v; try discriminate; reflexivity.
Qed.

Lemma dias_entre_cell (a b : Series) (r : nat) (x y : value) :
  nth_error a r = Some x -> nth_error b r = Some y ->
  nth_error (dias_entre a b) r = Some (dias_enteros x y).
Proof.
  intros Ha Hb. unfold dias_entre. rewrite nth_error_map.
  assert (E : nth_error (map2 datetime_sub a b) r = Some (datetime_sub x y)).
  { apply nth_error_map2. eauto. }
  rewrite E. simpl. now destruct x, y.
Qed.

(** ** Rows taken by position *)

Lemma getitem_take_rows (df : DataFrame) (rows : list nat) (c : string) :
  getitem (take_rows df rows) c = (s <- getitem df c ;; Ok (take s rows)).
Proof.
  unfold getitem, take_rows; simpl.
  rewrite (assoc_map_snd (fun s => take s rows)).
  destruct (assoc c (columns df)); reflexivity.
Qed.

Lemma nth_error_take (s : Series) (rows : list nat) (r : nat) :
  nth_error (take s rows) r =
  option_map (fun i => nth i s VNull) (nth_error rows r).
Proof. unfold take. apply nth_error_map. Qed.

Lemma sortable_kind (s : Series) (k : Z) :
  Forall (fun v => notna v = true -> kind_rank v = k) s -> sortable s = true.
Proof.
  intros H. unfold sortable.
  assert (Hf : Forall (fun v => kind_rank v = k) (filter notna s)).
  { rewrite Forall_forall in *. intros v Hv. apply filter_In in Hv as [Hv Hn].
    auto. }
  destruct (filter notna s) as [|v r]; [reflexivity|].
  inversion Hf as [|? ? Hv Hr]; subst.
  apply forallb_forall. intros w Hw. rewrite Forall_forall in Hr.
  rewrite (Hr w Hw). apply Z.eqb_refl.
Qed.

Lemma sortable_text (s : Series) :
  Forall (fun v => is_text v = true) s -> sortable s = true.
Proof.
  intros H. apply (sortable_kind s 2). eapply Forall_impl; [|exact H].
  intros [] Ht Hn; try discriminate; reflexivity.
Qed.

Lemma sortable_datetime (s : Series) :
  Forall (fun v => is_datetime v = true) s -> sortable s = true.
Proof.
  intros H. apply (sortable_kind s 1). eapply Forall_impl; [|exact H].
  intros [] Ht Hn; try discriminate; reflexivity.
Qed.

Lemma nth_Forall_default (P : value -> Prop) (s : Series) (i : nat) :
  P VNull -> Forall P s -> P (nth i s VNull).
Proof.
  intros Hd Hs. destruct (Nat.lt_ge_cases i (length s)) as [Hi|Hi].
  - rewrite Forall_forall in Hs. apply Hs, nth_In, Hi.
  - now rewrite nth_overflow.
Qed.

(** The positions in sorted order are ordered by (key, date), and a
    rearrangement of all positions. *)
Lemma sort_order_sorted (k d : Series) (n : nat) :
  Forall (fun v => is_text v = true) k ->
  Forall (fun v => is_datetime v = true) d ->
  forall r r', r < r' -> r' < n ->
    lex_leb (row_keys [k; d] (nth r (sort_order [k; d] n) 0))
            (row_keys [k; d] (nth r' (sort_order [k; d] n) 0)) = true.
Proof.
  intros Hk Hd r r' Hrr' Hr'.
  assert (Hlen : length (sort_order [k; d] n) = n).
  { unfold sort_order. rewrite (Permutation_length (isort_perm _ _)).
    apply length_seq. }
  apply (StronglySorted_nth
           (fun i j => lex_leb (row_keys [k; d] i) (row_keys [k; d] j) = true));
    [|exact Hrr'|now rewrite Hlen].
  unfold sort_order.
  apply (isort_strongly _ (fun _ => True)).
  - intros i j _ _. unfold row_keys; simpl map. rewrite !lex_leb_pair.
    pose proof (nth_Forall_default _ k i eq_refl Hk) as Ki.
    pose proof (nth_Forall_default _ k j eq_refl Hk) as Kj.
    pose proof (nth_Forall_default _ d i eq_refl Hd) as Di.
    pose proof (nth_Forall_default _ d j eq_refl Hd) as Dj.
    destruct (value_leb_total_text _ _ Ki Kj) as [E|E];
      destruct (value_leb_total_datetime _ _ Di Dj) as [F|F]; auto.
    + destruct (value_leb (nth j k VNull) (nth i k VNull)) eqn:G; auto.
      left. split; [exact E | discriminate].
    + destruct (value_leb (nth i k VNull) (nth j k VNull)) eqn:G; auto.
      right. split; [exact E | discriminate].
  - intros i j l _ _ _. unfold row_keys; simpl map. rewrite !lex_leb_pair.
    pose proof (nth_Forall_default _ k i eq_refl Hk) as Ki.
    pose proof (nth_Forall_default _ k j eq_refl Hk) as Kj.
    pose proof (nth_Forall_default _ k l eq_refl Hk) as Kl.
    pose proof (nth_Forall_default _ d i eq_refl Hd) as Di.
    pose proof (nth_Forall_default _ d j eq_refl Hd) as Dj.
    pose proof (nth_Forall_default _ d l eq_refl Hd) as Dl.
    intros [A1 A2] [B1 B2]. split.
    + eapply value_leb_trans_text; [| | |exact A1|exact B1]; assumption.
    + intros C. eapply value_leb_trans_datetime; [exact Di|exact Dj|exact Dl| |].
      * apply A2. eapply value_leb_trans_text; [| | |exact B1|exact C]; assumption.
      * apply B2. eapply value_leb_trans_text; [| | |exact C|exact A1]; assumption.
  - apply Forall_forall. auto.
Qed.

Lemma sort_order_perm (keys : list Series) (n : nat) :
  Permutation (sort_order keys n) (seq 0 n).
Proof. apply isort_perm. Qed.

(** ** The next event of a group *)

Lemma groupby_shift_next_nth (keys vals : Series) (r : nat) (k v : value) :
  nth_error keys r = Some k -> nth_error vals r = Some v ->
  nth_error (groupby_shift_next keys vals) r =
  Some (if isna k then VNull
        else next_in_group k (skipn (S r) keys) (skipn (S r) vals)).
Proof.
  revert vals r; induction keys as [|k0 keys IH]; intros [|v0 vals] [|r];
    simpl; try discriminate.
  - now intros [= ->] _.
  - apply IH.
Qed.

Lemma next_in_group_found (k : value) (keys vals : Series) (p : nat)
    (k' v : value) :
  nth_error keys p = Some k' -> nth_error vals p = Some v ->
  value_same k k' = true ->
  (forall q kq, q < p -> nth_error keys q = Some kq -> value_same k kq = false) ->
  next_in_group k keys vals = v.
Proof.
  revert vals p; induction keys as [|k0 keys IH]; intros [|v0 vals] [|p];
    simpl; try discriminate.
  - intros [= ->] [= ->] E _. now rewrite E.
  - intros Hk Hv E Hq.
    rewrite (Hq 0 k0) by (simpl; auto; lia).
    apply (IH vals p); auto.
    intros q kq Hlt Hkq. apply (Hq (S q) kq); [lia | exact Hkq].
Qed.

Lemma next_in_group_none (k : value) (keys vals : Series) :
  (forall q kq, nth_error keys q = Some kq -> value_same k kq = false) ->
  next_in_group k keys vals = VNull.
Proof.
  revert vals; induction keys as [|k0 keys IH]; intros [|v0 vals] Hq; simpl;
    try reflexivity.
  rewrite (Hq 0 k0) by reflexivity.
  apply IH. intros q kq Hkq. exact (Hq (S q) kq Hkq).
Qed.

Lemma value_same_text (e : string) (v : value) :
  value_same (VStr e) v = true <-> v = VStr e.
Proof.
  destruct v; simpl; try (split; [discriminate | intros [=]]).
  rewrite String.eqb_eq. split; [now intros -> | now intros [= ->]].
Qed.

Lemma length_take (s : Series) (rows : list nat) :
  length (take s rows) = length rows.
Proof. apply length_map. Qed.

Lemma nth_error_nth_lt (s : Series) (r : nat) :
  r < length s -> nth_error s r = Some (nth r s VNull).
Proof. intros H. now apply nth_error_nth'. Qed.

(** ** Temporal Stage Calculator *)

(** C6: on a history with text keys and timestamps whose differences fit
    a timedelta, [calcular_tiempos_etapas] returns the events, every
    row kept once, in ascending order of (entity key, start timestamp);
    [tiempo_etapa_dias] is the end timestamp minus the start timestamp in
    whole days, 0 when a timestamp is missing; [tiempo_entre_etapas_dias] is
    the start of the next event of the same entity minus the start of the
    event in whole days, and 0 for the last event of an entity. *)
Theorem calcular_tiempos_etapas_correct `{PyLib}
    (historial_etapas : DataFrame) (lk created fin created' fin' : Series)
    (H_LK : getitem historial_etapas "LK_Oportunidad__c" = Ok lk)
    (H_created : getitem historial_etapas "CreatedDate" = Ok created)
    (H_fin : getitem historial_etapas "Fecha_fin_etapa__c" = Ok fin)
    (H_created' : to_datetime created = Ok created')
    (H_fin' : to_datetime fin = Ok fin')
    (H_text : Forall (fun v => is_text v = true) lk)
    (H_rango : Forall (fun v => en_rango v = true) (created' ++ fin')) :
  exists t orden,
    calcular_tiempos_etapas historial_etapas = Ok t /\
    let out := historial_con_tiempos t in
    let n := nrows historial_etapas in
    let lk_s := take lk orden in
    let created_s := take created' orden in
    let fin_s := take fin' orden in
    Permutation orden (seq 0 n) /\
    index out = map (fun i => nth i (index historial_etapas) 0%Z) orden /\
    (forall c s,
        c <> "tiempo_etapa_dias" -> c <> "tiempo_entre_etapas_dias" ->
        getitem (historial_del_llamador t) c = Ok s ->
        getitem out c = Ok (take s orden)) /\
    getitem (historial_del_llamador t) "LK_Oportunidad__c" = Ok lk /\
    getitem (historial_del_llamador t) "CreatedDate" = Ok created' /\
    getitem (historial_del_llamador t) "Fecha_fin_etapa__c" = Ok fin' /\
    (forall r r', r < r' -> r' < n ->
        lex_leb [nth r lk_s VNull; nth r created_s VNull]
                [nth r' lk_s VNull; nth r' created_s VNull] = true) /\
    (forall r, r < n ->
        cell out "tiempo_etapa_dias" r =
        Some (dias_enteros (nth r fin_s VNull) (nth r created_s VNull))) /\
    (forall r r' e,
        r < r' -> r' < n ->
        nth r lk_s VNull = VStr e -> nth r' lk_s VNull = VStr e ->
        (forall q, r < q -> q < r' -> nth q lk_s VNull <> VStr e) ->
        cell out "tiempo_entre_etapas_dias" r =
        Some (dias_enteros (nth r' created_s VNull) (nth r created_s VNull))) /\
    (forall r, r < n ->
        nth r lk_s VNull = VNull \/
        (forall q, r < q -> q < n -> nth q lk_s VNull <> nth r lk_s VNull) ->
        cell out "tiempo_entre_etapas_dias" r = Some (VInt 0)).
Proof.
  destruct (to_datetime_datetime _ _ H_created') as [_ Hdt].
  set (h1 := setitem historial_etapas "CreatedDate" created').
  set (h2 := setitem h1 "Fecha_fin_etapa__c" fin').
  set (n := nrows historial_etapas).
  set (orden := sort_order [lk; created'] n).
  assert (G_lk : getitem h2 "LK_Oportunidad__c" = Ok lk).
  { unfold h2, h1. now rewrite !getitem_setitem_other by discriminate. }
  assert (G_cr : getitem h2 "CreatedDate" = Ok created').
  { unfold h2, h1. rewrite getitem_setitem_other by discriminate.
    apply getitem_setitem_same. }
  assert (G_fin : getitem h2 "Fecha_fin_etapa__c" = Ok fin').
  { unfold h2. apply getitem_setitem_same. }
  assert (Hsort : sort_values h2 ["LK_Oportunidad__c"; "CreatedDate"] =
                  Ok (take_rows h2 orden)).
  { unfold sort_values. simpl mapM. rewrite G_lk, G_cr. simpl.
    rewrite (sortable_text _ H_text), (sortable_datetime _ Hdt). reflexivity. }
  set (ordenado := take_rows h2 orden).
  set (d1 := dias_entre (take fin' orden) (take created' orden)).
  set (o1 := setitem ordenado "tiempo_etapa_dias" d1).
  set (d2 := dias_entre (groupby_shift_next (take lk orden) (take created' orden))
               (take created' orden)).
  assert (Hlen : length orden = n).
  { unfold orden. rewrite (Permutation_length (sort_order_perm _ _)).
    apply length_seq. }
  assert (Hrun : calcular_tiempos_etapas historial_etapas =
                 Ok (mkTiempos h2 (setitem o1 "tiempo_entre_etapas_dias" d2))).
  { unfold calcular_tiempos_etapas. rewrite H_created; simpl.
    rewrite H_created'; simpl. fold h1.
    unfold h1 at 1. rewrite getitem_setitem_other, H_fin by discriminate; simpl.
    rewrite H_fin'; simpl. fold h2. rewrite Hsort; simpl. fold ordenado.
    unfold ordenado at 1 2. rewrite !getitem_take_rows, G_fin, G_cr; simpl.
    fold d1. fold ordenado. fold o1.
    unfold o1 at 1 2 3. rewrite !getitem_setitem_other by discriminate.
    unfold ordenado at 1 2 3. rewrite !getitem_take_rows, G_lk, G_cr; simpl.
    reflexivity. }
  exists (mkTiempos h2 (setitem o1 "tiempo_entre_etapas_dias" d2)), orden.
  split; [exact Hrun|]. cbn zeta. cbn [historial_con_tiempos historial_del_llamador].
  fold n.
  assert (Hnth : forall (s : Series) r, r < n ->
            nth_error (take s orden) r = Some (nth r (take s orden) VNull)).
  { intros s r Hr. apply nth_error_nth_lt. now rewrite length_take, Hlen. }
  repeat split.
  - apply sort_order_perm.
  - intros c s Hc1 Hc2 Hs.
    rewrite getitem_setitem_other by exact Hc2. unfold o1.
    rewrite getitem_setitem_other by exact Hc1. unfold ordenado.
    now rewrite getitem_take_rows, Hs.
  - exact G_lk.
  - exact G_cr.
  - exact G_fin.
  - intros r r' Hrr' Hr'.
    assert (E : forall (s : Series) q, q < n ->
              nth q (take s orden) VNull = nth (nth q orden 0) s VNull).
    { intros s q Hq. unfold take.
      rewrite (nth_indep _ VNull (nth 0 s VNull)) by now rewrite length_map, Hlen.
      now rewrite (map_nth (fun i => nth i s VNull)). }
    rewrite !E by lia.
    apply (sort_order_sorted lk created' n H_text Hdt r r' Hrr' Hr').
  - intros r Hr. unfold cell; cbn [columns setitem].
    rewrite assoc_set_other by discriminate.
    unfold o1; cbn [columns setitem]. rewrite assoc_set_same.
    unfold d1. apply dias_entre_cell; now apply Hnth.
  - intros r r' e Hrr' Hr' Ek Ek' Hno.
    unfold cell; cbn [columns setitem]. rewrite assoc_set_same. unfold d2.
    assert (Hr : r < n) by lia.
    apply dias_entre_cell; [|now apply Hnth].
    rewrite (groupby_shift_next_nth _ _ r _ _ (Hnth lk r Hr) (Hnth created' r Hr)).
    rewrite Ek. cbn [isna]. f_equal.
    apply (next_in_group_found _ _ _ (r' - S r) (VStr e)).
    + rewrite nth_error_skipn. replace (S r + (r' - S r)) with r' by lia.
      now rewrite (Hnth lk r' Hr'), Ek'.
    + rewrite nth_error_skipn. replace (S r + (r' - S r)) with r' by lia.
      now apply Hnth.
    + now apply value_same_text.
    + intros q kq Hq Hkq. rewrite nth_error_skipn in Hkq.
      destruct (value_same (VStr e) kq) eqn:E; [|reflexivity].
      apply value_same_text in E. subst kq. exfalso.
      apply (Hno (S r + q)); [lia | lia |].
      rewrite (Hnth lk (S r + q)) in Hkq by lia. congruence.
  - intros r Hr Hlast.
    unfold cell; cbn [columns setitem]. rewrite assoc_set_same. unfold d2.
    pose proof (Hnth lk r Hr) as Hk. pose proof (Hnth created' r Hr) as Hc.
    rewrite (dias_entre_cell _ _ r _ _
               (groupby_shift_next_nth _ _ r _ _ Hk Hc) Hc).
    f_equal.
    assert (Ht : is_text (nth r (take lk orden) VNull) = true).
    { unfold take.
      rewrite (nth_indep _ VNull (nth 0 lk VNull)) by now rewrite length_map, Hlen.
      rewrite (map_nth (fun i => nth i lk VNull)).
      now apply (nth_Forall_default (fun v => is_text v = true)). }
    destruct (nth r (take lk orden) VNull) as [|e| | |] eqn:Ek; try discriminate;
      [reflexivity|].
    destruct Hlast as [Hnull | Hlast]; [discriminate|].
    cbn [isna]. rewrite next_in_group_none; [reflexivity|].
    intros q kq Hkq. rewrite nth_error_skipn in Hkq.
    destruct (value_same (VStr e) kq) eqn:E; [|reflexivity].
    apply value_same_text in E. subst kq. exfalso.
    assert (Hq : S r + q < n).
    { rewrite <- Hlen, <- (length_take lk). apply nth_error_Some. congruence. }
    apply (Hlast (S r + q)); [lia | exact Hq |].
    rewrite (Hnth lk _ Hq) in Hkq. congruence.
Qed.

(** ** Columns as images of row lists *)

Lemma mask_filter_map {A B : Type} (h : A -> bool) (g : A -> B) (l : list A) :
  mask_filter (map h l) (map g l) = map g (filter h l).
Proof.
  induction l as [|x l IH]; simpl; [reflexivity|].
  destruct (h x); simpl; now rewrite IH.
Qed.

Lemma map2_map {A B C D : Type} (f : B -> C -> D) (g : A -> B) (h : A -> C)
    (l : list A) :
  map2 f (map g l) (map h l) = map (fun x => f (g x) (h x)) l.
Proof. induction l as [|x l IH]; simpl; [reflexivity | now rewrite IH]. Qed.

Lemma map_flat_map {A B C : Type} (g : B -> C) (f : A -> list B) (l : list A) :
  map g (flat_map f l) = flat_map (fun x => map g (f x)) l.
Proof.
  induction l as [|x l IH]; simpl; [reflexivity|].
  now rewrite map_app, IH.
Qed.

Lemma merge_pairs_inner (lkeys rkeys : list Series) (nl nr : nat) :
  merge_pairs Inner lkeys rkeys nl nr =
  map (fun p => (fst p, Some (snd p))) (inner_pairs lkeys rkeys nl nr).
Proof.
  unfold merge_pairs, inner_pairs. rewrite map_flat_map.
  apply flat_map_ext. intros i. rewrite map_map. simpl.
  now destruct (matches lkeys rkeys nr i).
Qed.

Lemma filter_map_swap {A B : Type} (q : B -> bool) (g : A -> B) (l : list A) :
  filter q (map g l) = map g (filter (fun x => q (g x)) l).
Proof.
  induction l as [|x l IH]; simpl; [reflexivity|].
  destruct (q (g x)); simpl; now rewrite IH.
Qed.

Lemma filter_and {A : Type} (p q : A -> bool) (l : list A) :
  filter q (filter p l) = filter (fun x => p x && q x) l.
Proof.
  induction l as [|x l IH]; simpl; [reflexivity|].
  destruct (p x); simpl; [destruct (q x)|]; now rewrite IH.
Qed.

Lemma map_nth_seq_all {A : Type} (l : list A) (d : A) :
  map (fun i => nth i l d) (seq 0 (length l)) = l.
Proof.
  induction l as [|x l IH]; simpl; [reflexivity|].
  rewrite <- seq_shift, map_map. simpl. now rewrite IH.
Qed.

Lemma length_filter_positions {A : Type} (Q : A -> bool) (l : list A) (d : A) :
  length (filter (fun j => Q (nth j l d)) (seq 0 (length l))) =
  length (filter Q l).
Proof.
  transitivity (length (filter Q (map (fun i => nth i l d) (seq 0 (length l))))).
  - now rewrite filter_map_swap, length_map.
  - now rewrite map_nth_seq_all.
Qed.

Lemma mask_filter_kept {A : Type} (m : list bool) (s : list A) (d : A) :
  length s = length m ->
  mask_filter m s = map (fun j => nth j s d) (kept m).
Proof.
  unfold kept. revert s; induction m as [|b m IH]; intros [|x s] Hlen;
    try discriminate; [reflexivity|].
  injection Hlen as Hlen.
  cbn [mask_filter length]. rewrite (IH s Hlen).
  cbn [seq]. rewrite <- seq_shift. cbn [filter nth].
  rewrite filter_map_swap. cbn [nth].
  destruct b; cbn [map nth]; now rewrite map_map.
Qed.

Lemma kept_lt (m : list bool) (j : nat) : In j (kept m) -> j < length m.
Proof.
  unfold kept. rewrite filter_In, in_seq. lia.
Qed.

(** Counting over the kept rows is counting over all rows under the mask. *)
Lemma count_kept (m : list bool) (Q : nat -> bool) :
  length (filter (fun j' => Q (nth j' (kept m) 0)) (seq 0 (length (kept m)))) =
  length (filter (fun j => nth j m false && Q j) (seq 0 (length m))).
Proof.
  rewrite (length_filter_positions Q (kept m) 0).
  unfold kept. now rewrite filter_and.
Qed.

Lemma series_sum_indicator {A : Type} (a : A -> bool) (l : list A) :
  series_sum (map (fun p => VInt (if a p then 1 else 0)) l) =
  VInt (Z.of_nat (length (filter a l))).
Proof.
  unfold series_sum. f_equal.
  induction l as [|x l IH]; simpl; [reflexivity|].
  rewrite IH. destruct (a x); simpl length; lia.
Qed.

Lemma filter_fst_flat_map {B : Type} (f : nat -> list B) (l : list nat) (i : nat) :
  NoDup l ->
  filter (fun p => Nat.eqb (fst p) i) (flat_map (fun i' => map (pair i') (f i')) l) =
  if existsb (Nat.eqb i) l then map (pair i) (f i) else [].
Proof.
  induction 1 as [|x l Hx Hl IH]; simpl; [reflexivity|].
  rewrite filter_app, IH.
  assert (E : forall b : bool,
            filter (fun p : nat * B => Nat.eqb (fst p) i) (map (pair x) (f x)) =
            if Nat.eqb x i then map (pair x) (f x) else []).
  { intros _. induction (f x) as [|y r IHr]; simpl.
    - now destruct (Nat.eqb x i).
    - rewrite IHr. now destruct (Nat.eqb x i). }
  rewrite (E true). rewrite (Nat.eqb_sym i x).
  destruct (Nat.eqb x i) eqn:Exi; simpl.
  - apply Nat.eqb_eq in Exi. subst x.
    replace (existsb (Nat.eqb i) l) with false; [apply app_nil_r|].
    symmetry. apply not_true_is_false. intros H. apply existsb_exists in H.
    destruct H as (y & Hy & E'). apply Nat.eqb_eq in E'. now subst.
  - reflexivity.
Qed.

(** ** Groups and look-ups on exact keys *)

Lemma filter_none {A : Type} (p : A -> bool) (l : list A) :
  (forall x, In x l -> p x = false) -> filter p l = [].
Proof.
  induction l as [|x l IH]; simpl; intros H; [reflexivity|].
  rewrite (H x) by now left. apply IH. intros y Hy. apply H. now right.
Qed.

Lemma value_same_refl_key (k : value) : is_key k = true -> value_same k k = true.
Proof. intros H. now apply value_same_key. Qed.

Lemma is_key_notna (k : value) : is_key k = true -> notna k = true.
Proof. now destruct k. Qed.

Lemma unique_incl (s : Series) (x : value) : In x (unique s) -> In x s.
Proof.
  revert x; induction s as [|a s IH]; simpl; [tauto|].
  intros x [-> | H]; auto. apply filter_In in H as [H _]. auto.
Qed.

Lemma unique_NoDup_key (s : Series) :
  Forall (fun v => is_key v = true) s -> NoDup (unique s).
Proof.
  induction 1 as [|a s Ha _ IH]; simpl; constructor.
  - intros Hin. apply filter_In in Hin as [_ Hin].
    now rewrite (value_same_refl_key a Ha) in Hin.
  - now apply NoDup_filter.
Qed.

Lemma key_or_null_notna (v : value) :
  is_key_or_null v = true -> notna v = true -> is_key v = true.
Proof. destruct v; simpl; intros; try reflexivity; discriminate. Qed.

Lemma group_keys_key (keys : Series) :
  Forall (fun v => is_key_or_null v = true) keys ->
  NoDup (group_keys keys) /\
  Forall (fun v => is_key v = true) (group_keys keys) /\
  forall k, is_key k = true -> (In k (group_keys keys) <-> In k keys).
Proof.
  intros Hk. unfold group_keys.
  assert (Hf : Forall (fun v => is_key v = true) (filter notna keys)).
  { apply Forall_forall. intros v Hv. apply filter_In in Hv as [Hv Hn].
    rewrite Forall_forall in Hk. apply key_or_null_notna; auto. }
  pose proof (isort_perm value_leb (unique (filter notna keys))) as Hp.
  assert (Hin : forall k,
            In k (isort value_leb (unique (filter notna keys))) ->
            In k (filter notna keys)).
  { intros k H. apply unique_incl. now apply (Permutation_in _ Hp). }
  split; [|split].
  - apply (Permutation_NoDup (Permutation_sym Hp)). now apply unique_NoDup_key.
  - apply Forall_forall. intros k H. apply Hin in H.
    rewrite Forall_forall in Hf. auto.
  - intros k Kk. split.
    + intros H. apply Hin in H. apply filter_In in H. tauto.
    + intros H. apply (Permutation_in _ (Permutation_sym Hp)).
      apply In_unique_key; [exact Kk|].
      apply filter_In. split; [exact H | now apply is_key_notna].
Qed.

(** The rows of a duplicate-free key column that match a key: one at most. *)
Lemma matches_unique (ks : Series) (k : value) :
  NoDup ks -> Forall (fun v => is_key v = true) ks -> is_key k = true ->
  (In k ks ->
   exists j, matches [[k]] [ks] (length ks) 0 = [j] /\ nth j ks VNull = k) /\
  (~ In k ks -> matches [[k]] [ks] (length ks) 0 = []).
Proof.
  intros Hnd Hks Hk. unfold matches, row_keys. cbn [map nth keys_same].
  induction Hnd as [|x r Hx Hr IH].
  - split; [intros [] | reflexivity].
  - inversion Hks as [|? ? Kx Kr]; subst. specialize (IH Kr).
    cbn [length seq]. rewrite <- seq_shift. cbn [filter nth].
    rewrite filter_map_swap. cbn [nth].
    destruct (value_same k x) eqn:E.
    + apply value_same_key in E; [|exact Kx]. subst x.
      destruct IH as [_ IH]. rewrite (IH Hx). split; [|intros H; elim H; now left].
      intros _. exists 0. split; reflexivity.
    + cbn [andb]. split.
      * intros [-> | Hin]; [now rewrite (value_same_refl_key k Hk) in E|].
        destruct IH as [IH _]. destruct (IH Hin) as (j & Ej & Hj).
        exists (S j). rewrite Ej. split; [reflexivity | exact Hj].
      * intros Hnin. destruct IH as [_ IH]. rewrite IH; [reflexivity|].
        intros Hin. apply Hnin. now right.
Qed.

Lemma matches_null (ks : Series) :
  Forall (fun v => is_key v = true) ks ->
  matches [[VNull]] [ks] (length ks) 0 = [].
Proof.
  intros Hks. unfold matches, row_keys. cbn [map nth keys_same].
  apply filter_none. intros j Hj. apply in_seq in Hj.
  assert (Kj : is_key (nth j ks VNull) = true).
  { rewrite Forall_forall in Hks. apply Hks, nth_In. lia. }
  now destruct (nth j ks VNull).
Qed.

Lemma set_contains_null (ks : Series) :
  Forall (fun v => is_key v = true) ks -> set_contains ks VNull = false.
Proof.
  intros Hks. unfold set_contains. apply not_true_is_false. intros H.
  apply existsb_exists in H as (k & Hk & E).
  rewrite Forall_forall in Hks. specialize (Hks k Hk). now destruct k.
Qed.

Lemma matches_single_key (lk ks : Series) (nr i : nat) :
  matches [lk] [ks] nr i = matches [[nth i lk VNull]] [ks] nr 0.
Proof. reflexivity. Qed.

(** A left join against a duplicate-free key column is a look-up: one result
    row per left row, carrying the right cells of its key, if any. *)
Lemma left_lookup (lk ks : Series) (f : value -> value) (n : nat) :
  NoDup ks -> Forall (fun v => is_key v = true) ks ->
  (forall i, i < n -> is_key_or_null (nth i lk VNull) = true) ->
  map fst (merge_pairs Left [lk] [ks] n (length ks)) = seq 0 n /\
  take_opt (map f ks) (map snd (merge_pairs Left [lk] [ks] n (length ks))) =
  map (fun i => if set_contains ks (nth i lk VNull)
                then f (nth i lk VNull) else VNull) (seq 0 n).
Proof.
  intros Hnd Hks Hlk. unfold merge_pairs.
  assert (G : forall l, (forall i, In i l -> i < n) ->
    map fst (flat_map (fun i =>
                match matches [lk] [ks] (length ks) i, Left with
                | [], Left => [(i, None)]
                | js, _ => map (fun j => (i, Some j)) js
                end) l) = l /\
    take_opt (map f ks)
      (map snd (flat_map (fun i =>
                match matches [lk] [ks] (length ks) i, Left with
                | [], Left => [(i, None)]
                | js, _ => map (fun j => (i, Some j)) js
                end) l)) =
    map (fun i => if set_contains ks (nth i lk VNull)
                  then f (nth i lk VNull) else VNull) l).
  { induction l as [|i l IH]; intros Hl; [split; reflexivity|].
    destruct IH as [IH1 IH2]; [intros; apply Hl; now right|].
    cbn [flat_map]. rewrite !map_app. unfold take_opt in *. rewrite map_app.
    rewrite IH1, IH2. cbn [map].
    assert (Ki' : is_key_or_null (nth i lk VNull) = true)
      by (apply Hlk, Hl; now left).
    rewrite matches_single_key.
    destruct (is_key (nth i lk VNull)) eqn:Ki.
    2:{ assert (En : nth i lk VNull = VNull)
          by (destruct (nth i lk VNull); try discriminate; reflexivity).
        rewrite En, (matches_null ks Hks), (set_contains_null ks Hks).
        split; reflexivity. }
    destruct (matches_unique ks _ Hnd Hks Ki) as [Hin Hout].
    destruct (set_contains ks (nth i lk VNull)) eqn:Es.
    - apply set_contains_key in Es; [|exact Ki].
      destruct (Hin Es) as (j & -> & Hj). cbn [map app fst snd].
      split; [reflexivity|]. f_equal.
      rewrite <- Hj.
      assert (Hlt : j < length ks).
      { destruct (Nat.lt_ge_cases j (length ks)) as [H|H]; [exact H|].
        rewrite nth_overflow in Hj by exact H.
        rewrite <- Hj in Ki. discriminate. }
      rewrite (nth_indep _ VNull (f VNull)) by now rewrite length_map.
      apply map_nth.
    - assert (Hn : ~ In (nth i lk VNull) ks).
      { intros H. apply (set_contains_key _ _ Ki) in H. congruence. }
      rewrite (Hout Hn). split; reflexivity. }
  apply G. intros i Hi. apply in_seq in Hi. lia.
Qed.

(** ** Progressive Activity Aggregator *)

Lemma rename_column_absent (df : DataFrame) (old new : string) :
  has_col df old = false -> rename_column df old new = df.
Proof.
  unfold rename_column, has_col, colnames. destruct df as [idx cols]; simpl.
  intros H. f_equal. induction cols as [|[c s] cols IH]; simpl in *; [reflexivity|].
  apply orb_false_iff in H as [Hc H]. rewrite String.eqb_sym in Hc.
  now rewrite Hc, IH.
Qed.

Lemma assoc_app_r (c : string) (l r : list (string * Series)) :
  mem c (map fst l) = false -> assoc c (l ++ r) = assoc c r.
Proof.
  induction l as [|[c' s] l IH]; simpl; [reflexivity|].
  intros H. apply orb_false_iff in H as [Hc H]. now rewrite Hc, IH.
Qed.

Lemma assoc_app_l (c : string) (l r : list (string * Series)) :
  mem c (map fst l) = true -> assoc c (l ++ r) = assoc c l.
Proof.
  induction l as [|[c' s] l IH]; simpl; [discriminate|].
  destruct (String.eqb c c'); [reflexivity | exact IH].
Qed.

Lemma assoc_filter_keep (c : string) (q : string -> bool)
    (l : list (string * Series)) :
  q c = true ->
  assoc c (filter (fun p => q (fst p)) l) = assoc c l.
Proof.
  intros Hq. induction l as [|[c' s] l IH]; simpl; [reflexivity|].
  destruct (q c') eqn:E; simpl.
  - destruct (String.eqb c c'); [reflexivity | exact IH].
  - destruct (String.eqb c c') eqn:E'; [|exact IH].
    apply String.eqb_eq in E'. congruence.
Qed.

Lemma suffixed_nil (suffix c : string) : suffixed [] suffix c = c.
Proof. reflexivity. Qed.

Lemma well_formed_length (df : DataFrame) (c : string) (s : Series) :
  well_formed df -> getitem df c = Ok s -> length s = nrows df.
Proof.
  unfold well_formed, getitem. intros Hwf.
  induction (columns df) as [|[c' s'] l IH]; simpl; [discriminate|].
  inversion Hwf as [|? ? H1 H2]; subst.
  destruct (String.eqb c c'); [intros [= <-]; exact H1 | now apply IH].
Qed.

Lemma getitem_column_or_empty (df : DataFrame) (c : string) (s : Series) :
  getitem df c = Ok s -> column_or_empty df c = s.
Proof.
  unfold getitem, column_or_empty.
  destruct (assoc c (columns df)); [now intros [= ->] | discriminate].
Qed.

Lemma to_datetime_map `{PyLib} (s s' : Series) :
  to_datetime s = Ok s' -> s' = map fecha_de s.
Proof.
  unfold to_datetime. revert s'; induction s as [|v s IH]; simpl; intros s' E.
  - now injection E as <-.
  - unfold fecha_de at 1.
    destruct (to_datetime_cell v) as [d|]; simpl in E; [|discriminate].
    destruct (mapM to_datetime_cell s) as [ds|]; simpl in E; [|discriminate].
    injection E as <-. now rewrite (IH ds eq_refl).
Qed.

Lemma fecha_de_null `{PyLib} : fecha_de VNull = VNull.
Proof. reflexivity. Qed.

Lemma forallb_negb {A : Type} (f : A -> bool) (l : list A) :
  forallb (fun x => negb (f x)) l = negb (existsb f l).
Proof.
  induction l as [|x l IH]; simpl; [reflexivity|].
  now rewrite IH, negb_orb.
Qed.

Lemma mascara_tipo_valida `{PyLib} (tipo : Series) :
  mascara_tipo tipo = map etiqueta_valida tipo.
Proof.
  unfold mascara_tipo, mask_and, mask_not, series_ne, series_str_strip,
    series_str_contains.
  rewrite map_map, map2_map, (map_map _ negb), map2_map.
  apply map_ext. intros v. unfold etiqueta_valida.
  destruct v; cbn -[keywords_excluir notna];
    rewrite ?forallb_negb, ?andb_true_r; reflexivity.
Qed.

Lemma getitem_assoc (df : DataFrame) (c : string) (s : Series) :
  getitem df c = Ok s <-> assoc c (columns df) = Some s.
Proof.
  unfold getitem. destruct (assoc c (columns df)); split; intros E;
    try discriminate; now injection E as ->.
Qed.

Lemma has_col_false_assoc (df : DataFrame) (c : string) :
  has_col df c = false -> assoc c (columns df) = None.
Proof.
  intros H. destruct (assoc c (columns df)) as [s|] eqn:E; [|reflexivity].
  assert (has_col df c = true) by (apply has_col_getitem; exists s;
                                   now apply getitem_assoc).
  congruence.
Qed.

Lemma reset_index_ok (df : DataFrame) :
  has_col df "index" = false ->
  reset_index df =
  Ok (mkDF (range_index (nrows df)) (("index", map VInt (index df)) :: columns df)).
Proof. intros H. unfold reset_index. now rewrite H, H. Qed.

Lemma length_range_index (n : nat) : length (range_index n) = n.
Proof. unfold range_index. now rewrite length_map, length_seq. Qed.

Lemma mem_map_fst_false (c : string) (df : DataFrame) :
  has_col df c = false -> mem c (map fst (columns df)) = false.
Proof. intros H. exact H. Qed.

(** ** From grouped sums to counts *)

Lemma filter_comm {A : Type} (p q : A -> bool) (l : list A) :
  filter p (filter q l) = filter q (filter p l).
Proof.
  rewrite !filter_and. apply filter_ext. intros x. apply andb_comm.
Qed.

Lemma nth_map_VInt (labels : list Z) (i : nat) :
  i < length labels -> nth i (map VInt labels) VNull = VInt (nth i labels 0%Z).
Proof.
  intros Hi. rewrite (nth_indep _ VNull (VInt 0)) by now rewrite length_map.
  apply map_nth.
Qed.

Lemma group_cells_map {A : Type} (g h : A -> value) (k : value) (l : list A) :
  group_cells (map g l) (map h l) k =
  map h (filter (fun p => value_same k (g p)) l).
Proof.
  unfold group_cells. rewrite map_map. apply mask_filter_map.
Qed.

(** The consolidation step gives every master row the number of surviving
    pairs that carry the row's label and the wanted status. *)
Lemma contador_lookup (labels : list Z) (P : list (nat * nat)) (st : Series)
    (ind : value -> bool) :
  (forall p, In p P -> fst p < length labels) ->
  let fila := map (fun p => nth (fst p) (map VInt labels) VNull) P in
  let col := map (fun p => VInt (if ind (nth (snd p) st VNull) then 1 else 0)) P in
  let pairs := merge_pairs Left [map VInt labels] [group_keys fila]
                 (length labels) (length (group_keys fila)) in
  map fst pairs = seq 0 (length labels) /\
  map (fillna (VInt 0))
      (take_opt (map (fun k => series_sum (group_cells fila col k))
                     (group_keys fila))
                (map snd pairs)) =
  map (contador labels P st ind) (seq 0 (length labels)).
Proof.
  intros HP fila col pairs.
  assert (Hfila : Forall (fun v => is_key_or_null v = true) fila).
  { apply Forall_forall. intros v Hv. unfold fila in Hv.
    apply in_map_iff in Hv as (p & <- & Hp).
    now rewrite nth_map_VInt by auto. }
  destruct (group_keys_key fila Hfila) as (Hnd & Hks & Hin).
  assert (Hlab : forall i, i < length labels ->
            is_key_or_null (nth i (map VInt labels) VNull) = true).
  { intros i Hi. now rewrite nth_map_VInt. }
  destruct (left_lookup (map VInt labels) (group_keys fila)
              (fun k => series_sum (group_cells fila col k))
              (length labels) Hnd Hks Hlab) as [E1 E2].
  split; [exact E1|].
  unfold pairs. cbn beta in E2.
  etransitivity; [exact (f_equal (map (fillna (VInt 0))) E2)|].
  rewrite map_map. apply map_ext_in.
  intros i Hi. apply in_seq in Hi. rewrite nth_map_VInt by lia.
  assert (Hsame : forall p, In p P ->
            value_same (VInt (nth i labels 0%Z))
              (nth (fst p) (map VInt labels) VNull) =
            Z.eqb (nth i labels 0%Z) (nth (fst p) labels 0%Z)).
  { intros p Hp. now rewrite nth_map_VInt by auto. }
  unfold contador.
  destruct (set_contains (group_keys fila) (VInt (nth i labels 0%Z))) eqn:Es.
  - unfold fila, col. rewrite group_cells_map, series_sum_indicator, filter_and.
    cbn [fillna isna]. do 3 f_equal. apply filter_ext_in.
    intros p Hp. now rewrite Hsame.
  - cbn [fillna isna]. do 2 f_equal.
    rewrite filter_none; [reflexivity|].
    intros p Hp. apply andb_false_iff. left.
    destruct (Z.eqb (nth i labels 0%Z) (nth (fst p) labels 0%Z)) eqn:E;
      [|reflexivity].
    exfalso. apply Z.eqb_eq in E.
    assert (Hc : set_contains (group_keys fila) (VInt (nth i labels 0%Z)) = true).
    { apply set_contains_key; [reflexivity|]. apply Hin; [reflexivity|].
      unfold fila.
      apply in_map_iff. exists p. split; [|exact Hp].
      rewrite nth_map_VInt by auto. now rewrite E. }
    congruence.
Qed.

Lemma inner_pairs_fst (lkeys rkeys : list Series) (nl nr : nat) (p : nat * nat) :
  In p (inner_pairs lkeys rkeys nl nr) -> fst p < nl.
Proof.
  unfold inner_pairs. rewrite in_flat_map. intros (i & Hi & Hp).
  apply in_map_iff in Hp as (j & <- & _). apply in_seq in Hi. simpl. lia.
Qed.

Lemma take_map_fst (s : Series) (P : list (nat * nat)) :
  take s (map fst (map (fun p : nat * nat => (fst p, Some (snd p))) P)) =
  map (fun p => nth (fst p) s VNull) P.
Proof. unfold take. now rewrite !map_map. Qed.

Lemma take_opt_map_snd (s : Series) (P : list (nat * nat)) :
  take_opt s (map snd (map (fun p : nat * nat => (fst p, Some (snd p))) P)) =
  map (fun p => nth (snd p) s VNull) P.
Proof. unfold take_opt. now rewrite !map_map. Qed.

Section IntegrarRun.

Context `{PyLib}.
Variables (df_master df_actividades : DataFrame).
Variables (tipo a_created estado contact course : Series).
Variables (m_created id18 curso a_dates m_dates : Series).
Hypothesis HA_tipo : getitem df_actividades col_tipo_act = Ok tipo.
Hypothesis HA_created : getitem df_actividades "CreatedDate" = Ok a_created.
Hypothesis HA_estado : getitem df_actividades "Estado_del_miembro__c" = Ok estado.
Hypothesis HA_contact : getitem df_actividades "ContactId" = Ok contact.
Hypothesis HA_course :
  getitem df_actividades "Campaign.AcademicCourse__c" = Ok course.
Hypothesis HM_created : getitem df_master "CreatedDate" = Ok m_created.
Hypothesis HM_id18 : getitem df_master "ID18__PC" = Ok id18.
Hypothesis HM_curso : getitem df_master "PL_CURSO_ACADEMICO" = Ok curso.
Hypothesis H_adates :
  to_datetime (mask_filter (mascara_tipo tipo) a_created) = Ok a_dates.
Hypothesis H_mdates : to_datetime m_created = Ok m_dates.
Hypothesis HM_index : has_col df_master "index" = false.
Hypothesis HM_asist : has_col df_master "num_asistencias_acum" = false.
Hypothesis HM_solic : has_col df_master "num_solicitudes_acum" = false.

Local Abbreviation mask := (mascara_tipo tipo).
Local Abbreviation n := (nrows df_master).
Local Abbreviation nr := (length (mask_filter mask (index df_actividades))).
Local Abbreviation status :=
  (series_str_lower (mask_filter mask estado)).
Local Abbreviation pares :=
  (pares_previos id18 curso m_dates (mask_filter mask contact)
     (mask_filter mask course) a_dates n nr).
Local Abbreviation es_asiste := (fun v => py_eq v (VStr "asiste")).
Local Abbreviation es_solicitado :=
  (set_contains [VStr "solicitado"; VStr "solicita asistir"]).
Local Abbreviation master1 := (setitem df_master "MasterDate" m_dates).
Local Abbreviation master3 :=
  (mkDF (range_index n)
     (("fila_id_unico", map VInt (index df_master)) :: columns master1)).

Lemma master3_eq :
  (d <- reset_index master1 ;; Ok (rename_column d "index" "fila_id_unico"))
  = Ok master3.
Proof.
  rewrite reset_index_ok.
  2:{ rewrite has_col_setitem. now rewrite HM_index. }
  cbn [bind]. f_equal. unfold rename_column. cbn [index columns map fst snd].
  assert (E : has_col master1 "index" = false).
  { rewrite has_col_setitem. now rewrite HM_index. }
  pose proof (rename_column_absent master1 "index" "fila_id_unico" E) as R.
  apply (f_equal columns) in R. unfold rename_column in R. cbn [columns] in R.
  rewrite R. reflexivity.
Qed.

Local Abbreviation clean2 :=
  (setitem (setitem (filter_rows mask df_actividades) "ActivityDate" a_dates)
     "status_lower" status).
Local Abbreviation izquierda :=
  (mkDF (range_index n)
     [("fila_id_unico", map VInt (index df_master)); ("ID18__PC", id18);
      ("MasterDate", m_dates); ("PL_CURSO_ACADEMICO", curso)]).
Local Abbreviation derecha :=
  (mkDF (mask_filter mask (index df_actividades))
     [("ContactId", mask_filter mask contact); ("ActivityDate", a_dates);
      ("status_lower", status);
      ("Campaign.AcademicCourse__c", mask_filter mask course)]).

Lemma master3_getitem (c : string) (s : Series) :
  c <> "fila_id_unico" -> getitem master1 c = Ok s -> getitem master3 c = Ok s.
Proof.
  intros Hc Hs. apply getitem_assoc. cbn [columns assoc].
  destruct (String.eqb c "fila_id_unico") eqn:E;
    [apply String.eqb_eq in E; contradiction|].
  now apply getitem_assoc.
Qed.

Lemma master1_id18 : getitem master1 "ID18__PC" = Ok id18.
Proof. now rewrite getitem_setitem_other by discriminate. Qed.

Lemma master1_curso : getitem master1 "PL_CURSO_ACADEMICO" = Ok curso.
Proof. now rewrite getitem_setitem_other by discriminate. Qed.

Lemma master1_date : getitem master1 "MasterDate" = Ok m_dates.
Proof. apply getitem_setitem_same. Qed.

Lemma izquierda_eq :
  getitems master3
    ["fila_id_unico"; "ID18__PC"; "MasterDate"; "PL_CURSO_ACADEMICO"]
  = Ok izquierda.
Proof.
  assert (G1 : getitem master3 "fila_id_unico" = Ok (map VInt (index df_master)))
    by reflexivity.
  assert (G2 : getitem master3 "ID18__PC" = Ok id18)
    by (apply master3_getitem; [discriminate | apply master1_id18]).
  assert (G3 : getitem master3 "MasterDate" = Ok m_dates)
    by (apply master3_getitem; [discriminate | apply master1_date]).
  assert (G4 : getitem master3 "PL_CURSO_ACADEMICO" = Ok curso)
    by (apply master3_getitem; [discriminate | apply master1_curso]).
  rewrite getitems_present.
  - cbn [map index].
    now rewrite (getitem_column_or_empty _ _ _ G1),
      (getitem_column_or_empty _ _ _ G2), (getitem_column_or_empty _ _ _ G3),
      (getitem_column_or_empty _ _ _ G4).
  - intros c Hc. apply has_col_getitem.
    repeat (destruct Hc as [<- | Hc]; [eauto|]). destruct Hc.
Qed.

Lemma clean2_getitem (c : string) (s : Series) :
  c <> "ActivityDate" -> c <> "status_lower" ->
  getitem df_actividades c = Ok s ->
  getitem clean2 c = Ok (mask_filter mask s).
Proof.
  intros H1 H2 Hs.
  rewrite !getitem_setitem_other by assumption.
  now rewrite getitem_filter_rows, Hs.
Qed.

Lemma derecha_eq :
  getitems clean2
    ["ContactId"; "ActivityDate"; "status_lower"; "Campaign.AcademicCourse__c"]
  = Ok derecha.
Proof.
  assert (G1 : getitem clean2 "ContactId" = Ok (mask_filter mask contact))
    by (apply clean2_getitem; [discriminate | discriminate | exact HA_contact]).
  assert (G2 : getitem clean2 "ActivityDate" = Ok a_dates).
  { rewrite getitem_setitem_other by discriminate. apply getitem_setitem_same. }
  assert (G3 : getitem clean2 "status_lower" = Ok status)
    by apply getitem_setitem_same.
  assert (G4 : getitem clean2 "Campaign.AcademicCourse__c" =
               Ok (mask_filter mask course))
    by (apply clean2_getitem; [discriminate | discriminate | exact HA_course]).
  rewrite getitems_present.
  - cbn [map index].
    now rewrite (getitem_column_or_empty _ _ _ G1),
      (getitem_column_or_empty _ _ _ G2), (getitem_column_or_empty _ _ _ G3),
      (getitem_column_or_empty _ _ _ G4).
  - intros c Hc. apply has_col_getitem.
    repeat (destruct Hc as [<- | Hc]; [eauto|]). destruct Hc.
Qed.

Local Abbreviation paresI :=
  (merge_pairs Inner [id18; curso]
     [mask_filter mask contact; mask_filter mask course]
     (nrows izquierda) (nrows derecha)).
Local Abbreviation tmask :=
  (map2 datetime_lt (take_opt a_dates (map snd paresI))
     (take m_dates (map fst paresI))).
Local Abbreviation fila2 :=
  (mask_filter tmask (take (map VInt (index df_master)) (map fst paresI))).
Local Abbreviation status2 :=
  (mask_filter tmask (take_opt status (map snd paresI))).
Local Abbreviation col_asiste :=
  (astype_int (series_eq status2 (VStr "asiste"))).
Local Abbreviation col_solicitado :=
  (astype_int (isin status2 [VStr "solicitado"; VStr "solicita asistir"])).
Local Abbreviation ks := (group_keys fila2).
Local Abbreviation sumas_asiste :=
  (map (fun k => series_sum (group_cells fila2 col_asiste k)) ks).
Local Abbreviation sumas_solicitado :=
  (map (fun k => series_sum (group_cells fila2 col_solicitado k)) ks).
Local Abbreviation resumen :=
  (mkDF (range_index (length ks))
     [("fila_id_unico", ks); ("num_asistencias_acum", sumas_asiste);
      ("num_solicitudes_acum", sumas_solicitado)]).
Local Abbreviation paresL :=
  (merge_pairs Left [map VInt (index df_master)] [ks] (nrows master3)
     (nrows resumen)).

Lemma master3_no_counter (c : string) :
  In c ["num_asistencias_acum"; "num_solicitudes_acum"] ->
  has_col master3 c = false.
Proof.
  intros Hc. unfold has_col, colnames. cbn [columns map fst mem existsb].
  change (existsb (String.eqb c) (map fst (columns master1)))
    with (has_col master1 c).
  rewrite has_col_setitem.
  destruct Hc as [<- | [<- | []]]; cbn [String.eqb Ascii.eqb Bool.eqb orb];
    [now rewrite HM_asist | now rewrite HM_solic].
Qed.

Lemma df_final_eq :
  merge master3 resumen ["fila_id_unico"] ["fila_id_unico"] Left =
  Ok (mkDF (range_index (length paresL))
        (map (fun cs => (fst cs, take (snd cs) (map fst paresL)))
             (columns master3)
         ++ [("num_asistencias_acum", take_opt sumas_asiste (map snd paresL));
             ("num_solicitudes_acum",
              take_opt sumas_solicitado (map snd paresL))])).
Proof.
  unfold merge. cbn [combine mapM fst snd].
  assert (G1 : getitem resumen "fila_id_unico" = Ok ks) by reflexivity.
  assert (G2 : getitem master3 "fila_id_unico" = Ok (map VInt (index df_master)))
    by reflexivity.
  rewrite G1. cbn [bind]. rewrite G2. cbn [bind map fst snd].
  assert (E : filter
                (fun c => mem c (map fst
                   (filter (fun cs : string * Series =>
                              negb (mem (fst cs)
                                (map fst (filter (fun p : string * string =>
                                            String.eqb (fst p) (snd p))
                                   [("fila_id_unico", "fila_id_unico")]))))
                      (columns resumen))))
                (colnames master3) = []).
  { apply filter_none. intros c Hc.
    destruct (mem c _) eqn:Em; [|reflexivity].
    apply mem_In in Em. cbn in Em.
    assert (Hf : has_col master3 c = false) by (apply master3_no_counter; exact Em).
    apply (proj2 (mem_In c (colnames master3))) in Hc.
    unfold has_col in Hf. congruence. }
  rewrite E. reflexivity.
Qed.

Local Abbreviation df_final_v3 :=
  (mkDF (range_index (length paresL))
     (map (fun cs => (fst cs, take (snd cs) (map fst paresL)))
          (columns master3)
      ++ [("num_asistencias_acum", take_opt sumas_asiste (map snd paresL));
          ("num_solicitudes_acum",
           take_opt sumas_solicitado (map snd paresL))])).

Lemma df_final_left (c : string) :
  mem c (map fst (map (fun cs : string * Series =>
                         (fst cs, take (snd cs) (map fst paresL)))
                    (columns master3))) = has_col master3 c.
Proof. rewrite map_map. reflexivity. Qed.

Lemma df_final_counter (c : string) :
  In c ["num_asistencias_acum"; "num_solicitudes_acum"] ->
  assoc c (columns df_final_v3) =
  assoc c [("num_asistencias_acum", take_opt sumas_asiste (map snd paresL));
           ("num_solicitudes_acum", take_opt sumas_solicitado (map snd paresL))].
Proof.
  intros Hc. cbn [columns]. apply assoc_app_r.
  rewrite df_final_left. now apply master3_no_counter.
Qed.

Lemma df_final_master (c : string) (s : Series) :
  getitem master3 c = Ok s ->
  getitem df_final_v3 c = Ok (take s (map fst paresL)).
Proof.
  intros Hs. apply getitem_assoc. cbn [columns].
  rewrite assoc_app_l.
  - rewrite (assoc_map_snd (fun s => take s (map fst paresL))).
    apply getitem_assoc in Hs. cbn [columns] in Hs. now rewrite Hs.
  - rewrite df_final_left. apply has_col_getitem. eauto.
Qed.

Lemma integrar_tables :
  exists R,
    integrar_actividades_progresivo_por_curso df_master df_actividades =
    Ok (mkIntegracion master1 df_actividades R) /\
    index R = range_index (length paresL) /\
    getitem R "num_asistencias_acum" =
    Ok (map (fillna (VInt 0)) (take_opt sumas_asiste (map snd paresL))) /\
    getitem R "num_solicitudes_acum" =
    Ok (map (fillna (VInt 0)) (take_opt sumas_solicitado (map snd paresL))) /\
    forall c s,
      c <> "fila_id_unico" -> c <> "MasterDate" ->
      c <> "num_asistencias_acum" -> c <> "num_solicitudes_acum" ->
      getitem df_master c = Ok s ->
      getitem R c = Ok (take s (map fst paresL)).
Proof.
  set (A := map (fillna (VInt 0)) (take_opt sumas_asiste (map snd paresL))).
  set (S := map (fillna (VInt 0)) (take_opt sumas_solicitado (map snd paresL))).
  set (F := setitem (setitem df_final_v3 "num_asistencias_acum" A)
              "num_solicitudes_acum" S).
  set (R := mkDF (index F)
              (filter (fun p => negb (mem (fst p) ["fila_id_unico"; "MasterDate"]))
                 (columns F))).
  exists R.
  assert (Hrun : integrar_actividades_progresivo_por_curso df_master
                   df_actividades = Ok (mkIntegracion master1 df_actividades R)).
  { unfold integrar_actividades_progresivo_por_curso.
    rewrite HA_tipo. cbn [bind]. fold (mascara_tipo tipo).
    rewrite getitem_filter_rows, HA_created. cbn [bind].
    rewrite H_adates. cbn [bind].
    rewrite HM_created. cbn [bind]. rewrite H_mdates. cbn [bind].
    rewrite getitem_setitem_other by discriminate.
    rewrite getitem_filter_rows, HA_estado. cbn [bind].
    pose proof master3_eq as E3. 
    destruct (reset_index master1) as [d|] eqn:Er; [|discriminate].
    cbn [bind] in E3 |- *.
    assert (E3' : rename_column d "index" "fila_id_unico" = master3)
      by congruence.
    rewrite E3'. clear E3 E3' Er d.
    rewrite izquierda_eq. cbn [bind]. rewrite derecha_eq. cbn [bind].
    assert (EJ : merge izquierda derecha ["ID18__PC"; "PL_CURSO_ACADEMICO"]
                   ["ContactId"; "Campaign.AcademicCourse__c"] Inner =
                 Ok (mkDF (range_index (length paresI))
                   [("fila_id_unico",
                     take (map VInt (index df_master)) (map fst paresI));
                    ("ID18__PC", take id18 (map fst paresI));
                    ("MasterDate", take m_dates (map fst paresI));
                    ("PL_CURSO_ACADEMICO", take curso (map fst paresI));
                    ("ContactId",
                     take_opt (mask_filter mask contact) (map snd paresI));
                    ("ActivityDate", take_opt a_dates (map snd paresI));
                    ("status_lower", take_opt status (map snd paresI));
                    ("Campaign.AcademicCourse__c",
                     take_opt (mask_filter mask course) (map snd paresI))]))
      by reflexivity.
    rewrite EJ. cbn [bind].
    match goal with
    | |- context [bind (getitem ?J "ActivityDate") _] =>
        change (getitem J "ActivityDate")
          with (Ok (take_opt a_dates (map snd paresI)));
        cbn [bind];
        change (getitem J "MasterDate")
          with (Ok (take m_dates (map fst paresI)));
        cbn [bind]
    end.
    match goal with
    | |- context [bind (getitem ?J "status_lower") _] =>
        change (getitem J "status_lower") with (Ok status2); cbn [bind]
    end.
    match goal with
    | |- context [bind (getitem ?J "status_lower") _] =>
        change (getitem J "status_lower") with (Ok status2); cbn [bind]
    end.
    match goal with
    | |- context [bind (groupby_sum ?J ?gk ?ga) _] =>
        change (groupby_sum J gk ga) with (Ok resumen); cbn [bind]
    end.
    rewrite df_final_eq. cbn [bind].
    rewrite getitems_present.
    2:{ intros c Hc. apply has_col_getitem. apply df_final_counter in Hc as E.
        unfold getitem. rewrite E.
        destruct Hc as [<- | [<- | []]]; cbn; eauto. }
    cbn [bind map].
    unfold column_or_empty.
    rewrite (df_final_counter "num_asistencias_acum") by (simpl; tauto).
    rewrite (df_final_counter "num_solicitudes_acum") by (simpl; tauto).
    cbn [assoc String.eqb Ascii.eqb Bool.eqb].
    match goal with
    | |- context [bind (getitem ?J "num_asistencias_acum") _] =>
        change (getitem J "num_asistencias_acum")
          with (Ok (take_opt sumas_asiste (map snd paresL)));
        cbn [bind];
        change (getitem J "num_solicitudes_acum")
          with (Ok (take_opt sumas_solicitado (map snd paresL)));
        cbn [bind]
    end.
    fold A. fold S. fold F.
    unfold drop_columns.
    assert (Hd : filter (fun c => negb (has_col F c))
                   ["fila_id_unico"; "MasterDate"] = []).
    { apply filter_none. intros c Hc. apply negb_false_iff.
      unfold F. rewrite !has_col_setitem.
      assert (Hm : has_col df_final_v3 c = true).
      { apply has_col_getitem.
        destruct Hc as [<- | [<- | []]].
        - eexists. apply df_final_master. reflexivity.
        - eexists. apply df_final_master. apply master3_getitem;
            [discriminate | apply master1_date]. }
      rewrite Hm. now rewrite !orb_true_r. }
    rewrite Hd. reflexivity. }
  split; [exact Hrun|]. split; [reflexivity|].
  assert (HgA : getitem F "num_asistencias_acum" = Ok A).
  { unfold F. rewrite getitem_setitem_other by discriminate.
    apply getitem_setitem_same. }
  assert (HgS : getitem F "num_solicitudes_acum" = Ok S).
  { unfold F. apply getitem_setitem_same. }
  assert (Hkeep : forall c,
            c <> "fila_id_unico" -> c <> "MasterDate" ->
            getitem R c = getitem F c).
  { intros c H1 H2. unfold getitem, R. cbn [columns].
    rewrite (assoc_filter_keep c
               (fun c => negb (mem c ["fila_id_unico"; "MasterDate"])));
      [reflexivity|].
    apply negb_true_iff, mem_false. simpl. intuition congruence. }
  split; [|split].
  - rewrite Hkeep by discriminate. exact HgA.
  - rewrite Hkeep by discriminate. exact HgS.
  - intros c s H1 H2 H3 H4 Hs. rewrite Hkeep by assumption.
    unfold F. rewrite !getitem_setitem_other by assumption.
    apply df_final_master. apply master3_getitem; [exact H1|].
    now rewrite getitem_setitem_other by exact H2.
Qed.

Lemma paresI_eq :
  paresI =
  map (fun p => (fst p, Some (snd p)))
      (inner_pairs [id18; curso]
         [mask_filter mask contact; mask_filter mask course] n nr).
Proof.
  rewrite merge_pairs_inner. unfold nrows. cbn [index].
  now rewrite length_range_index.
Qed.

Lemma fila2_eq :
  fila2 = map (fun p => nth (fst p) (map VInt (index df_master)) VNull) pares.
Proof.
  rewrite paresI_eq, !take_map_fst, take_opt_map_snd, map2_map.
  unfold pares_previos. apply mask_filter_map.
Qed.

Lemma status2_eq : status2 = map (fun p => nth (snd p) status VNull) pares.
Proof.
  rewrite paresI_eq, !take_map_fst, !take_opt_map_snd, map2_map.
  unfold pares_previos. apply mask_filter_map.
Qed.

Lemma pares_fst (p : nat * nat) : In p pares -> fst p < n.
Proof.
  unfold pares_previos. rewrite filter_In. intros [Hp _].
  now apply inner_pairs_fst in Hp.
Qed.

Lemma paresL_eq :
  paresL =
  merge_pairs Left [map VInt (index df_master)] [ks] n (length ks).
Proof. unfold nrows. cbn [index]. now rewrite !length_range_index. Qed.

Lemma integrar_contadores :
  exists R,
    integrar_actividades_progresivo_por_curso df_master df_actividades =
    Ok (mkIntegracion master1 df_actividades R) /\
    index R = range_index n /\
    getitem R "num_asistencias_acum" =
    Ok (map (contador (index df_master) pares status es_asiste) (seq 0 n)) /\
    getitem R "num_solicitudes_acum" =
    Ok (map (contador (index df_master) pares status es_solicitado) (seq 0 n)) /\
    forall c s,
      c <> "fila_id_unico" -> c <> "MasterDate" ->
      c <> "num_asistencias_acum" -> c <> "num_solicitudes_acum" ->
      getitem df_master c = Ok s ->
      getitem R c = Ok (take s (seq 0 n)).
Proof.
  destruct integrar_tables as (R & Hrun & Hidx & HA & HS & Hc).
  exists R. split; [exact Hrun|].
  pose proof (contador_lookup (index df_master) pares status es_asiste pares_fst)
    as LA.
  pose proof (contador_lookup (index df_master) pares status es_solicitado
                pares_fst) as LS.
  cbn zeta in LA, LS. rewrite <- fila2_eq in LA, LS.
  assert (EA : map (fun p : nat * nat =>
                      VInt (if py_eq (nth (snd p) status VNull) (VStr "asiste")
                            then 1 else 0)) pares = col_asiste).
  { rewrite status2_eq. unfold astype_int, series_eq. now rewrite !map_map. }
  assert (ES : map (fun p : nat * nat =>
                      VInt (if set_contains
                                 [VStr "solicitado"; VStr "solicita asistir"]
                                 (nth (snd p) status VNull)
                            then 1 else 0)) pares = col_solicitado).
  { rewrite status2_eq. unfold astype_int, isin. now rewrite !map_map. }
  rewrite EA in LA. rewrite ES in LS.
  change (length (index df_master)) with n in LA, LS.
  rewrite <- paresL_eq in LA, LS.
  destruct LA as [LA1 LA2]. destruct LS as [_ LS2].
  rewrite Hidx, HA, HS, LA2, LS2.
  rewrite <- (length_map fst paresL), LA1, length_seq.
  repeat split; try reflexivity.
  intros c s H1 H2 H3 H4 Hs. rewrite (Hc c s H1 H2 H3 H4 Hs). now rewrite LA1.
Qed.

Hypothesis H_wf : well_formed df_actividades.

Lemma length_mask : length mask = nrows df_actividades.
Proof.
  rewrite mascara_tipo_valida, length_map.
  exact (well_formed_length _ _ _ H_wf HA_tipo).
Qed.

Lemma nr_kept : nr = length (kept mask).
Proof.
  rewrite (mask_filter_kept mask (index df_actividades) 0%Z).
  - now rewrite length_map.
  - now rewrite length_mask.
Qed.

Lemma clean_cell (c : string) (s : Series) (j' : nat) :
  getitem df_actividades c = Ok s -> j' < length (kept mask) ->
  nth j' (mask_filter mask s) VNull = nth (nth j' (kept mask) 0) s VNull.
Proof.
  intros Hs Hj. rewrite (mask_filter_kept mask s VNull).
  - rewrite (nth_indep _ VNull (nth 0 s VNull)) by now rewrite length_map.
    apply (map_nth (fun j => nth j s VNull)).
  - rewrite length_mask. exact (well_formed_length _ _ _ H_wf Hs).
Qed.

Lemma nth_a_dates (j' : nat) :
  nth j' a_dates VNull =
  fecha_de (nth j' (mask_filter mask a_created) VNull).
Proof.
  rewrite (to_datetime_map _ _ H_adates).
  exact (map_nth fecha_de (mask_filter mask a_created) VNull j').
Qed.

Lemma nth_m_dates (i : nat) :
  nth i m_dates VNull = fecha_de (nth i m_created VNull).
Proof.
  rewrite (to_datetime_map _ _ H_mdates).
  exact (map_nth fecha_de m_created VNull i).
Qed.

Lemma nth_status (j' : nat) :
  nth j' status VNull =
  match nth j' (mask_filter mask estado) VNull with
  | VStr t => VStr (str_lower t)
  | _ => VNull
  end.
Proof.
  unfold series_str_lower.
  exact (map_nth (fun v => match v with
                           | VStr t => VStr (str_lower t)
                           | _ => VNull
                           end) (mask_filter mask estado) VNull j').
Qed.

(** The pairs of one master row with the status [ind] are the earlier
    activities of the row with that status. *)
Lemma pares_de_fila (estados : list string) (ind : value -> bool) (i : nat) :
  (forall v, ind match v with
                 | VStr t => VStr (str_lower t)
                 | _ => VNull
                 end = estado_es estados v) ->
  i < n ->
  length (filter (fun p => Nat.eqb (fst p) i && ind (nth (snd p) status VNull))
                 pares) =
  cuenta_previa df_master df_actividades estados i.
Proof.
  intros Hind Hi.
  rewrite <- filter_and. unfold pares_previos.
  rewrite (filter_comm (fun p : nat * nat => Nat.eqb (fst p) i)).
  unfold inner_pairs.
  rewrite filter_fst_flat_map by apply seq_NoDup.
  assert (Ein : existsb (Nat.eqb i) (seq 0 n) = true).
  { apply existsb_exists. exists i. split; [apply in_seq; lia | apply Nat.eqb_refl]. }
  rewrite Ein, !filter_map_swap, length_map. cbn [fst snd].
  unfold matches. rewrite !filter_and.
  (* from the filtered activities to all activities *)
  rewrite nr_kept.
  set (Q := fun j =>
         value_same (nth i id18 VNull) (nth j contact VNull)
         && value_same (nth i curso VNull) (nth j course VNull)
         && datetime_lt (fecha_de (nth j a_created VNull))
                        (fecha_de (nth i m_created VNull))
         && estado_es estados (nth j estado VNull)).
  rewrite (filter_ext_in _ (fun j' => Q (nth j' (kept mask) 0))).
  2:{ intros j' Hj'. apply in_seq in Hj'. destruct Hj' as [_ Hj']. cbn in Hj'.
      unfold Q, row_keys. cbn [map keys_same].
      rewrite nth_a_dates, nth_m_dates, nth_status.
      rewrite !(clean_cell _ _ j') by eassumption.
      rewrite Hind, andb_true_r, !andb_assoc. reflexivity. }
  rewrite count_kept.
  unfold cuenta_previa. rewrite length_mask. f_equal.
  apply filter_ext_in. intros j Hj. apply in_seq in Hj.
  unfold actividad_previa, celda, Q.
  rewrite (getitem_column_or_empty _ _ _ HA_tipo),
    (getitem_column_or_empty _ _ _ HA_contact),
    (getitem_column_or_empty _ _ _ HA_course),
    (getitem_column_or_empty _ _ _ HA_created),
    (getitem_column_or_empty _ _ _ HA_estado),
    (getitem_column_or_empty _ _ _ HM_id18),
    (getitem_column_or_empty _ _ _ HM_curso),
    (getitem_column_or_empty _ _ _ HM_created).
  rewrite mascara_tipo_valida.
  change false with (etiqueta_valida VNull).
  rewrite (map_nth etiqueta_valida).
  now rewrite !andb_assoc.
Qed.

(** Without any earlier activity of any row, every counter is 0, whatever
    the row labels. *)
Lemma contador_sin_previas (estados : list string) (ind : value -> bool)
    (i : nat) :
  (forall v, ind match v with
                 | VStr t => VStr (str_lower t)
                 | _ => VNull
                 end = estado_es estados v) ->
  (forall i' j, actividad_previa df_master df_actividades i' j = false) ->
  contador (index df_master) pares status ind i = VInt 0.
Proof.
  intros Hind Hzero. unfold contador.
  rewrite filter_none; [reflexivity|].
  intros p Hp.
  destruct (ind (nth (snd p) status VNull)) eqn:Ei; [|apply andb_false_r].
  exfalso.
  pose proof (pares_de_fila estados ind (fst p) Hind (pares_fst p Hp)) as Hc.
  unfold cuenta_previa in Hc.
  rewrite (filter_none (fun j => _ && _) (seq 0 (nrows df_actividades))) in Hc
    by (intros j _; now rewrite Hzero).
  assert (Hin : In p (filter (fun q => Nat.eqb (fst q) (fst p)
                                        && ind (nth (snd q) status VNull))
                             pares)).
  { apply filter_In. split; [exact Hp|]. now rewrite Nat.eqb_refl, Ei. }
  destruct (filter _ pares); [destruct Hin | discriminate Hc].
Qed.

Hypothesis H_nodup : NoDup (index df_master).

Lemma label_eqb (i j : nat) :
  i < n -> j < n ->
  Z.eqb (nth i (index df_master) 0%Z) (nth j (index df_master) 0%Z) = Nat.eqb j i.
Proof.
  intros Hi Hj. destruct (Nat.eqb j i) eqn:E.
  - apply Nat.eqb_eq in E. subst. apply Z.eqb_refl.
  - apply Z.eqb_neq. intros Heq. apply Nat.eqb_neq in E. apply E.
    symmetry. now apply (proj1 (NoDup_nth (index df_master) 0%Z) H_nodup).
Qed.

Lemma contador_cuenta (estados : list string) (ind : value -> bool) (i : nat) :
  (forall v, ind match v with
                 | VStr t => VStr (str_lower t)
                 | _ => VNull
                 end = estado_es estados v) ->
  i < n ->
  contador (index df_master) pares status ind i =
  VInt (Z.of_nat (cuenta_previa df_master df_actividades estados i)).
Proof.
  intros Hind Hi. unfold contador. do 2 f_equal.
  rewrite (filter_ext_in
             (fun p => Z.eqb (nth i (index df_master) 0%Z)
                             (nth (fst p) (index df_master) 0%Z)
                       && ind (nth (snd p) status VNull))
             (fun p => Nat.eqb (fst p) i && ind (nth (snd p) status VNull)))
    by (intros p Hp; now rewrite (label_eqb i (fst p) Hi (pares_fst p Hp))).
  now apply pares_de_fila.
Qed.

End IntegrarRun.


Lemma estado_asiste `{PyLib} (v : value) :
  py_eq match v with
        | VStr t => VStr (str_lower t)
        | _ => VNull
        end (VStr "asiste") = estado_es ["asiste"] v.
Proof.
  destruct v; try reflexivity. cbn [py_eq estado_es mem existsb].
  now rewrite orb_false_r.
Qed.

Lemma estado_solicitado `{PyLib} (v : value) :
  set_contains [VStr "solicitado"; VStr "solicita asistir"]
    match v with
    | VStr t => VStr (str_lower t)
    | _ => VNull
    end = estado_es ["solicitado"; "solicita asistir"] v.
Proof.
  destruct v; try reflexivity.
  cbn [set_contains estado_es mem existsb value_same].
  now rewrite (String.eqb_sym "solicitado"), (String.eqb_sym "solicita asistir").
Qed.

(** The two counters of every master row, in terms of the two input
    tables. *)
Lemma integrar_cuenta `{PyLib}
    (df_master df_actividades : DataFrame)
    (tipo a_created estado contact course m_created id18 curso : Series)
    (a_dates m_dates : Series)
    (HA_tipo : getitem df_actividades col_tipo_act = Ok tipo)
    (HA_created : getitem df_actividades "CreatedDate" = Ok a_created)
    (HA_estado : getitem df_actividades "Estado_del_miembro__c" = Ok estado)
    (HA_contact : getitem df_actividades "ContactId" = Ok contact)
    (HA_course : getitem df_actividades "Campaign.AcademicCourse__c" = Ok course)
    (HM_created : getitem df_master "CreatedDate" = Ok m_created)
    (HM_id18 : getitem df_master "ID18__PC" = Ok id18)
    (HM_curso : getitem df_master "PL_CURSO_ACADEMICO" = Ok curso)
    (H_adates : to_datetime (mask_filter (mascara_tipo tipo) a_created) = Ok a_dates)
    (H_mdates : to_datetime m_created = Ok m_dates)
    (HM_index : has_col df_master "index" = false)
    (HM_asist : has_col df_master "num_asistencias_acum" = false)
    (HM_solic : has_col df_master "num_solicitudes_acum" = false)
    (H_wf : well_formed df_actividades)
    (H_nodup : NoDup (index df_master)) :
  exists r,
    integrar_actividades_progresivo_por_curso df_master df_actividades = Ok r /\
    df_master_del_llamador r = setitem df_master "MasterDate" m_dates /\
    df_actividades_del_llamador r = df_actividades /\
    index (resultado r) = range_index (nrows df_master) /\
    getitem (resultado r) "num_asistencias_acum" =
    Ok (map (fun i => VInt (Z.of_nat
                          (cuenta_previa df_master df_actividades ["asiste"] i)))
          (seq 0 (nrows df_master))) /\
    getitem (resultado r) "num_solicitudes_acum" =
    Ok (map (fun i => VInt (Z.of_nat
                          (cuenta_previa df_master df_actividades
                             ["solicitado"; "solicita asistir"] i)))
          (seq 0 (nrows df_master))).
Proof.
  destruct (integrar_contadores df_master df_actividades tipo a_created estado
              contact course m_created id18 curso a_dates m_dates
              HA_tipo HA_created HA_estado HA_contact HA_course
              HM_created HM_id18 HM_curso H_adates H_mdates
              HM_index HM_asist HM_solic)
    as (R & Hrun & Hidx & HA & HS & _).
  eexists. split; [exact Hrun|]. cbn [df_master_del_llamador
    df_actividades_del_llamador resultado].
  repeat split; try assumption.
  - rewrite HA. f_equal. apply map_ext_in. intros i Hi. apply in_seq in Hi.
    eapply contador_cuenta; eauto; [apply estado_asiste | lia].
  - rewrite HS. f_equal. apply map_ext_in. intros i Hi. apply in_seq in Hi.
    eapply contador_cuenta; eauto; [apply estado_solicitado | lia].
Qed.

(** Without an earlier activity for any row the run returns zero in both
    counters of every row. *)
Lemma integrar_ceros `{PyLib}
    (df_master df_actividades : DataFrame)
    (tipo a_created estado contact course m_created id18 curso : Series)
    (a_dates m_dates : Series)
    (HA_tipo : getitem df_actividades col_tipo_act = Ok tipo)
    (HA_created : getitem df_actividades "CreatedDate" = Ok a_created)
    (HA_estado : getitem df_actividades "Estado_del_miembro__c" = Ok estado)
    (HA_contact : getitem df_actividades "ContactId" = Ok contact)
    (HA_course : getitem df_actividades "Campaign.AcademicCourse__c" = Ok course)
    (HM_created : getitem df_master "CreatedDate" = Ok m_created)
    (HM_id18 : getitem df_master "ID18__PC" = Ok id18)
    (HM_curso : getitem df_master "PL_CURSO_ACADEMICO" = Ok curso)
    (H_adates : to_datetime (mask_filter (mascara_tipo tipo) a_created) = Ok a_dates)
    (H_mdates : to_datetime m_created = Ok m_dates)
    (HM_index : has_col df_master "index" = false)
    (HM_asist : has_col df_master "num_asistencias_acum" = false)
    (HM_solic : has_col df_master "num_solicitudes_acum" = false)
    (H_wf : well_formed df_actividades)
    (H_cero : forall i j, actividad_previa df_master df_actividades i j = false) :
  exists r,
    integrar_actividades_progresivo_por_curso df_master df_actividades = Ok r /\
    forall i, i < nrows df_master ->
      cell (resultado r) "num_asistencias_acum" i = Some (VInt 0) /\
      cell (resultado r) "num_solicitudes_acum" i = Some (VInt 0).
Proof.
  destruct (integrar_contadores df_master df_actividades tipo a_created estado
              contact course m_created id18 curso a_dates m_dates
              HA_tipo HA_created HA_estado HA_contact HA_course
              HM_created HM_id18 HM_curso H_adates H_mdates
              HM_index HM_asist HM_solic)
    as (R & Hrun & Hidx & HA & HS & _).
  eexists. split; [exact Hrun|]. cbn [resultado]. intros i Hi.
  rewrite (getitem_Ok_cell _ _ _ i HA), (getitem_Ok_cell _ _ _ i HS).
  rewrite !nth_error_map, (nth_error_nth' (seq 0 (nrows df_master)) 0)
    by now rewrite length_seq.
  rewrite seq_nth by exact Hi. cbn [option_map Nat.add]. split; f_equal.
  - eapply contador_sin_previas; eauto. apply estado_asiste.
  - eapply contador_sin_previas; eauto. apply estado_solicitado.
Qed.

Lemma has_col_column (df : DataFrame) (c : string) :
  has_col df c = true -> getitem df c = Ok (column_or_empty df c).
Proof.
  intros H. apply has_col_getitem in H as (s & Hs).
  now rewrite (getitem_column_or_empty _ _ _ Hs).
Qed.

(** What admissible inputs of the aggregator provide. *)
Lemma entrada_admisible_columnas `{PyLib} (df_master df_actividades : DataFrame) :
  entrada_admisible df_master df_actividades ->
  exists a_dates m_dates,
    getitem df_actividades col_tipo_act
    = Ok (column_or_empty df_actividades col_tipo_act) /\
    getitem df_actividades "CreatedDate"
    = Ok (column_or_empty df_actividades "CreatedDate") /\
    getitem df_actividades "Estado_del_miembro__c"
    = Ok (column_or_empty df_actividades "Estado_del_miembro__c") /\
    getitem df_actividades "ContactId"
    = Ok (column_or_empty df_actividades "ContactId") /\
    getitem df_actividades "Campaign.AcademicCourse__c"
    = Ok (column_or_empty df_actividades "Campaign.AcademicCourse__c") /\
    getitem df_master "CreatedDate" = Ok (column_or_empty df_master "CreatedDate") /\
    getitem df_master "ID18__PC" = Ok (column_or_empty df_master "ID18__PC") /\
    getitem df_master "PL_CURSO_ACADEMICO"
    = Ok (column_or_empty df_master "PL_CURSO_ACADEMICO") /\
    to_datetime
      (mask_filter (mascara_tipo (column_or_empty df_actividades col_tipo_act))
         (column_or_empty df_actividades "CreatedDate")) = Ok a_dates /\
    to_datetime (column_or_empty df_master "CreatedDate") = Ok m_dates /\
    has_col df_master "index" = false /\
    has_col df_master "num_asistencias_acum" = false /\
    has_col df_master "num_solicitudes_acum" = false /\
    well_formed df_actividades.
Proof.
  intros (HM & HA & Hwf & HR & _ & (md & Hmd) & (ad & Had)).
  cbn [forallb columnas_master columnas_actividades columnas_reservadas] in *.
  repeat (apply andb_true_iff in HM as [?HM HM]).
  repeat (apply andb_true_iff in HA as [?HA HA]).
  repeat (apply andb_true_iff in HR as [?HR HR]).
  repeat match goal with
         | E : negb _ = true |- _ => apply negb_true_iff in E
         | E : has_col _ _ = true |- _ => apply has_col_column in E
         end.
  exists ad, md. repeat split; assumption.
Qed.

Lemma entrada_valida_cuenta `{PyLib} (df_master df_actividades : DataFrame) :
  entrada_valida df_master df_actividades ->
  exists r,
    integrar_actividades_progresivo_por_curso df_master df_actividades = Ok r /\
    df_actividades_del_llamador r = df_actividades /\
    (exists d, df_master_del_llamador r = setitem df_master "MasterDate" d) /\
    index (resultado r) = range_index (nrows df_master) /\
    forall i, i < nrows df_master ->
      cell (resultado r) "num_asistencias_acum" i =
      Some (VInt (Z.of_nat
                    (cuenta_previa df_master df_actividades ["asiste"] i))) /\
      cell (resultado r) "num_solicitudes_acum" i =
      Some (VInt (Z.of_nat
                    (cuenta_previa df_master df_actividades
                       ["solicitado"; "solicita asistir"] i))).
Proof.
  intros [Hadm Hnd].
  destruct (entrada_admisible_columnas _ _ Hadm)
    as (ad & md & A1 & A2 & A3 & A4 & A5 & M1 & M2 & M3 & Had & Hmd
        & R1 & R2 & R3 & Hwf).
  edestruct (integrar_cuenta df_master df_actividades)
    as (r & Hrun & Hm & Ha & Hidx & HcA & HcS); try eassumption.
  exists r. split; [exact Hrun|]. split; [exact Ha|].
  split; [eauto|]. split; [exact Hidx|].
  intros i Hi.
  rewrite (getitem_Ok_cell _ _ _ i HcA), (getitem_Ok_cell _ _ _ i HcS).
  rewrite !nth_error_map, (nth_error_nth' (seq 0 (nrows df_master)) 0)
    by now rewrite length_seq.
  rewrite seq_nth by exact Hi. split; reflexivity.
Qed.

(** ** The counters in the words of the specification *)

Lemma columna_de_texto_celda (df : DataFrame) (c : string) (i : nat) :
  columna_de_texto (column_or_empty df c) = true ->
  is_text (celda df c i) = true.
Proof.
  unfold columna_de_texto, celda. intros Hc.
  apply andb_true_iff in Hc as [Hc _].
  apply (nth_Forall_default (fun v => is_text v = true)); [reflexivity|].
  apply Forall_forall. now apply forallb_forall.
Qed.

Lemma value_same_texto (a b : value) :
  is_text a = true -> is_text b = true -> (value_same a b = true <-> a = b).
Proof.
  destruct a, b; cbn; try discriminate; intros _ _;
    try (split; [discriminate | intros [=]]); try tauto.
  rewrite String.eqb_eq. split; [now intros -> | now intros [= ->]].
Qed.

Lemma datetime_lt_true (a b : value) :
  datetime_lt a b = true <->
  exists ta tb, a = VTime ta /\ b = VTime tb /\ (ta < tb)%Z.
Proof.
  destruct a, b; simpl;
    try (split; [discriminate | intros (? & ? & ? & ? & ?); discriminate]).
  rewrite Z.ltb_lt. split.
  - intros Hlt. eauto.
  - intros (ta & tb & [= ->] & [= ->] & Hlt). exact Hlt.
Qed.

(** The text columns of admissible inputs. *)
Lemma entrada_admisible_texto `{PyLib} (df_master df_actividades : DataFrame) :
  entrada_admisible df_master df_actividades ->
  (forall c, In c columnas_de_texto_master ->
             columna_de_texto (column_or_empty df_master c) = true) /\
  (forall c, In c columnas_de_texto_actividades ->
             columna_de_texto (column_or_empty df_actividades c) = true).
Proof.
  intros (HM & HA & _ & _ & Ht & _).
  unfold texto_valido in Ht. apply andb_true_iff in Ht as [Tm Ta].
  rewrite forallb_forall in HM, HA, Tm, Ta.
  split; intros c Hc.
  - specialize (Tm c Hc). rewrite (HM c) in Tm; [exact Tm|].
    cbn in Hc |- *. tauto.
  - specialize (Ta c Hc). rewrite (HA c) in Ta; [exact Ta|].
    cbn in Hc |- *. tauto.
Qed.

(** On admissible inputs the activities the joins and the temporal filter
    keep for a row are the earlier activities of the specification. *)
Lemma actividad_previa_anterior `{PyLib} (df_master df_actividades : DataFrame)
    (i j : nat) :
  entrada_admisible df_master df_actividades ->
  actividad_previa df_master df_actividades i j = true <->
  actividad_anterior df_master df_actividades i j.
Proof.
  intros Hadm. destruct (entrada_admisible_texto _ _ Hadm) as [Tm Ta].
  unfold actividad_previa, actividad_anterior.
  rewrite !andb_true_iff, datetime_lt_true.
  rewrite (value_same_texto (celda df_master "ID18__PC" i)),
    (value_same_texto (celda df_master "PL_CURSO_ACADEMICO" i));
    try (apply columna_de_texto_celda; (apply Tm || apply Ta); cbn; tauto).
  tauto.
Qed.

Lemma entrada_admisible_ceros `{PyLib} (df_master df_actividades : DataFrame) :
  entrada_admisible df_master df_actividades ->
  (forall i j, ~ actividad_anterior df_master df_actividades i j) ->
  exists r,
    integrar_actividades_progresivo_por_curso df_master df_actividades = Ok r /\
    forall i, i < nrows df_master ->
      cell (resultado r) "num_asistencias_acum" i = Some (VInt 0) /\
      cell (resultado r) "num_solicitudes_acum" i = Some (VInt 0).
Proof.
  intros Hadm Hcero.
  destruct (entrada_admisible_columnas _ _ Hadm)
    as (ad & md & A1 & A2 & A3 & A4 & A5 & M1 & M2 & M3 & Had & Hmd
        & R1 & R2 & R3 & Hwf).
  eapply integrar_ceros; try eassumption.
  intros i j. destruct (actividad_previa df_master df_actividades i j) eqn:E;
    [|reflexivity].
  apply actividad_previa_anterior in E; [|exact Hadm]. now apply Hcero in E.
Qed.

(** X24: on valid inputs (admissible, with distinct row labels) the
    aggregator returns a table in which, for every master row,
    [num_asistencias_acum] is the number of activities that have the row's
    entity key and cohort, a type label that is present, not blank and free
    of the exclusion keywords, a timestamp strictly before the row's and
    the status 'asiste' ignoring case; [num_solicitudes_acum] is the number
    of those with status 'solicitado' or 'solicita asistir'; a row without
    such an activity gets 0. *)
Theorem contadores_de_cada_fila `{PyLib} (df_master df_actividades : DataFrame)
    (H_valida : entrada_valida df_master df_actividades) :
  exists r,
    integrar_actividades_progresivo_por_curso df_master df_actividades = Ok r /\
    forall i, i < nrows df_master ->
      exists asisten solicitan : list nat,
        NoDup asisten /\ NoDup solicitan /\
        (forall j, In j asisten <->
                   actividad_contada df_master df_actividades ["asiste"] i j) /\
        (forall j, In j solicitan <->
                   actividad_contada df_master df_actividades
                     ["solicitado"; "solicita asistir"] i j) /\
        cell (resultado r) "num_asistencias_acum" i =
        Some (VInt (Z.of_nat (length asisten))) /\
        cell (resultado r) "num_solicitudes_acum" i =
        Some (VInt (Z.of_nat (length solicitan))).
Proof.
  destruct (entrada_valida_cuenta _ _ H_valida) as (r & Hrun & _ & _ & _ & Hc).
  destruct H_valida as [Hadm _].
  exists r. split; [exact Hrun|]. intros i Hi.
  destruct (Hc i Hi) as [HA HS].
  assert (Hin : forall estados j,
            In j (filter (fun j =>
                            actividad_previa df_master df_actividades i j
                            && estado_es estados
                                 (celda df_actividades "Estado_del_miembro__c" j))
                         (seq 0 (nrows df_actividades))) <->
            actividad_contada df_master df_actividades estados i j).
  { intros estados j. rewrite filter_In, in_seq, andb_true_iff.
    rewrite (actividad_previa_anterior _ _ i j Hadm).
    unfold actividad_contada. cbn. intuition lia. }
  eexists _, _. split; [|split; [|split; [|split; [|split]]]].
  3: exact (Hin ["asiste"]).
  3: exact (Hin ["solicitado"; "solicita asistir"]).
  - apply NoDup_filter, seq_NoDup.
  - apply NoDup_filter, seq_NoDup.
  - exact HA.
  - exact HS.
Qed.

(** ** Failures and effects on the caller's tables *)

Lemma bind_Ok {A B : Type} (m : result A) (k : A -> result B) (b : B) :
  bind m k = Ok b -> exists a, m = Ok a /\ k a = Ok b.
Proof. destruct m as [a|e]; simpl; [eauto | discriminate]. Qed.

Ltac invert_bind H :=
  let a := fresh "x" in
  let E := fresh "E" in
  apply bind_Ok in H; destruct H as (a & E & H); cbn beta in H.

Lemma getitem_cases (df : DataFrame) (c : string) :
  (getitem df c = Ok (column_or_empty df c) /\ has_col df c = true) \/
  (getitem df c = Raise (KeyError [c]) /\ has_col df c = false).
Proof.
  destruct (has_col df c) eqn:E.
  - left. split; [now apply has_col_column | reflexivity].
  - right. split; [|reflexivity].
    unfold getitem. now rewrite (has_col_false_assoc _ _ E).
Qed.

Lemma to_datetime_Raise `{PyLib} (s : Series) (e : exn) :
  to_datetime s = Raise e -> e = ValueError.
Proof.
  unfold to_datetime. induction s as [|v s IH]; simpl; [discriminate|].
  destruct (to_datetime_cell v) as [d|e'] eqn:Ev; simpl.
  - destruct (mapM to_datetime_cell s); simpl; [discriminate|].
    intros [= <-]. now apply IH.
  - intros [= <-]. unfold to_datetime_cell in Ev.
    destruct (isna v); [discriminate|].
    destruct v; try discriminate;
      destruct (parse_datetime _); try discriminate; now injection Ev.
Qed.

Lemma reset_index_cases (df : DataFrame) :
  reset_index df = Raise ValueError \/
  exists name,
    reset_index df =
    Ok (mkDF (range_index (nrows df)) ((name, map VInt (index df)) :: columns df))
    /\ ((name = "index" /\ has_col df "index" = false) \/
        (name = "level_0" /\ has_col df "index" = true)).
Proof.
  unfold reset_index. destruct (has_col df "index") eqn:E.
  - destruct (has_col df "level_0"); [now left|]. right. eauto.
  - rewrite E. right. eauto.
Qed.

Lemma has_col_rename_other (df : DataFrame) (old new c : string) :
  c <> old -> c <> new ->
  has_col (rename_column df old new) c = has_col df c.
Proof.
  intros H1 H2. unfold has_col, colnames, rename_column. cbn [columns].
  induction (columns df) as [|[c' s] l IH]; simpl; [reflexivity|].
  rewrite IH. f_equal.
  destruct (String.eqb c' old) eqn:E; [|reflexivity].
  apply String.eqb_eq in E. subst c'.
  destruct (String.eqb c new) eqn:E1; [apply String.eqb_eq in E1; contradiction|].
  destruct (String.eqb c old) eqn:E2; [apply String.eqb_eq in E2; contradiction|].
  reflexivity.
Qed.

Lemma has_col_rename_new (df : DataFrame) (old new : string) :
  has_col df old = true -> has_col (rename_column df old new) new = true.
Proof.
  unfold has_col, colnames, rename_column. cbn [columns].
  induction (columns df) as [|[c' s] l IH]; simpl; [discriminate|].
  intros H. apply orb_true_iff in H as [H | H].
  - apply String.eqb_eq in H. subst c'.
    now rewrite String.eqb_refl, String.eqb_refl.
  - rewrite (IH H). apply orb_true_r.
Qed.

Lemma has_col_filter_rows (m : list bool) (df : DataFrame) (c : string) :
  has_col (filter_rows m df) c = has_col df c.
Proof.
  unfold has_col, colnames, filter_rows. cbn [columns]. now rewrite map_map.
Qed.

Lemma has_col_reset (df : DataFrame) (name c : string) (labels : Series)
    (idx : list Z) :
  has_col (mkDF idx ((name, labels) :: columns df)) c =
  (String.eqb c name || has_col df c)%bool.
Proof. reflexivity. Qed.

Lemma getitems_cases (df : DataFrame) (cs : list string) :
  (exists d, getitems df cs = Ok d /\ forall c, In c cs -> has_col df c = true) \/
  (exists missing,
      getitems df cs = Raise (KeyError missing) /\ missing <> [] /\
      forall c, In c missing -> In c cs /\ has_col df c = false).
Proof.
  unfold getitems.
  destruct (filter (fun c => negb (has_col df c)) cs) as [|c0 l] eqn:E.
  - left. eexists. split; [reflexivity|]. intros c Hc.
    destruct (has_col df c) eqn:Ec; [reflexivity|].
    assert (In c (filter (fun c => negb (has_col df c)) cs))
      by (apply filter_In; now rewrite Ec).
    rewrite E in H. destruct H.
  - right. exists (c0 :: l). split; [reflexivity|]. split; [discriminate|].
    intros c Hc. rewrite <- E in Hc. apply filter_In in Hc as [Hc Hn].
    apply negb_true_iff in Hn. auto.
Qed.

Lemma fallo_key_master (df_master df_actividades : DataFrame) (c : string) :
  In c columnas_master -> has_col df_master c = false ->
  fallo_por_columna df_master df_actividades (KeyError [c]).
Proof.
  intros Hc Hf. exists [c]. split; [reflexivity|]. split; [discriminate|].
  intros c' [<- | []]. left. auto.
Qed.

Lemma fallo_key_actividades (df_master df_actividades : DataFrame) (c : string) :
  In c columnas_actividades -> has_col df_actividades c = false ->
  fallo_por_columna df_master df_actividades (KeyError [c]).
Proof.
  intros Hc Hf. exists [c]. split; [reflexivity|]. split; [discriminate|].
  intros c' [<- | []]. right. auto.
Qed.

(** With a required column absent the aggregator does not return on well
    typed inputs: it raises a [KeyError] naming absent required columns. *)
Lemma integrar_falta `{PyLib} (df_master df_actividades : DataFrame) :
  entrada_bien_tipada df_master df_actividades ->
  (exists c, columna_ausente df_master df_actividades c) ->
  exists e,
    integrar_actividades_progresivo_por_curso df_master df_actividades = Raise e
    /\ fallo_por_columna df_master df_actividades e.
Proof.
  intros (HR & _ & (md & Hmd) & (ad & Had)) Haus.
  cbn [forallb columnas_reservadas] in HR.
  apply andb_true_iff in HR as [HRi _]. apply negb_true_iff in HRi.
  unfold mascara_tipo in Had.
  unfold integrar_actividades_progresivo_por_curso.
  destruct (getitem_cases df_actividades col_tipo_act) as [[-> P1] | [-> P1]];
    cbn [bind].
  2:{ eexists. split; [reflexivity|].
      apply fallo_key_actividades; [simpl; tauto | exact P1]. }
  rewrite getitem_filter_rows.
  destruct (getitem_cases df_actividades "CreatedDate") as [[-> P2] | [-> P2]];
    cbn [bind].
  2:{ eexists. split; [reflexivity|].
      apply fallo_key_actividades; [simpl; tauto | exact P2]. }
  rewrite Had. cbn [bind].
  destruct (getitem_cases df_master "CreatedDate") as [[-> P4] | [-> P4]];
    cbn [bind].
  2:{ eexists. split; [reflexivity|].
      apply fallo_key_master; [simpl; tauto | exact P4]. }
  rewrite Hmd. cbn [bind].
  rewrite getitem_setitem_other by discriminate. rewrite getitem_filter_rows.
  destruct (getitem_cases df_actividades "Estado_del_miembro__c")
    as [[-> P6] | [-> P6]]; cbn [bind].
  2:{ eexists. split; [reflexivity|].
      apply fallo_key_actividades; [simpl; tauto | exact P6]. }
  rewrite reset_index_ok by (rewrite has_col_setitem; now rewrite HRi).
  cbn [bind].
  set (m3 := rename_column _ "index" "fila_id_unico").
  assert (Hother : forall c', c' <> "index" -> c' <> "fila_id_unico" ->
            has_col m3 c' = has_col (setitem df_master "MasterDate" md) c').
  { intros c' H1 H2. unfold m3. rewrite has_col_rename_other by assumption.
    rewrite has_col_reset.
    destruct (String.eqb c' "index") eqn:E; [|reflexivity].
    apply String.eqb_eq in E. contradiction. }
  destruct (getitems_cases m3
              ["fila_id_unico"; "ID18__PC"; "MasterDate"; "PL_CURSO_ACADEMICO"])
    as [(iz & -> & P8) | (miss & -> & Hne & P8)]; cbn [bind].
  2:{ eexists. split; [reflexivity|]. exists miss.
      split; [reflexivity|]. split; [exact Hne|].
      intros c Hc. destruct (P8 c Hc) as [Hin Hno]. left.
      destruct Hin as [<- | [<- | [<- | [<- | []]]]].
      - exfalso. unfold m3 in Hno.
        rewrite has_col_rename_new in Hno; [discriminate | reflexivity].
      - split; [simpl; tauto|].
        rewrite Hother, has_col_setitem in Hno by discriminate.
        now apply orb_false_iff in Hno as [_ Hno].
      - exfalso. rewrite Hother, has_col_setitem in Hno by discriminate.
        now rewrite String.eqb_refl in Hno.
      - split; [simpl; tauto|].
        rewrite Hother, has_col_setitem in Hno by discriminate.
        now apply orb_false_iff in Hno as [_ Hno]. }
  match goal with
  | |- exists _, bind (getitems ?d ?cs) _ = _ /\ _ =>
      destruct (getitems_cases d cs) as [(de & -> & P9) | (miss & -> & Hne & P9)]
  end; cbn [bind].
  2:{ eexists. split; [reflexivity|]. exists miss.
      split; [reflexivity|]. split; [exact Hne|].
      intros c Hc. destruct (P9 c Hc) as [Hin Hno]. right.
      rewrite !has_col_setitem, has_col_filter_rows in Hno.
      destruct Hin as [<- | [<- | [<- | [<- | []]]]];
        cbn [String.eqb Ascii.eqb Bool.eqb orb] in Hno; try discriminate;
        (split; [simpl; tauto | exact Hno]). }
  exfalso.
  assert (Q1 : has_col df_master "ID18__PC" = true).
  { specialize (P8 "ID18__PC" ltac:(simpl; tauto)).
    rewrite Hother, has_col_setitem in P8 by discriminate.
    now apply orb_true_iff in P8 as [P8 | P8]. }
  assert (Q2 : has_col df_master "PL_CURSO_ACADEMICO" = true).
  { specialize (P8 "PL_CURSO_ACADEMICO" ltac:(simpl; tauto)).
    rewrite Hother, has_col_setitem in P8 by discriminate.
    now apply orb_true_iff in P8 as [P8 | P8]. }
  assert (Q3 : has_col df_actividades "ContactId" = true).
  { specialize (P9 "ContactId" ltac:(simpl; tauto)).
    now rewrite !has_col_setitem, has_col_filter_rows in P9. }
  assert (Q4 : has_col df_actividades "Campaign.AcademicCourse__c" = true).
  { specialize (P9 "Campaign.AcademicCourse__c" ltac:(simpl; tauto)).
    now rewrite !has_col_setitem, has_col_filter_rows in P9. }
  destruct Haus as (c & [[Hc Hf] | [Hc Hf]]).
  - simpl in Hc. destruct Hc as [<- | [<- | [<- | []]]]; congruence.
  - simpl in Hc. destruct Hc as [<- | [<- | [<- | [<- | [<- | []]]]]]; congruence.
Qed.

Ltac invert_binds H :=
  repeat (let a := fresh "x" in
          let E := fresh "E" in
          apply bind_Ok in H; destruct H as (a & E & H); cbn beta zeta in H).

Lemma integrar_efecto `{PyLib} (df_master df_actividades : DataFrame)
    (r : Integracion) :
  integrar_actividades_progresivo_por_curso df_master df_actividades = Ok r ->
  df_actividades_del_llamador r = df_actividades /\
  exists m_created m_dates,
    getitem df_master "CreatedDate" = Ok m_created /\
    to_datetime m_created = Ok m_dates /\
    df_master_del_llamador r = setitem df_master "MasterDate" m_dates.
Proof.
  intros Hr. unfold integrar_actividades_progresivo_por_curso in Hr.
  invert_binds Hr. injection Hr as <-.
  cbn [df_actividades_del_llamador df_master_del_llamador].
  split; [reflexivity|]. eauto.
Qed.

Lemma calcular_efecto `{PyLib} (historial_etapas : DataFrame) (t : Tiempos) :
  calcular_tiempos_etapas historial_etapas = Ok t ->
  exists created created' fin fin',
    getitem historial_etapas "CreatedDate" = Ok created /\
    to_datetime created = Ok created' /\
    getitem historial_etapas "Fecha_fin_etapa__c" = Ok fin /\
    to_datetime fin = Ok fin' /\
    historial_del_llamador t =
    setitem (setitem historial_etapas "CreatedDate" created')
      "Fecha_fin_etapa__c" fin'.
Proof.
  intros Ht. unfold calcular_tiempos_etapas in Ht.
  invert_binds Ht. injection Ht as <-. cbn [historial_del_llamador].
  rewrite getitem_setitem_other in E1 by discriminate.
  do 4 eexists. repeat split; eassumption || reflexivity.
Qed.

Lemma limpiar_efecto `{PyLib} (df_historial df_principal : DataFrame)
    (t : Hitos) :
  limpiar_historial_por_hitos df_historial df_principal = Ok t ->
  exists created created',
    getitem df_historial "CreatedDate" = Ok created /\
    to_datetime created = Ok created' /\
    df_historial_del_llamador t = setitem df_historial "CreatedDate" created'.
Proof.
  intros Ht. unfold limpiar_historial_por_hitos in Ht.
  invert_binds Ht. injection Ht as <-. cbn [df_historial_del_llamador]. eauto.
Qed.

Lemma index_setitem (df : DataFrame) (c : string) (s : Series) :
  index (setitem df c s) = index df.
Proof. reflexivity. Qed.

Lemma assoc_set_id (c : string) (s : Series) (l : list (string * Series)) :
  assoc c l = Some s -> assoc_set c s l = l.
Proof.
  induction l as [|[c' s'] l IH]; simpl; [discriminate|].
  destruct (String.eqb c c') eqn:E.
  - now intros [= ->].
  - intros Hs. now rewrite IH.
Qed.

Lemma setitem_id (df : DataFrame) (c : string) (s : Series) :
  getitem df c = Ok s -> setitem df c s = df.
Proof.
  intros Hs. apply getitem_assoc in Hs. unfold setitem.
  rewrite (assoc_set_id _ _ _ Hs). now destruct df.
Qed.

(** C2 (defect of the code): the aggregator takes the identity of a master
    row from the row label the caller's table gives it, so two rows under
    one label share their counters.  The master table holds entity A in
    cohort C at times 4 and 10 under the label 0 twice, and the one
    activity, of A in C with status 'Asiste', is at time 5: the row at time
    4 gets 1 in [num_asistencias_acum], from an activity later than itself.
    The inputs are admissible otherwise. *)
Theorem fuga_con_etiqueta_repetida :
  entrada_admisible (H := ascii_lib) ejemplo_master_fuga ejemplo_actividad_unica /\
  index ejemplo_master_fuga = [0%Z; 0%Z] /\
  nrows ejemplo_actividad_unica = 1 /\
  celda ejemplo_master_fuga "CreatedDate" 0 = VTime 4 /\
  celda ejemplo_actividad_unica "CreatedDate" 0 = VTime 5 /\
  exists r,
    integrar_actividades_progresivo_por_curso (H := ascii_lib)
      ejemplo_master_fuga ejemplo_actividad_unica = Ok r /\
    getitem (resultado r) "num_asistencias_acum" = Ok [VInt 1; VInt 1].
Proof.
  split.
  { repeat split; try reflexivity; try (eexists; vm_compute; reflexivity).
    repeat constructor. }
  repeat (split; [reflexivity|]).
  eexists. split; [vm_compute; reflexivity|]. reflexivity.
Qed.

(** C3 (defect of the code): under one repeated row label the activities of
    entity A are counted for the row of entity B too.  The two master rows
    are entity A and entity B under the label 0, the three activities are
    all of entity A, and both rows get 1 in [num_asistencias_acum], though no
    activity is counted for the row of B by the rule of the claim. *)
Theorem etiqueta_repetida_cuenta_conjunta :
  entrada_admisible (H := ascii_lib) ejemplo_master_etiqueta_repetida
    ejemplo_actividades /\
  index ejemplo_master_etiqueta_repetida = [0%Z; 0%Z] /\
  (forall j, ~ actividad_contada (H := ascii_lib)
                 ejemplo_master_etiqueta_repetida ejemplo_actividades
                 ["asiste"] 1 j) /\
  exists r,
    integrar_actividades_progresivo_por_curso (H := ascii_lib)
      ejemplo_master_etiqueta_repetida ejemplo_actividades = Ok r /\
    getitem (resultado r) "num_asistencias_acum" = Ok [VInt 1; VInt 1].
Proof.
  split.
  { repeat split; try reflexivity; try (eexists; vm_compute; reflexivity).
    repeat constructor. }
  split; [reflexivity|]. split.
  - intros j (Hj & (_ & Hid & _) & _).
    do 3 (destruct j as [|j]; [discriminate Hid|]).
    cbn in Hj. lia.
  - eexists. split; [vm_compute; reflexivity|]. reflexivity.
Qed.

Lemma sin_ausentes (df_master df_actividades : DataFrame) :
  (forall c, ~ columna_ausente df_master df_actividades c) ->
  forallb (has_col df_master) columnas_master = true /\
  forallb (has_col df_actividades) columnas_actividades = true.
Proof.
  intros Hno. split; apply forallb_forall; intros c Hc;
    destruct (has_col _ c) eqn:E; try reflexivity;
    exfalso; apply (Hno c); [left | right]; auto.
Qed.

(** C8 (amended): on well-typed inputs (the text columns that are there
    hold text, the timestamps convert, the master table has none of the
    columns the aggregator creates), when a column the aggregator reads is
    absent from the table it is read from, the call raises pandas'
    [KeyError], which names the absent required column or columns and no
    table; when no such column is absent and no activity is an earlier
    activity of any master row, the call returns, with zero in both counters
    of every row. *)
Theorem integrar_fallos `{PyLib} (df_master df_actividades : DataFrame)
    (H_tipos : entrada_bien_tipada df_master df_actividades)
    (H_forma : well_formed df_actividades) :
  ((exists c, columna_ausente df_master df_actividades c) ->
   exists e,
     integrar_actividades_progresivo_por_curso df_master df_actividades = Raise e
     /\ fallo_por_columna df_master df_actividades e) /\
  ((forall c, ~ columna_ausente df_master df_actividades c) ->
   (forall i j, ~ actividad_anterior df_master df_actividades i j) ->
   exists r,
     integrar_actividades_progresivo_por_curso df_master df_actividades = Ok r /\
     forall i, i < nrows df_master ->
       cell (resultado r) "num_asistencias_acum" i = Some (VInt 0) /\
       cell (resultado r) "num_solicitudes_acum" i = Some (VInt 0)).
Proof.
  split.
  - now apply integrar_falta.
  - intros Hno Hzero. destruct (sin_ausentes _ _ Hno) as [HM HA].
    apply entrada_admisible_ceros; [|exact Hzero].
    repeat split; try assumption; apply H_tipos.
Qed.

(** C8 as stated fails: with the entity key column absent from the master
    table the call raises, but no exception of class MissingColumnError. *)
Lemma integrar_no_missing_column_error :
  columna_ausente ejemplo_master_sin_id ejemplo_actividades "ID18__PC" /\
  integrar_actividades_progresivo_por_curso (H := ascii_lib)
    ejemplo_master_sin_id ejemplo_actividades = Raise (KeyError ["ID18__PC"]) /\
  ~ (exists e,
        integrar_actividades_progresivo_por_curso (H := ascii_lib)
          ejemplo_master_sin_id ejemplo_actividades = Raise e /\
        exn_class e = "MissingColumnError").
Proof.
  assert (E : integrar_actividades_progresivo_por_curso (H := ascii_lib)
                ejemplo_master_sin_id ejemplo_actividades =
              Raise (KeyError ["ID18__PC"])) by (vm_compute; reflexivity).
  split; [left; split; [simpl; tauto | reflexivity]|].
  split; [exact E|].
  intros (e & He & Hc). rewrite E in He. injection He as <-. discriminate Hc.
Qed.

(** C9 (amended): [calcular_tiempos_etapas] changes the caller's history
    table only in its columns CreatedDate and Fecha_fin_etapa__c, which it
    replaces by their datetime conversions, so not at all when they hold
    datetimes already; [integrar_actividades_progresivo_por_curso] leaves
    the activity table unchanged and changes the caller's master table only
    by writing the column MasterDate, the datetime conversion of
    CreatedDate. *)
Theorem efectos_sobre_el_llamador `{PyLib} :
  (forall historial_etapas t,
      calcular_tiempos_etapas historial_etapas = Ok t ->
      index (historial_del_llamador t) = index historial_etapas /\
      (forall c, c <> "CreatedDate" -> c <> "Fecha_fin_etapa__c" ->
                 getitem (historial_del_llamador t) c = getitem historial_etapas c) /\
      (exists created created' fin fin',
          getitem historial_etapas "CreatedDate" = Ok created /\
          to_datetime created = Ok created' /\
          getitem (historial_del_llamador t) "CreatedDate" = Ok created' /\
          getitem historial_etapas "Fecha_fin_etapa__c" = Ok fin /\
          to_datetime fin = Ok fin' /\
          getitem (historial_del_llamador t) "Fecha_fin_etapa__c" = Ok fin' /\
          (Forall (fun v => is_datetime v = true) created ->
           Forall (fun v => is_datetime v = true) fin ->
           historial_del_llamador t = historial_etapas))) /\
  (forall df_master df_actividades r,
      integrar_actividades_progresivo_por_curso df_master df_actividades = Ok r ->
      df_actividades_del_llamador r = df_actividades /\
      index (df_master_del_llamador r) = index df_master /\
      (forall c, c <> "MasterDate" ->
                 getitem (df_master_del_llamador r) c = getitem df_master c) /\
      exists m_created m_dates,
        getitem df_master "CreatedDate" = Ok m_created /\
        to_datetime m_created = Ok m_dates /\
        getitem (df_master_del_llamador r) "MasterDate" = Ok m_dates).
Proof.
  split.
  - intros h t Ht.
    destruct (calcular_efecto h t Ht)
      as (created & created' & fin & fin' & Hc & Hc' & Hf & Hf' & ->).
    split; [reflexivity|]. split.
    + intros c H1 H2. now rewrite !getitem_setitem_other by assumption.
    + exists created, created', fin, fin'. repeat split; try assumption.
      * rewrite getitem_setitem_other by discriminate.
        apply getitem_setitem_same.
      * apply getitem_setitem_same.
      * intros Dc Df.
        rewrite (to_datetime_idempotent _ Dc) in Hc'. injection Hc' as <-.
        rewrite (to_datetime_idempotent _ Df) in Hf'. injection Hf' as <-.
        rewrite (setitem_id _ _ _ Hc). apply (setitem_id _ _ _ Hf).
  - intros m a r Hr.
    destruct (integrar_efecto m a r Hr) as (Ha & mc & md & Hc & Hd & ->).
    split; [exact Ha|]. split; [reflexivity|]. split.
    + intros c Hne. now rewrite getitem_setitem_other.
    + exists mc, md. repeat split; try assumption. apply getitem_setitem_same.
Qed.

(** C9 as stated fails: after a call of the aggregator the caller's master
    table has a column more, and after a call of the stage calculator on a
    history whose dates are epoch integers the caller's date columns hold
    timestamps. *)
Lemma caller_tables_are_written :
  (exists r,
      integrar_actividades_progresivo_por_curso (H := ascii_lib)
        ejemplo_master ejemplo_actividades = Ok r /\
      has_col ejemplo_master "MasterDate" = false /\
      has_col (df_master_del_llamador r) "MasterDate" = true /\
      df_master_del_llamador r <> ejemplo_master) /\
  (exists t,
      calcular_tiempos_etapas (H := ascii_lib) ejemplo_historial = Ok t /\
      getitem ejemplo_historial "CreatedDate" =
      Ok [VInt 0; VInt 200000000000000; VInt 5] /\
      getitem (historial_del_llamador t) "CreatedDate" =
      Ok [VTime 0; VTime 200000000000000; VTime 5] /\
      historial_del_llamador t <> ejemplo_historial).
Proof.
  split.
  - eexists. split; [vm_compute; reflexivity|].
    split; [reflexivity|]. split; [reflexivity|]. discriminate.
  - eexists. split; [vm_compute; reflexivity|].
    split; [reflexivity|]. split; [reflexivity|]. discriminate.
Qed.
(** ** Milestone cleaning *)

(** The minimum of a datetime column: its earliest timestamp. *)
Lemma series_min_datetime (s : Series) :
  Forall (fun v => is_datetime v = true) s ->
  match series_min s with
  | VTime d => In (VTime d) s /\ forall d', In (VTime d') s -> (d <= d')%Z
  | VNull => forall d', ~ In (VTime d') s
  | _ => False
  end.
Proof.
  induction 1 as [|v r Hv Hr IH]; [intros d' []|].
  cbn [series_min]. destruct v; try discriminate; cbn [isna].
  - destruct (series_min r); try contradiction.
    + intros d' [E|E]; [discriminate | exact (IH d' E)].
    + destruct IH as [Hin Hmin]. split; [now right|].
      intros d' [E|E]; [discriminate | now apply Hmin].
  - destruct (series_min r) as [| | | |y]; try contradiction; cbn [isna].
    + split; [now left|].
      intros d' [E|E]; [injection E as <-; lia | destruct (IH d' E)].
    + destruct IH as [Hin Hmin]. unfold value_leb. cbn [isna].
      destruct (Z.leb_spec t y) as [L|L].
      * split; [now left|].
        intros d' [E|E]; [injection E as <-; lia | specialize (Hmin d' E); lia].
      * split; [now right|].
        intros d' [E|E]; [injection E as <-; lia | now apply Hmin].
Qed.

(** *** Assignment through a mask, with enlargement *)

Lemma loc_set_fold (cs : list string) (df : DataFrame) (c : string) :
  let df' := fold_left (fun d a => if has_col d a then d
                                   else setitem d a (repeat VNull (nrows d)))
                       cs df in
  index df' = index df /\
  assoc c (columns df') =
  match assoc c (columns df) with
  | Some s => Some s
  | None => if mem c cs then Some (repeat VNull (nrows df)) else None
  end.
Proof.
  revert df. induction cs as [|a cs IH]; intros df; cbn [fold_left mem existsb].
  - split; [reflexivity | now destruct (assoc c (columns df))].
  - destruct (has_col df a) eqn:Ha.
    + destruct (IH df) as [I1 I2]. split; [exact I1|]. cbn zeta in I2.
      rewrite I2. destruct (assoc c (columns df)) eqn:Ec; [reflexivity|].
      destruct (String.eqb_spec c a) as [->|Hn]; [|reflexivity].
      apply has_col_getitem in Ha as [s Hs]. apply getitem_assoc in Hs.
      congruence.
    + destruct (IH (setitem df a (repeat VNull (nrows df)))) as [I1 I2].
      split; [exact I1|]. cbn zeta in I2. rewrite I2.
      unfold setitem, nrows. cbn [columns index].
      destruct (String.eqb_spec c a) as [->|Hn].
      * rewrite assoc_set_same, (has_col_false_assoc _ _ Ha). reflexivity.
      * rewrite assoc_set_other by exact Hn. reflexivity.
Qed.

Lemma getitem_loc_set_other (df : DataFrame) (m : list bool) (cs : list string)
    (v : value) (c : string) :
  mem c cs = false -> getitem (loc_set df m cs v) c = getitem df c.
Proof.
  intros Hc. unfold getitem, loc_set. cbn [columns].
  rewrite assoc_loc_map, Hc.
  destruct (loc_set_fold cs df c) as [_ E]. cbn zeta in E. rewrite E, Hc.
  now destruct (assoc c (columns df)).
Qed.

Lemma nrows_loc_set (df : DataFrame) (m : list bool) (cs : list string)
    (v : value) :
  nrows (loc_set df m cs v) = nrows df.
Proof.
  destruct (loc_set_fold cs df "") as [E _]. cbn zeta in E.
  unfold loc_set. cbv zeta. unfold nrows at 1. cbn [index]. now rewrite E.
Qed.

(** A cell of an assigned column: the value on a masked row, the previous
    cell elsewhere; a column the table lacked is missing everywhere. *)
Lemma cell_loc_set_in (df : DataFrame) (m : list bool) (cs : list string)
    (c : string) (r : nat) :
  mem c cs = true -> r < nrows df ->
  (forall s, assoc c (columns df) = Some s -> length s = nrows df) ->
  cell (loc_set df m cs VNull) c r =
  Some (if nth r m false then VNull else celda df c r).
Proof.
  intros Hc Hr Hlen. unfold cell, loc_set, celda, column_or_empty.
  cbn [columns]. rewrite assoc_loc_map, Hc.
  destruct (loc_set_fold cs df c) as [_ E]. cbn zeta in E. rewrite E, Hc.
  destruct (assoc c (columns df)) as [s|] eqn:Es; cbn [option_map].
  - rewrite nth_error_mask_assign.
    rewrite (nth_error_nth_lt s r) by (rewrite (Hlen s eq_refl); exact Hr).
    reflexivity.
  - rewrite nth_error_mask_assign.
    rewrite (nth_error_nth_lt (repeat VNull (nrows df)) r)
      by (rewrite repeat_length; exact Hr).
    cbn [option_map]. rewrite nth_repeat.
    destruct (nth r m false); destruct r; reflexivity.
Qed.

(** *** The three joins *)

Lemma take_all (s : Series) (n : nat) : length s = n -> take s (seq 0 n) = s.
Proof. intros <-. apply map_nth_seq_all. Qed.

Lemma filter_all {A : Type} (p : A -> bool) (l : list A) :
  (forall x, In x l -> p x = true) -> filter p l = l.
Proof.
  induction l as [|x l IH]; simpl; intros Hp; [reflexivity|].
  rewrite (Hp x) by now left. f_equal. apply IH. intros y Hy. apply Hp. now right.
Qed.

Lemma map_take_all (cols : list (string * Series)) (n : nat) :
  Forall (fun cs => length (snd cs) = n) cols ->
  map (fun cs => (fst cs, take (snd cs) (seq 0 n))) cols = cols.
Proof.
  induction 1 as [|[c s] l Hc Hl IH]; [reflexivity|].
  cbn [map fst snd] in *. now rewrite IH, take_all.
Qed.

(** A join on one key column per side, when no other column name is on
    both sides. *)
Lemma merge_one (left right : DataFrame) (lc rc : string) (lkc rkc : Series)
    (h : how) (right_cols : list (string * Series)) :
  getitem left lc = Ok lkc -> getitem right rc = Ok rkc ->
  filter (fun cs => negb (mem (fst cs) (if String.eqb lc rc then [lc] else [])))
         (columns right) = right_cols ->
  filter (fun c => mem c (map fst right_cols)) (colnames left) = [] ->
  merge left right [lc] [rc] h =
  Ok (mkDF (range_index
              (length (merge_pairs h [lkc] [rkc] (nrows left) (nrows right))))
        (map (fun cs =>
                (fst cs,
                 take (snd cs)
                   (map fst (merge_pairs h [lkc] [rkc] (nrows left) (nrows right)))))
             (columns left)
         ++
         map (fun cs =>
                (fst cs,
                 take_opt (snd cs)
                   (map snd (merge_pairs h [lkc] [rkc] (nrows left) (nrows right)))))
             right_cols)).
Proof.
  intros Hl Hr Hcols Hover.
  unfold merge. cbn [combine mapM fst snd]. rewrite Hl, Hr.
  cbn [bind map fst snd filter].
  replace (map fst (if String.eqb lc rc then [(lc, rc)] else []))
    with (if String.eqb lc rc then [lc] else @nil string)
    by now destruct (String.eqb lc rc).
  rewrite Hcols, Hover. reflexivity.
Qed.

(** A left join with a milestone table adds the milestone date of each
    row's opportunity as one new column. *)
Lemma merge_lookup (left : DataFrame) (lkc ks : Series) (f : value -> value)
    (nombre : string) :
  getitem left "LK_Oportunidad__c" = Ok lkc ->
  well_formed left ->
  NoDup ks -> Forall (fun v => is_key v = true) ks ->
  Forall (fun v => is_key_or_null v = true) lkc ->
  has_col left nombre = false ->
  merge left
    (mkDF (range_index (length ks))
       [("LK_Oportunidad__c", ks); (nombre, map f ks)])
    ["LK_Oportunidad__c"] ["LK_Oportunidad__c"] Left =
  Ok (mkDF (range_index (nrows left))
        (columns left ++
         [(nombre,
           map (fun i => if set_contains ks (nth i lkc VNull)
                         then f (nth i lkc VNull) else VNull)
               (seq 0 (nrows left)))])).
Proof.
  intros Hlk Hwf Hnd Hks Hkn Hnew.
  assert (Hne : String.eqb nombre "LK_Oportunidad__c" = false).
  { apply String.eqb_neq. intros ->.
    assert (has_col left "LK_Oportunidad__c" = true)
      by (apply has_col_getitem; eauto).
    congruence. }
  destruct (left_lookup lkc ks f (nrows left) Hnd Hks) as [P1 P2].
  { intros i _. apply (nth_Forall_default (fun v => is_key_or_null v = true));
      [reflexivity | exact Hkn]. }
  set (right := mkDF (range_index (length ks)) _).
  assert (Hn : nrows right = length ks)
    by (unfold right, nrows; cbn [index]; apply length_range_index).
  rewrite (merge_one left right _ _ lkc ks Left [(nombre, map f ks)] Hlk).
  - rewrite Hn. cbn [map fst snd].
    assert (Hlen : length (merge_pairs Left [lkc] [ks] (nrows left) (length ks))
                   = nrows left)
      by (rewrite <- (length_map fst), P1; apply length_seq).
    rewrite Hlen, P1, P2.
    now rewrite (map_take_all (columns left) (nrows left) Hwf).
  - reflexivity.
  - unfold right. cbn [columns filter fst mem existsb].
    rewrite !String.eqb_refl. cbn [filter fst mem existsb orb negb].
    rewrite !Hne. reflexivity.
  - apply filter_none. intros c Hc. cbn [map fst mem existsb].
    rewrite orb_false_r. apply String.eqb_neq. intros ->.
    apply (proj2 (mem_In _ _)) in Hc. unfold has_col in Hnew. congruence.
Qed.

(** The left join with the principal table. *)
Lemma merge_principal (left df_principal : DataFrame) (lkc ids : Series) :
  getitem left "LK_Oportunidad__c" = Ok lkc ->
  getitem df_principal "ID" = Ok ids ->
  (forall c, has_col df_principal c = true -> has_col left c = false) ->
  merge left df_principal ["LK_Oportunidad__c"] ["ID"] Left =
  Ok (mkDF (range_index
              (length (merge_pairs Left [lkc] [ids] (nrows left)
                         (nrows df_principal))))
        (map (fun cs =>
                (fst cs,
                 take (snd cs)
                   (map fst (merge_pairs Left [lkc] [ids] (nrows left)
                               (nrows df_principal)))))
             (columns left)
         ++
         map (fun cs =>
                (fst cs,
                 take_opt (snd cs)
                   (map snd (merge_pairs Left [lkc] [ids] (nrows left)
                               (nrows df_principal)))))
             (columns df_principal))).
Proof.
  intros Hlk Hid Hdisj.
  apply (merge_one left df_principal _ _ lkc ids Left _ Hlk Hid).
  - apply filter_all. reflexivity.
  - apply filter_none. intros c Hc.
    destruct (mem c (map fst (columns df_principal))) eqn:E; [|reflexivity].
    apply (proj2 (mem_In _ _)) in Hc.
    specialize (Hdisj c E). unfold has_col in Hdisj. congruence.
Qed.

Lemma merge_pairs_fst_lt (h : how) (lkeys rkeys : list Series) (nl nr : nat)
    (p : nat * option nat) :
  In p (merge_pairs h lkeys rkeys nl nr) -> fst p < nl.
Proof.
  unfold merge_pairs. intros Hp. apply in_flat_map in Hp as (i & Hi & Hp).
  apply in_seq in Hi.
  assert (fst p = i); [|lia].
  destruct (matches lkeys rkeys nr i), h; cbn [In map] in Hp;
    repeat match goal with
           | H : _ \/ _ |- _ => destruct H
           | H : In _ (map _ _) |- _ => apply in_map_iff in H as (? & <- & _)
           | H : _ = p |- _ => subst p
           | H : False |- _ => destruct H
           end; reflexivity.
Qed.

Lemma nth_map_seq {A : Type} (F : nat -> A) (n i : nat) (d : A) :
  i < n -> nth i (map F (seq 0 n)) d = F i.
Proof.
  intros Hi. rewrite (nth_indep _ d (F 0)) by now rewrite length_map, length_seq.
  rewrite map_nth. now rewrite seq_nth.
Qed.

Lemma nth_map_at {A B : Type} (F : A -> B) (l : list A) (r : nat) (x : A) (d : B) :
  nth_error l r = Some x -> nth r (map F l) d = F x.
Proof.
  intros Hx. apply nth_error_nth. now apply map_nth_error.
Qed.

Lemma getitem_eq_assoc (df df' : DataFrame) (c : string) :
  getitem df c = getitem df' c -> assoc c (columns df) = assoc c (columns df').
Proof.
  unfold getitem.
  destruct (assoc c (columns df)), (assoc c (columns df')); congruence.
Qed.

Lemma group_cells_masked {A : Type} (mf : A -> bool) (g h : A -> value)
    (k : value) (l : list A) :
  group_cells (mask_filter (map mf l) (map g l))
              (mask_filter (map mf l) (map h l)) k =
  map h (filter (fun x => value_same k (g x)) (filter mf l)).
Proof. rewrite !mask_filter_map. apply group_cells_map. Qed.

(** A left join keeps every left row. *)
Lemma merge_pairs_left_total (lkeys rkeys : list Series) (nl nr i : nat) :
  i < nl -> exists oj, In (i, oj) (merge_pairs Left lkeys rkeys nl nr).
Proof.
  intros Hi. unfold merge_pairs.
  destruct (matches lkeys rkeys nr i) as [|j js] eqn:Em.
  - exists None. apply in_flat_map. exists i.
    split; [apply in_seq; lia | rewrite Em; now left].
  - exists (Some j). apply in_flat_map. exists i.
    split; [apply in_seq; lia | rewrite Em; now left].
Qed.

Lemma well_formed_setitem (df : DataFrame) (c : string) (s : Series) :
  well_formed df -> length s = nrows df -> well_formed (setitem df c s).
Proof.
  unfold well_formed, setitem, nrows. cbn [columns index]. intros Hwf Hs.
  induction Hwf as [|[c' s'] l Hc Hl IH]; cbn [assoc_set].
  - now constructor.
  - destruct (String.eqb c c'); constructor; auto.
Qed.

Lemma mem_app (c : string) (l r : list string) :
  mem c (l ++ r) = (mem c l || mem c r)%bool.
Proof. apply existsb_app. Qed.

Lemma text_key_or_null (s : Series) :
  Forall (fun v => is_text v = true) s ->
  Forall (fun v => is_key_or_null v = true) s.
Proof.
  apply Forall_impl. intros v Hv. now destruct v.
Qed.

Lemma Forall_mask_filter {A : Type} (P : A -> Prop) (m : list bool) (s : list A) :
  Forall P s -> Forall P (mask_filter m s).
Proof.
  intros Hs. apply Forall_forall. intros x Hx.
  rewrite Forall_forall in Hs. eapply Hs, mask_filter_incl, Hx.
Qed.

Section LimpiarRun.

Context `{PyLib}.
Variables (df_historial df_principal : DataFrame).
Variables (lk etapa subetapa created created' ids : Series).
Hypothesis H_lk : getitem df_historial "LK_Oportunidad__c" = Ok lk.
Hypothesis H_etapa : getitem df_historial "PL_Etapa__c" = Ok etapa.
Hypothesis H_sub : getitem df_historial "PL_Subetapa__c" = Ok subetapa.
Hypothesis H_created : getitem df_historial "CreatedDate" = Ok created.
Hypothesis H_conv : to_datetime created = Ok created'.
Hypothesis H_ids : getitem df_principal "ID" = Ok ids.
Hypothesis H_wf : well_formed df_historial.
Hypothesis H_text : Forall (fun v => is_text v = true) lk.
Hypothesis H_acad : has_col df_historial "fecha_pruebas_calificadas" = false.
Hypothesis H_econ : has_col df_historial "fecha_matricula_iniciada" = false.
Hypothesis H_pacad : has_col df_principal "fecha_pruebas_calificadas" = false.
Hypothesis H_pecon : has_col df_principal "fecha_matricula_iniciada" = false.
Hypothesis H_disj :
  forall c, has_col df_principal c = true -> has_col df_historial c = false.

Local Abbreviation n := (nrows df_historial).
Local Abbreviation historial1 := (setitem df_historial "CreatedDate" created').
Local Abbreviation m_hito e s :=
  (mask_and (series_eq etapa (VStr e)) (series_eq subetapa (VStr s))).
Local Abbreviation ks_hito e s := (group_keys (mask_filter (m_hito e s) lk)).
Local Abbreviation min_hito e s :=
  (fun k => series_min (group_cells (mask_filter (m_hito e s) lk)
                          (mask_filter (m_hito e s) created') k)).
Local Abbreviation col_hito e s :=
  (map (fun i => if set_contains (ks_hito e s) (nth i lk VNull)
                 then series_min
                        (group_cells (mask_filter (m_hito e s) lk)
                           (mask_filter (m_hito e s) created') (nth i lk VNull))
                 else VNull)
       (seq 0 n)).
Local Abbreviation col_acad :=
  (col_hito "Pruebas de admisión" "Pruebas calificadas").
Local Abbreviation col_econ := (col_hito "Matrícula admisión" "Pago Mínimo").
Local Abbreviation union1 :=
  (mkDF (range_index n)
     (columns historial1 ++ [("fecha_pruebas_calificadas", col_acad)])).
Local Abbreviation union2 :=
  (mkDF (range_index n)
     (columns union1 ++ [("fecha_matricula_iniciada", col_econ)])).
Local Abbreviation pares :=
  (merge_pairs Left [lk] [ids] n (nrows df_principal)).
Local Abbreviation union3 :=
  (mkDF (range_index (length pares))
     (map (fun cs => (fst cs, take (snd cs) (map fst pares))) (columns union2)
      ++
      map (fun cs => (fst cs, take_opt (snd cs) (map snd pares)))
          (columns df_principal))).

Lemma length_created' : length created' = n.
Proof.
  destruct (to_datetime_datetime _ _ H_conv) as [-> _].
  now apply (well_formed_length df_historial "CreatedDate").
Qed.

Lemma hito_eq (e s nombre : string) :
  hito historial1 e s nombre =
  Ok (mkDF (range_index (length (ks_hito e s)))
        [("LK_Oportunidad__c", ks_hito e s);
         (nombre, map (min_hito e s) (ks_hito e s))]).
Proof.
  unfold hito, groupby_min.
  rewrite !getitem_setitem_other by discriminate.
  rewrite H_etapa, H_sub. cbn [bind].
  rewrite !getitem_filter_rows, getitem_setitem_same.
  rewrite getitem_setitem_other by discriminate.
  rewrite H_lk. reflexivity.
Qed.

Lemma ks_hito_keys (e s : string) :
  NoDup (ks_hito e s) /\ Forall (fun v => is_key v = true) (ks_hito e s) /\
  forall k, is_key k = true ->
            (In k (ks_hito e s) <-> In k (mask_filter (m_hito e s) lk)).
Proof.
  apply group_keys_key, Forall_mask_filter, text_key_or_null, H_text.
Qed.

Lemma historial1_wf : well_formed historial1.
Proof. apply well_formed_setitem; [exact H_wf | exact length_created']. Qed.

Lemma historial1_lk : getitem historial1 "LK_Oportunidad__c" = Ok lk.
Proof. now rewrite getitem_setitem_other by discriminate. Qed.

Lemma union1_eq :
  (h <- hito historial1 "Pruebas de admisión" "Pruebas calificadas"
          "fecha_pruebas_calificadas" ;;
   merge historial1 h ["LK_Oportunidad__c"] ["LK_Oportunidad__c"] Left)
  = Ok union1.
Proof.
  rewrite hito_eq. cbn [bind].
  destruct (ks_hito_keys "Pruebas de admisión" "Pruebas calificadas")
    as (Hnd & Hks & _).
  apply (merge_lookup historial1 lk _
           (min_hito "Pruebas de admisión" "Pruebas calificadas")
           "fecha_pruebas_calificadas" historial1_lk historial1_wf Hnd Hks).
  - apply text_key_or_null, H_text.
  - rewrite has_col_setitem, H_acad. reflexivity.
Qed.

Lemma union1_lk : getitem union1 "LK_Oportunidad__c" = Ok lk.
Proof.
  apply getitem_assoc. cbn [columns]. rewrite assoc_app_l.
  - apply getitem_assoc, historial1_lk.
  - apply (has_col_getitem historial1). eexists. apply historial1_lk.
Qed.

Lemma union1_wf : well_formed union1.
Proof.
  unfold well_formed, nrows. cbn [columns index]. rewrite length_range_index.
  apply Forall_app. split; [exact historial1_wf|].
  constructor; [|constructor]. cbn [snd]. now rewrite length_map, length_seq.
Qed.

Lemma union2_eq :
  (h <- hito historial1 "Matrícula admisión" "Pago Mínimo"
          "fecha_matricula_iniciada" ;;
   merge union1 h ["LK_Oportunidad__c"] ["LK_Oportunidad__c"] Left)
  = Ok union2.
Proof.
  rewrite hito_eq. cbn [bind].
  destruct (ks_hito_keys "Matrícula admisión" "Pago Mínimo") as (Hnd & Hks & _).
  rewrite (merge_lookup union1 lk _
             (min_hito "Matrícula admisión" "Pago Mínimo")
             "fecha_matricula_iniciada" union1_lk union1_wf Hnd Hks).
  - unfold nrows. cbn [index]. now rewrite length_range_index.
  - apply text_key_or_null, H_text.
  - unfold has_col, colnames. cbn [columns]. rewrite map_app, mem_app.
    fold (colnames historial1). fold (has_col historial1 "fecha_matricula_iniciada").
    rewrite has_col_setitem, H_econ. reflexivity.
Qed.

Lemma union2_lk : getitem union2 "LK_Oportunidad__c" = Ok lk.
Proof.
  apply getitem_assoc. cbn [columns]. rewrite assoc_app_l.
  - apply (proj1 (getitem_assoc union1 _ _)), union1_lk.
  - apply (has_col_getitem union1). eexists. apply union1_lk.
Qed.

Lemma nrows_union2 : nrows union2 = n.
Proof. unfold nrows. cbn [index]. apply length_range_index. Qed.

Lemma has_col_union2 (c : string) :
  has_col union2 c =
  (String.eqb c "CreatedDate" || has_col df_historial c
   || String.eqb c "fecha_pruebas_calificadas"
   || String.eqb c "fecha_matricula_iniciada")%bool.
Proof.
  unfold has_col at 1, colnames. cbn [columns]. rewrite !map_app, !mem_app.
  fold (colnames historial1). fold (has_col historial1 c).
  rewrite has_col_setitem. cbn [map fst mem existsb]. now rewrite !orb_false_r.
Qed.

Lemma principal_union2 (c : string) :
  has_col df_principal c = true -> has_col union2 c = false.
Proof.
  intros Hc. rewrite has_col_union2, (H_disj c Hc).
  assert (Hcd : has_col df_historial "CreatedDate" = true)
    by (apply has_col_getitem; eauto).
  destruct (String.eqb_spec c "CreatedDate") as [->|_];
    [rewrite (H_disj _ Hc) in Hcd; discriminate|].
  destruct (String.eqb_spec c "fecha_pruebas_calificadas") as [->|_];
    [congruence|].
  destruct (String.eqb_spec c "fecha_matricula_iniciada") as [->|_];
    [congruence|].
  reflexivity.
Qed.

Lemma union3_eq :
  merge union2 df_principal ["LK_Oportunidad__c"] ["ID"] Left = Ok union3.
Proof.
  rewrite (merge_principal union2 df_principal lk ids union2_lk H_ids
             principal_union2).
  now rewrite nrows_union2.
Qed.

(** The run of the function up to the two masked assignments. *)
Lemma limpiar_eq :
  limpiar_historial_por_hitos df_historial df_principal =
  (mask_acad <- mask_hito union3 "fecha_pruebas_calificadas" ;;
   mask_econ <- mask_hito (loc_set union3 mask_acad cols_academicas VNull)
                  "fecha_matricula_iniciada" ;;
   Ok (mkHitos historial1
         (loc_set (loc_set union3 mask_acad cols_academicas VNull)
            mask_econ cols_economicas VNull))).
Proof.
  unfold limpiar_historial_por_hitos. rewrite H_created. cbn [bind].
  rewrite H_conv. cbn [bind].
  pose proof union1_eq as E1. pose proof union2_eq as E2.
  rewrite hito_eq in E1, E2 |- *. cbn [bind] in E1, E2 |- *.
  rewrite hito_eq. cbn [bind]. rewrite E1. cbn [bind]. rewrite E2. cbn [bind].
  rewrite union3_eq. reflexivity.
Qed.

(** A column of the joined table that comes from the history side. *)
Lemma union3_left (c : string) (s : Series) :
  getitem union2 c = Ok s ->
  getitem union3 c = Ok (map (fun p => nth (fst p) s VNull) pares).
Proof.
  intros Hs. apply getitem_assoc. cbn [columns]. rewrite assoc_app_l.
  - rewrite (assoc_map_snd (fun s => take s (map fst pares))).
    apply getitem_assoc in Hs. cbn [columns] in Hs. rewrite Hs. cbn [option_map].
    unfold take. now rewrite map_map.
  - rewrite map_map. cbn [fst]. apply (has_col_getitem union2). eauto.
Qed.

(** A column of the joined table that comes from the principal table. *)
Lemma union3_right (c : string) :
  has_col union2 c = false ->
  assoc c (columns union3) =
  option_map (fun s => map (fun p => match snd p with
                                     | Some j => nth j s VNull
                                     | None => VNull
                                     end) pares)
             (assoc c (columns df_principal)).
Proof.
  intros Hc. cbn [columns]. rewrite assoc_app_r.
  - rewrite (assoc_map_snd (fun s => take_opt s (map snd pares))).
    destruct (assoc c (columns df_principal)); [|reflexivity].
    cbn [option_map]. unfold take_opt. now rewrite map_map.
  - rewrite map_map. cbn [fst]. exact Hc.
Qed.

Lemma union2_created : getitem union2 "CreatedDate" = Ok created'.
Proof.
  apply getitem_assoc. cbn [columns]. rewrite <- app_assoc, assoc_app_l.
  - apply assoc_set_same.
  - apply (has_col_getitem historial1). eexists. apply getitem_setitem_same.
Qed.

Lemma union2_acad : getitem union2 "fecha_pruebas_calificadas" = Ok col_acad.
Proof.
  apply getitem_assoc. cbn [columns]. rewrite <- app_assoc, assoc_app_r.
  - reflexivity.
  - fold (colnames historial1). fold (has_col historial1 "fecha_pruebas_calificadas").
    rewrite has_col_setitem, H_acad. reflexivity.
Qed.

Lemma union2_econ : getitem union2 "fecha_matricula_iniciada" = Ok col_econ.
Proof.
  apply getitem_assoc. cbn [columns]. rewrite <- app_assoc, assoc_app_r.
  - reflexivity.
  - fold (colnames historial1). fold (has_col historial1 "fecha_matricula_iniciada").
    rewrite has_col_setitem, H_econ. reflexivity.
Qed.

Lemma union2_historial (c : string) (s : Series) :
  c <> "CreatedDate" -> getitem df_historial c = Ok s -> getitem union2 c = Ok s.
Proof.
  intros Hc Hs. apply getitem_assoc. cbn [columns].
  rewrite <- app_assoc, assoc_app_l.
  - unfold setitem. cbn [columns].
    rewrite assoc_set_other by exact Hc. now apply getitem_assoc.
  - fold (colnames historial1). fold (has_col historial1 c).
    rewrite has_col_setitem. apply orb_true_iff. right.
    apply has_col_getitem. eauto.
Qed.

(** The mask of a milestone on the joined table. *)
Lemma mask_hito_eq (df : DataFrame) (nombre : string) (col : Series) :
  getitem df nombre = Ok (map (fun p => nth (fst p) col VNull) pares) ->
  getitem df "CreatedDate" = Ok (map (fun p => nth (fst p) created' VNull) pares) ->
  mask_hito df nombre =
  Ok (map (fun p => antes_del_hito (nth (fst p) created' VNull)
                                   (nth (fst p) col VNull)) pares).
Proof.
  intros Hn Hc. unfold mask_hito. rewrite Hn, Hc. cbn [bind].
  unfold mask_or. rewrite map_map.
  rewrite (map2_map datetime_lt (fun p => nth (fst p) created' VNull)
             (fun p => nth (fst p) col VNull)).
  rewrite (map2_map orb (fun p => isna (nth (fst p) col VNull))
             (fun p => datetime_lt (nth (fst p) created' VNull)
                                   (nth (fst p) col VNull))).
  reflexivity.
Qed.

Local Abbreviation mask_de col :=
  (map (fun p : nat * option nat =>
          antes_del_hito (nth (fst p) created' VNull) (nth (fst p) col VNull))
       pares).
Local Abbreviation final1 :=
  (loc_set union3 (mask_de col_acad) cols_academicas VNull).
Local Abbreviation final2 :=
  (loc_set final1 (mask_de col_econ) cols_economicas VNull).

Lemma limpiar_run :
  limpiar_historial_por_hitos df_historial df_principal =
  Ok (mkHitos historial1 final2).
Proof.
  rewrite limpiar_eq.
  rewrite (mask_hito_eq union3 "fecha_pruebas_calificadas" col_acad
             (union3_left _ _ union2_acad) (union3_left _ _ union2_created)).
  cbn [bind].
  rewrite (mask_hito_eq final1 "fecha_matricula_iniciada" col_econ).
  - reflexivity.
  - rewrite getitem_loc_set_other by reflexivity.
    apply union3_left, union2_econ.
  - rewrite getitem_loc_set_other by reflexivity.
    apply union3_left, union2_created.
Qed.

Local Abbreviation es_evento e s :=
  (fun j => py_eq (nth j etapa VNull) (VStr e)
            && py_eq (nth j subetapa VNull) (VStr s)).

Lemma m_hito_eq (e s : string) : m_hito e s = map (es_evento e s) (seq 0 n).
Proof.
  unfold mask_and, series_eq.
  rewrite <- (map_nth_seq_all etapa VNull) at 1.
  rewrite <- (map_nth_seq_all subetapa VNull) at 1.
  rewrite (well_formed_length _ _ _ H_wf H_etapa).
  rewrite (well_formed_length _ _ _ H_wf H_sub).
  rewrite !map_map.
  apply (map2_map andb (fun j => py_eq (nth j etapa VNull) (VStr e))
           (fun j => py_eq (nth j subetapa VNull) (VStr s))).
Qed.

Lemma keys_hito (e s : string) :
  mask_filter (m_hito e s) lk =
  map (fun j => nth j lk VNull) (filter (es_evento e s) (seq 0 n)).
Proof.
  rewrite m_hito_eq. rewrite <- (map_nth_seq_all lk VNull) at 1.
  rewrite (well_formed_length _ _ _ H_wf H_lk). apply mask_filter_map.
Qed.

Lemma group_hito (e s : string) (k : value) :
  group_cells (mask_filter (m_hito e s) lk) (mask_filter (m_hito e s) created') k =
  map (fun j => nth j created' VNull)
      (filter (fun j => value_same k (nth j lk VNull))
              (filter (es_evento e s) (seq 0 n))).
Proof.
  rewrite m_hito_eq. rewrite <- (map_nth_seq_all lk VNull) at 1.
  rewrite <- (map_nth_seq_all created' VNull) at 1.
  rewrite (well_formed_length _ _ _ H_wf H_lk), length_created'.
  apply group_cells_masked.
Qed.

Lemma created'_nth (j : nat) :
  nth j created' VNull = fecha_de (celda df_historial "CreatedDate" j).
Proof.
  unfold celda. rewrite (getitem_column_or_empty _ _ _ H_created).
  rewrite (to_datetime_map _ _ H_conv).
  transitivity (nth j (map fecha_de created) (fecha_de VNull));
    [f_equal; symmetry; apply fecha_de_null | apply map_nth].
Qed.

(** The events of a text key are the rows the milestone table groups
    under it. *)
Lemma evento_iff (e s x : string) (j : nat) (d : Z) :
  evento df_historial e s (VStr x) j d <->
  In j (filter (fun j => value_same (VStr x) (nth j lk VNull))
               (filter (es_evento e s) (seq 0 n))) /\
  nth j created' VNull = VTime d.
Proof.
  unfold evento, celda.
  rewrite (getitem_column_or_empty _ _ _ H_lk),
    (getitem_column_or_empty _ _ _ H_etapa),
    (getitem_column_or_empty _ _ _ H_sub).
  rewrite created'_nth. unfold celda.
  rewrite !filter_In, in_seq, andb_true_iff, value_same_text.
  rewrite !py_eq_key by reflexivity.
  intuition (try lia; try reflexivity).
Qed.

Lemma datetime_created' : Forall (fun v => is_datetime v = true) created'.
Proof. apply (to_datetime_datetime _ _ H_conv). Qed.

(** The milestone column holds, for each history row, the earliest date of
    its opportunity's events at the stage and sub-stage. *)
Lemma col_hito_primer (e s : string) (i : nat) :
  i < n ->
  primer_hito df_historial e s (nth i lk VNull) (nth i (col_hito e s) VNull).
Proof.
  intros Hi. rewrite nth_map_seq by exact Hi.
  destruct (ks_hito_keys e s) as (_ & Hks & Hin).
  assert (Ht : is_text (nth i lk VNull) = true)
    by (apply (nth_Forall_default (fun v => is_text v = true));
        [reflexivity | exact H_text]).
  destruct (nth i lk VNull) as [|x| | |]; try discriminate.
  - rewrite (set_contains_null _ Hks). intros j d' [Hk _]. discriminate.
  - destruct (set_contains (ks_hito e s) (VStr x)) eqn:Es.
    + rewrite group_hito.
      match goal with |- primer_hito _ _ _ _ (series_min ?G) =>
        assert (HG : Forall (fun v => is_datetime v = true) G) end.
      { apply Forall_forall. intros v Hv. apply in_map_iff in Hv as (j & <- & _).
        apply (nth_Forall_default (fun v => is_datetime v = true));
          [reflexivity | exact datetime_created']. }
      pose proof (series_min_datetime _ HG) as Hmin.
      destruct (series_min _) as [| | | |t]; try contradiction; cbn [primer_hito].
      * intros j d' Hev. apply evento_iff in Hev as [Hj Hd].
        apply (Hmin d'). apply in_map_iff. now exists j.
      * destruct Hmin as [Hmem Hle]. split.
        -- apply in_map_iff in Hmem as (j & Hd & Hj). exists j.
           apply evento_iff. now split.
        -- intros j d' Hev. apply evento_iff in Hev as [Hj Hd].
           apply Hle. apply in_map_iff. now exists j.
    + intros j d' Hev. apply evento_iff in Hev as [Hj _].
      apply filter_In in Hj as [Hj Hx]. apply value_same_text in Hx.
      assert (Hk : In (VStr x) (ks_hito e s)).
      { apply Hin; [reflexivity|]. rewrite keys_hito.
        apply in_map_iff. now exists j. }
      apply (set_contains_key (VStr x) _ eq_refl) in Hk. congruence.
Qed.

Lemma nrows_union3 : nrows union3 = length pares.
Proof. unfold nrows. cbn [index]. apply length_range_index. Qed.

Lemma union3_wf : well_formed union3.
Proof.
  unfold well_formed. rewrite nrows_union3. cbn [columns].
  apply Forall_app. split; apply Forall_forall; intros cs Hcs;
    apply in_map_iff in Hcs as (cs' & <- & _); cbn [snd].
  - now rewrite length_take, length_map.
  - unfold take_opt. now rewrite !length_map.
Qed.

Section Fila.

Variables (r i : nat) (oj : option nat).
Hypothesis H_fila : nth_error pares r = Some (i, oj).

Lemma fila_lt : r < length pares.
Proof. apply nth_error_Some. rewrite H_fila. discriminate. Qed.

Lemma fila_historial : i < n.
Proof.
  apply (merge_pairs_fst_lt Left [lk] [ids] n (nrows df_principal) (i, oj)).
  eapply nth_error_In, H_fila.
Qed.

(** A cell of a column that neither assignment writes. *)
Lemma final2_left (c : string) (s : Series) :
  mem c cols_academicas = false -> mem c cols_economicas = false ->
  getitem union2 c = Ok s ->
  cell final2 c r = Some (nth i s VNull).
Proof.
  intros Ha He Hs.
  assert (E : getitem final2 c = Ok (map (fun p => nth (fst p) s VNull) pares)).
  { rewrite !getitem_loc_set_other by assumption. now apply union3_left. }
  rewrite (getitem_Ok_cell _ _ _ r E).
  now rewrite (map_nth_error _ _ _ H_fila).
Qed.

(** What the joins put in a column other than the dates. *)
Lemma union3_celda (c : string) :
  c <> "CreatedDate" -> c <> "fecha_pruebas_calificadas" ->
  c <> "fecha_matricula_iniciada" ->
  celda union3 c r = valor_unido df_historial df_principal c i oj.
Proof.
  intros N1 N2 N3. unfold celda at 1, column_or_empty, valor_unido.
  destruct (has_col df_historial c) eqn:Hh.
  - apply has_col_getitem in Hh as [s Hs].
    pose proof (union3_left c s (union2_historial c s N1 Hs)) as E.
    apply getitem_assoc in E. rewrite E.
    rewrite (nth_map_at _ _ _ _ _ H_fila). cbn [fst].
    unfold celda. now rewrite (getitem_column_or_empty _ _ _ Hs).
  - rewrite union3_right.
    2:{ rewrite has_col_union2, Hh.
        apply String.eqb_neq in N1, N2, N3. now rewrite N1, N2, N3. }
    unfold celda, column_or_empty.
    destruct (assoc c (columns df_principal)) as [s|]; cbn [option_map].
    + rewrite (nth_map_at _ _ _ _ _ H_fila). reflexivity.
    + destruct oj as [j|]; [destruct j|]; destruct r; reflexivity.
Qed.

Lemma mask_de_fila (col : Series) :
  nth r (mask_de col) false =
  antes_del_hito (nth i created' VNull) (nth i col VNull).
Proof. now rewrite (nth_map_at _ _ _ _ _ H_fila). Qed.

Lemma final2_academica (c : string) :
  In c cols_academicas ->
  cell final2 c r =
  Some (if antes_del_hito (nth i created' VNull) (nth i col_acad VNull)
        then VNull else valor_unido df_historial df_principal c i oj).
Proof.
  intros Hc.
  assert (He : mem c cols_economicas = false).
  { cbn [In cols_academicas] in Hc.
    repeat (destruct Hc as [<-|Hc]; [reflexivity|]). destruct Hc. }
  assert (Hn : c <> "CreatedDate" /\ c <> "fecha_pruebas_calificadas"
               /\ c <> "fecha_matricula_iniciada").
  { cbn [In cols_academicas] in Hc.
    repeat (destruct Hc as [<-|Hc]; [repeat split; discriminate|]). destruct Hc. }
  destruct Hn as (N1 & N2 & N3).
  unfold cell.
  rewrite (getitem_eq_assoc _ _ _ (getitem_loc_set_other final1 _ _ VNull c He)).
  fold (cell final1 c r).
  rewrite cell_loc_set_in.
  - rewrite mask_de_fila, union3_celda by assumption. reflexivity.
  - now apply mem_In.
  - rewrite nrows_union3. exact fila_lt.
  - intros s Hs. apply (well_formed_length union3 c s union3_wf).
    now apply getitem_assoc.
Qed.

Lemma final2_economica (c : string) :
  In c cols_economicas ->
  cell final2 c r =
  Some (if antes_del_hito (nth i created' VNull) (nth i col_econ VNull)
        then VNull else valor_unido df_historial df_principal c i oj).
Proof.
  intros Hc.
  assert (Ha : mem c cols_academicas = false).
  { cbn [In cols_economicas] in Hc.
    repeat (destruct Hc as [<-|Hc]; [reflexivity|]). destruct Hc. }
  assert (Hn : c <> "CreatedDate" /\ c <> "fecha_pruebas_calificadas"
               /\ c <> "fecha_matricula_iniciada").
  { cbn [In cols_economicas] in Hc.
    repeat (destruct Hc as [<-|Hc]; [repeat split; discriminate|]). destruct Hc. }
  destruct Hn as (N1 & N2 & N3).
  pose proof (getitem_eq_assoc _ _ _
                (getitem_loc_set_other union3 (mask_de col_acad) _ VNull c Ha))
    as E1.
  rewrite cell_loc_set_in.
  - rewrite mask_de_fila. unfold celda at 1, column_or_empty. rewrite E1.
    fold (column_or_empty union3 c). fold (celda union3 c r).
    rewrite union3_celda by assumption. reflexivity.
  - now apply mem_In.
  - rewrite nrows_loc_set, nrows_union3. exact fila_lt.
  - intros s Hs. rewrite nrows_loc_set. rewrite E1 in Hs.
    apply (well_formed_length union3 c s union3_wf). now apply getitem_assoc.
Qed.

End Fila.

Lemma filas_unidas_eq : filas_unidas df_historial df_principal = pares.
Proof.
  unfold filas_unidas.
  now rewrite (getitem_column_or_empty _ _ _ H_lk),
    (getitem_column_or_empty _ _ _ H_ids).
Qed.

Lemma limpiar_filas :
  exists t,
    limpiar_historial_por_hitos df_historial df_principal = Ok t /\
    let out := df_final t in
    let filas := filas_unidas df_historial df_principal in
    nrows out = length filas /\
    (forall i, i < n -> exists r oj, nth_error filas r = Some (i, oj)) /\
    forall r i oj, nth_error filas r = Some (i, oj) ->
      let k := celda df_historial "LK_Oportunidad__c" i in
      let fecha := fecha_de (celda df_historial "CreatedDate" i) in
      exists hito_acad hito_econ,
        primer_hito df_historial "Pruebas de admisión" "Pruebas calificadas"
          k hito_acad /\
        primer_hito df_historial "Matrícula admisión" "Pago Mínimo"
          k hito_econ /\
        cell out "LK_Oportunidad__c" r = Some k /\
        cell out "CreatedDate" r = Some fecha /\
        cell out "fecha_pruebas_calificadas" r = Some hito_acad /\
        cell out "fecha_matricula_iniciada" r = Some hito_econ /\
        (forall c, In c cols_academicas ->
           cell out c r =
           Some (if antes_del_hito fecha hito_acad then VNull
                 else valor_unido df_historial df_principal c i oj)) /\
        (forall c, In c cols_economicas ->
           cell out c r =
           Some (if antes_del_hito fecha hito_econ then VNull
                 else valor_unido df_historial df_principal c i oj)).
Proof.
  exists (mkHitos historial1 final2). split; [exact limpiar_run|].
  cbn zeta. cbn [df_final]. rewrite filas_unidas_eq.
  split; [|split].
  - now rewrite !nrows_loc_set, nrows_union3.
  - intros i Hi.
    destruct (merge_pairs_left_total [lk] [ids] n (nrows df_principal) i Hi)
      as (oj & Hin).
    apply In_nth_error in Hin as [r Hr]. now exists r, oj.
  - intros r i oj Hf.
    pose proof (fila_historial r i oj Hf) as Hi.
    cbv zeta.
    replace (celda df_historial "LK_Oportunidad__c" i) with (nth i lk VNull)
      by (unfold celda; now rewrite (getitem_column_or_empty _ _ _ H_lk)).
    rewrite <- created'_nth.
    exists (nth i col_acad VNull), (nth i col_econ VNull).
    split; [now apply col_hito_primer|].
    split; [now apply col_hito_primer|].
    split; [apply (final2_left r i oj Hf); [reflexivity.. | exact union2_lk]|].
    split; [apply (final2_left r i oj Hf); [reflexivity.. | exact union2_created]|].
    split; [apply (final2_left r i oj Hf); [reflexivity.. | exact union2_acad]|].
    split; [apply (final2_left r i oj Hf); [reflexivity.. | exact union2_econ]|].
    split; intros c Hc.
    + now apply final2_academica.
    + now apply final2_economica.
Qed.

End LimpiarRun.

Lemma forallb_text (s : Series) :
  forallb is_text s = true -> Forall (fun v => is_text v = true) s.
Proof. intros Hs. apply Forall_forall. now apply forallb_forall. Qed.


(** * Further properties *)

(** ** The two labelers *)

Lemma label_array_set (a b : Series) (x : value) :
  is_key x = true ->
  (ndarray_contains a x && negb (ndarray_contains b x))%bool =
  set_contains (set_difference a b) x.
Proof.
  intros Hk. apply eq_true_iff_eq.
  rewrite andb_true_iff, negb_true_iff, (ndarray_contains_key x a Hk).
  rewrite (set_contains_key x _ Hk). unfold set_difference.
  rewrite filter_In, negb_true_iff.
  assert (E : ndarray_contains b x = set_contains b x).
  { apply eq_true_iff_eq.
    now rewrite (ndarray_contains_key x b Hk), (set_contains_key x b Hk). }
  rewrite E. reflexivity.
Qed.

(** The columns a call of a labeler that returned has read. *)
Lemma crear_target_columns (oportunidad historial_etapas out : DataFrame) :
  crear_target oportunidad historial_etapas = Ok out \/
  crear_target_auditado oportunidad historial_etapas = Ok out ->
  exists ids lk etapa subetapa,
    getitem oportunidad "ID" = Ok ids /\
    getitem historial_etapas "LK_Oportunidad__c" = Ok lk /\
    getitem historial_etapas "PL_Etapa__c" = Ok etapa /\
    getitem historial_etapas "PL_Subetapa__c" = Ok subetapa.
Proof.
  intros [Hr|Hr].
  - unfold crear_target in Hr. invert_binds Hr.
    rewrite getitem_filter_rows in E1. invert_bind E1. eauto 10.
  - unfold crear_target_auditado in Hr. invert_binds Hr. eauto 10.
Qed.

(** The table a labeler returns: the caller's table with a column of zeros
    and ones, one per identifier. *)
Lemma crear_target_shape (oportunidad historial_etapas out : DataFrame) :
  crear_target oportunidad historial_etapas = Ok out \/
  crear_target_auditado oportunidad historial_etapas = Ok out ->
  exists ids t,
    getitem oportunidad "ID" = Ok ids /\
    out = setitem oportunidad "target" t /\
    length t = length ids /\
    Forall (fun v => v = VInt 0 \/ v = VInt 1) t.
Proof.
  intros Hr.
  destruct (crear_target_columns _ _ _ Hr)
    as (ids & lk & etapa & subetapa & H1 & H2 & H3 & H4).
  exists ids. destruct Hr as [Hr|Hr].
  - rewrite (crear_target_eq _ _ ids lk etapa subetapa H1 H2 H3 H4) in Hr.
    invert_binds Hr. injection Hr as <-. eexists.
    split; [exact H1|]. split; [reflexivity|]. split; [apply length_map|].
    apply Forall_forall. intros v Hv. apply in_map_iff in Hv as (w & <- & _).
    destruct (_ && _); auto.
  - rewrite (crear_target_auditado_eq _ _ ids lk etapa subetapa H1 H2 H3 H4) in Hr.
    injection Hr as <-. eexists.
    split; [exact H1|]. split; [reflexivity|].
    split; [unfold isin; now rewrite !length_map|].
    apply Forall_forall. intros v Hv. apply in_map_iff in Hv as (w & <- & _).
    destruct w; auto.
Qed.

Lemma assoc_set_twice (c : string) (s s' : Series) (l : list (string * Series)) :
  assoc_set c s (assoc_set c s' l) = assoc_set c s l.
Proof.
  induction l as [|[c' s''] l IH]; cbn [assoc_set].
  - now rewrite String.eqb_refl.
  - destruct (String.eqb c c') eqn:E; cbn [assoc_set]; rewrite E;
      [reflexivity | now rewrite IH].
Qed.

Lemma setitem_twice (df : DataFrame) (c : string) (s s' : Series) :
  setitem (setitem df c s') c s = setitem df c s.
Proof. unfold setitem. cbn [index columns]. now rewrite assoc_set_twice. Qed.

(** X1: on an identifier column of exact keys, every table that
    [crear_target] returns is the table that [crear_target_auditado]
    returns on the same inputs. *)
Theorem crear_target_coincide_con_auditado
    (oportunidad historial_etapas out : DataFrame) (ids : Series)
    (H_ID : getitem oportunidad "ID" = Ok ids)
    (H_keys : Forall (fun v => is_key v = true) ids)
    (H_run : crear_target oportunidad historial_etapas = Ok out) :
  crear_target_auditado oportunidad historial_etapas = Ok out.
Proof.
  destruct (crear_target_columns _ _ _ (or_introl H_run))
    as (ids' & lk & etapa & subetapa & H1 & H2 & H3 & H4).
  rewrite (crear_target_eq _ _ ids' lk etapa subetapa H1 H2 H3 H4) in H_run.
  invert_binds H_run. injection H_run as <-.
  rewrite (crear_target_auditado_eq _ _ ids' lk etapa subetapa H1 H2 H3 H4).
  do 2 f_equal. unfold isin. rewrite map_map. apply map_ext_in.
  intros w Hw. rewrite H_ID in H1. injection H1 as <-.
  rewrite Forall_forall in H_keys.
  now rewrite label_array_set by auto.
Qed.

(** X2: a labeler that returns has written the column [target] and nothing
    else: the row labels and every other column are the caller's, and
    [target] holds one integer per identifier, 0 or 1, never a missing
    value. *)
Theorem etiquetador_solo_escribe_target
    (oportunidad historial_etapas out : DataFrame)
    (H_run : crear_target oportunidad historial_etapas = Ok out \/
             crear_target_auditado oportunidad historial_etapas = Ok out) :
  index out = index oportunidad /\
  (forall c, c <> "target" -> getitem out c = getitem oportunidad c) /\
  exists ids t,
    getitem oportunidad "ID" = Ok ids /\
    getitem out "target" = Ok t /\
    length t = length ids /\
    Forall (fun v => v = VInt 0 \/ v = VInt 1) t.
Proof.
  destruct (crear_target_shape _ _ _ H_run) as (ids & t & H1 & -> & Hl & Ht).
  split; [reflexivity|]. split.
  - intros c Hc. now apply getitem_setitem_other.
  - exists ids, t. repeat split; try assumption. apply getitem_setitem_same.
Qed.

(** X3: labeling a table again with the same history returns the same
    table: the column [target] is overwritten where it stands. *)
Theorem etiquetador_idempotente
    (oportunidad historial_etapas out : DataFrame) :
  (crear_target oportunidad historial_etapas = Ok out ->
   crear_target out historial_etapas = Ok out) /\
  (crear_target_auditado oportunidad historial_etapas = Ok out ->
   crear_target_auditado out historial_etapas = Ok out).
Proof.
  split; intros Hr.
  - destruct (crear_target_columns _ _ _ (or_introl Hr))
      as (ids & lk & etapa & subetapa & H1 & H2 & H3 & H4).
    rewrite (crear_target_eq _ _ ids lk etapa subetapa H1 H2 H3 H4) in Hr.
    invert_binds Hr. injection Hr as <-.
    rewrite (crear_target_eq _ _ ids lk etapa subetapa); try assumption.
    + rewrite E, E0. cbn [bind]. now rewrite setitem_twice.
    + now rewrite getitem_setitem_other by discriminate.
  - destruct (crear_target_columns _ _ _ (or_intror Hr))
      as (ids & lk & etapa & subetapa & H1 & H2 & H3 & H4).
    rewrite (crear_target_auditado_eq _ _ ids lk etapa subetapa H1 H2 H3 H4) in Hr.
    injection Hr as <-.
    rewrite (crear_target_auditado_eq _ _ ids lk etapa subetapa); try assumption.
    + now rewrite setitem_twice.
    + now rewrite getitem_setitem_other by discriminate.
Qed.

(** ** The stage calculator *)

Lemma next_in_group_cases (k : value) (keys vals : Series) :
  next_in_group k keys vals = VNull \/
  exists p k',
    nth_error keys p = Some k' /\ value_same k k' = true /\
    nth_error vals p = Some (next_in_group k keys vals).
Proof.
  revert vals. induction keys as [|k' keys IH]; intros vals; [now left|].
  destruct vals as [|v vals]; [now left|]. cbn [next_in_group].
  destruct (value_same k k') eqn:E.
  - right. exists 0, k'. auto.
  - destruct (IH vals) as [Hn|(p & k'' & H1 & H2 & H3)]; [now left|].
    right. exists (S p), k''. auto.
Qed.

Lemma isort_sorted {A : Type} (leb : A -> A -> bool) (l : list A) :
  StronglySorted (fun a b => leb a b = true) l -> isort leb l = l.
Proof.
  induction 1 as [|x l Hl IH Hx]; [reflexivity|].
  cbn [isort]. rewrite IH. destruct l as [|y l]; [reflexivity|].
  cbn [insert_sorted]. now rewrite (Forall_inv Hx).
Qed.

Lemma StronglySorted_seq (R : nat -> nat -> Prop) (a n : nat) :
  (forall i j, a <= i -> i < j -> j < a + n -> R i j) ->
  StronglySorted R (seq a n).
Proof.
  revert a. induction n as [|n IH]; intros a HR; cbn [seq]; constructor.
  - apply IH. intros i j Hi Hij Hj. apply HR; lia.
  - apply Forall_forall. intros j Hj. apply in_seq in Hj. apply HR; lia.
Qed.

Lemma take_rows_all (df : DataFrame) :
  well_formed df -> take_rows df (seq 0 (nrows df)) = df.
Proof.
  intros Hwf. unfold take_rows. rewrite (map_take_all _ _ Hwf).
  unfold nrows. rewrite map_nth_seq_all. now destruct df.
Qed.

Lemma length_dias_entre (a b : Series) :
  length a = length b -> length (dias_entre a b) = length b.
Proof.
  intros Hl. unfold dias_entre. rewrite length_map.
  revert b Hl. induction a as [|x a IH]; intros [|y b] Hl;
    try discriminate; [reflexivity|].
  cbn [map2 length]. f_equal. apply IH. now injection Hl.
Qed.

Lemma length_groupby_shift_next (keys vals : Series) :
  length keys = length vals -> length (groupby_shift_next keys vals) = length vals.
Proof.
  revert vals. induction keys as [|k keys IH]; intros [|v vals] Hl;
    try discriminate; [reflexivity|].
  cbn [groupby_shift_next length]. f_equal. apply IH. now injection Hl.
Qed.

Section CalcularRun.

Context `{PyLib}.
Variables (historial_etapas : DataFrame).
Variables (lk created fin created' fin' : Series).
Hypothesis H_LK : getitem historial_etapas "LK_Oportunidad__c" = Ok lk.
Hypothesis H_created : getitem historial_etapas "CreatedDate" = Ok created.
Hypothesis H_fin : getitem historial_etapas "Fecha_fin_etapa__c" = Ok fin.
Hypothesis H_created' : to_datetime created = Ok created'.
Hypothesis H_fin' : to_datetime fin = Ok fin'.
Hypothesis H_text : Forall (fun v => is_text v = true) lk.

Local Abbreviation n := (nrows historial_etapas).
Local Abbreviation h2 :=
  (setitem (setitem historial_etapas "CreatedDate" created')
     "Fecha_fin_etapa__c" fin').
Local Abbreviation orden := (sort_order [lk; created'] n).
Local Abbreviation lk_s := (take lk orden).
Local Abbreviation created_s := (take created' orden).
Local Abbreviation fin_s := (take fin' orden).
Local Abbreviation d1 := (dias_entre fin_s created_s).
Local Abbreviation d2 :=
  (dias_entre (groupby_shift_next lk_s created_s) created_s).
Local Abbreviation salida :=
  (setitem (setitem (take_rows h2 orden) "tiempo_etapa_dias" d1)
     "tiempo_entre_etapas_dias" d2).

Lemma h2_lk : getitem h2 "LK_Oportunidad__c" = Ok lk.
Proof. now rewrite !getitem_setitem_other by discriminate. Qed.

Lemma h2_created : getitem h2 "CreatedDate" = Ok created'.
Proof.
  rewrite getitem_setitem_other by discriminate. apply getitem_setitem_same.
Qed.

Lemma h2_fin : getitem h2 "Fecha_fin_etapa__c" = Ok fin'.
Proof. apply getitem_setitem_same. Qed.

Lemma datetime_created : Forall (fun v => is_datetime v = true) created'.
Proof. apply (to_datetime_datetime _ _ H_created'). Qed.

Lemma datetime_fin : Forall (fun v => is_datetime v = true) fin'.
Proof. apply (to_datetime_datetime _ _ H_fin'). Qed.

Lemma length_orden : length orden = n.
Proof.
  rewrite (Permutation_length (sort_order_perm _ _)). apply length_seq.
Qed.

(** The run of the calculator on a history whose keys are text and whose
    dates convert. *)
Lemma calcular_run :
  calcular_tiempos_etapas historial_etapas = Ok (mkTiempos h2 salida).
Proof.
  assert (Hsort : sort_values h2 ["LK_Oportunidad__c"; "CreatedDate"] =
                  Ok (take_rows h2 orden)).
  { unfold sort_values. cbn [mapM]. rewrite h2_lk, h2_created. cbn [bind forallb].
    rewrite (sortable_text _ H_text), (sortable_datetime _ datetime_created).
    reflexivity. }
  unfold calcular_tiempos_etapas. rewrite H_created. cbn [bind].
  rewrite H_created'. cbn [bind].
  rewrite getitem_setitem_other, H_fin by discriminate. cbn [bind].
  rewrite H_fin'. cbn [bind]. rewrite Hsort. cbn [bind].
  rewrite !getitem_take_rows, h2_fin, h2_created. cbn [bind].
  rewrite !getitem_setitem_other by discriminate.
  rewrite !getitem_take_rows, h2_lk, h2_created. reflexivity.
Qed.

Lemma nth_take_orden (s : Series) (r : nat) :
  r < n -> nth r (take s orden) VNull = nth (nth r orden 0) s VNull.
Proof.
  intros Hr. unfold take.
  rewrite (nth_indep _ VNull (nth 0 s VNull)) by now rewrite length_map, length_orden.
  now rewrite (map_nth (fun i => nth i s VNull)).
Qed.

Lemma nth_error_take_orden (s : Series) (r : nat) :
  r < n -> nth_error (take s orden) r = Some (nth r (take s orden) VNull).
Proof. intros Hr. apply nth_error_nth_lt. now rewrite length_take, length_orden. Qed.

(** The rows of the result are in ascending order of key and start. *)
Lemma salida_ordenada (r r' : nat) :
  r < r' -> r' < n ->
  lex_leb [nth r lk_s VNull; nth r created_s VNull]
          [nth r' lk_s VNull; nth r' created_s VNull] = true.
Proof.
  intros Hrr' Hr'. rewrite !nth_take_orden by lia.
  apply (sort_order_sorted lk created' n H_text datetime_created r r' Hrr' Hr').
Qed.

Lemma text_lk_s (r : nat) : is_text (nth r lk_s VNull) = true.
Proof.
  apply (nth_Forall_default (fun v => is_text v = true)); [reflexivity|].
  apply Forall_forall. intros v Hv. apply in_map_iff in Hv as (i & <- & _).
  now apply (nth_Forall_default (fun v => is_text v = true)).
Qed.

Lemma datetime_created_s : Forall (fun v => is_datetime v = true) created_s.
Proof.
  apply Forall_forall. intros v Hv. apply in_map_iff in Hv as (i & <- & _).
  apply (nth_Forall_default (fun v => is_datetime v = true));
    [reflexivity | exact datetime_created].
Qed.

Lemma datetime_fin_s : Forall (fun v => is_datetime v = true) fin_s.
Proof.
  apply Forall_forall. intros v Hv. apply in_map_iff in Hv as (i & <- & _).
  apply (nth_Forall_default (fun v => is_datetime v = true));
    [reflexivity | exact datetime_fin].
Qed.

Lemma nrows_salida : nrows salida = n.
Proof.
  unfold nrows at 1. cbn [index setitem take_rows].
  now rewrite length_map, length_orden.
Qed.

Lemma salida_d1 : getitem salida "tiempo_etapa_dias" = Ok d1.
Proof.
  rewrite getitem_setitem_other by discriminate. apply getitem_setitem_same.
Qed.

Lemma salida_d2 : getitem salida "tiempo_entre_etapas_dias" = Ok d2.
Proof. apply getitem_setitem_same. Qed.

Lemma salida_columna (c : string) (s : Series) :
  c <> "tiempo_etapa_dias" -> c <> "tiempo_entre_etapas_dias" ->
  getitem h2 c = Ok s -> getitem salida c = Ok (take s orden).
Proof.
  intros N1 N2 Hs. rewrite !getitem_setitem_other by assumption.
  now rewrite getitem_take_rows, Hs.
Qed.

(** Every duration is an integer. *)
Lemma duracion_entera (r : nat) :
  r < n -> exists d, nth_error d1 r = Some (VInt d).
Proof.
  intros Hr.
  rewrite (dias_entre_cell _ _ r _ _ (nth_error_take_orden fin' r Hr)
             (nth_error_take_orden created' r Hr)).
  unfold dias_enteros.
  destruct (nth r fin_s VNull), (nth r created_s VNull); eauto.
Qed.

(** Every gap is an integer, and none is negative: the next event of an
    opportunity does not start before the current one. *)
Lemma espera_no_negativa (r : nat) :
  r < n -> exists g, nth_error d2 r = Some (VInt g) /\ (0 <= g)%Z.
Proof.
  intros Hr.
  pose proof (nth_error_take_orden lk r Hr) as Hk.
  pose proof (nth_error_take_orden created' r Hr) as Hc.
  rewrite (dias_entre_cell _ _ r _ _ (groupby_shift_next_nth _ _ r _ _ Hk Hc) Hc).
  pose proof (text_lk_s r) as Ht.
  destruct (nth r lk_s VNull) as [|e| | |] eqn:Ek; try discriminate; cbn [isna].
  { exists 0%Z. split; [reflexivity | lia]. }
  remember (skipn (S r) lk_s) as ks eqn:Eks.
  remember (skipn (S r) created_s) as cs eqn:Ecs.
  destruct (next_in_group_cases (VStr e) ks cs) as [->|(p & k' & Hp & Hs & Hv)].
  { exists 0%Z. split; [reflexivity | lia]. }
  apply value_same_text in Hs. subst k'.
  rewrite Eks in Hp. rewrite Ecs in Hv at 1.
  rewrite nth_error_skipn in Hp, Hv.
  change (S r + p) with (S (r + p)) in Hp, Hv.
  assert (Hr' : S (r + p) < n).
  { rewrite <- length_orden, <- (length_take lk). apply nth_error_Some. congruence. }
  rewrite (nth_error_take_orden lk _ Hr') in Hp.
  rewrite (nth_error_take_orden created' _ Hr') in Hv.
  injection Hp as Hp. injection Hv as Hv. rewrite <- Hv.
  pose proof (salida_ordenada r (S (r + p)) ltac:(lia) Hr') as Hs.
  rewrite Ek, Hp in Hs. apply lex_leb_pair in Hs as [_ Hs].
  assert (Hle : value_leb (VStr e) (VStr e) = true).
  { destruct (value_leb_total_text (VStr e) (VStr e) eq_refl eq_refl); assumption. }
  specialize (Hs Hle). unfold dias_enteros.
  destruct (nth (S (r + p)) created_s VNull) as [| | | |x];
    try (exists 0%Z; split; [reflexivity | lia]).
  destruct (nth r created_s VNull) as [| | | |y];
    try (exists 0%Z; split; [reflexivity | lia]).
  eexists. split; [reflexivity|].
  unfold value_leb in Hs. cbn [isna] in Hs. apply Z.leb_le in Hs.
  apply Z.div_pos; [lia | reflexivity].
Qed.

Lemma salida_wf : well_formed salida.
Proof.
  assert (L1 : length d1 = n).
  { rewrite length_dias_entre; now rewrite !length_take, ?length_orden. }
  assert (L2 : length d2 = n).
  { rewrite length_dias_entre.
    - now rewrite length_take, length_orden.
    - rewrite length_groupby_shift_next; now rewrite !length_take. }
  assert (Hn : nrows (take_rows h2 orden) = n).
  { unfold nrows at 1. cbn [index take_rows].
    now rewrite length_map, length_orden. }
  apply well_formed_setitem; [apply well_formed_setitem|].
  - unfold well_formed. rewrite Hn. cbn [columns take_rows].
    apply Forall_forall. intros cs Hcs. apply in_map_iff in Hcs as (cs' & <- & _).
    cbn [snd]. now rewrite length_take, length_orden.
  - transitivity (nrows historial_etapas); [exact L1 | symmetry; exact Hn].
  - transitivity (nrows historial_etapas); [exact L2 | symmetry; exact Hn].
Qed.

(** Sorting the result again moves no row. *)
Lemma orden_salida : sort_order [lk_s; created_s] n = seq 0 n.
Proof.
  unfold sort_order. apply isort_sorted, StronglySorted_seq.
  intros i j _ Hij Hj. apply salida_ordenada; lia.
Qed.

Lemma text_salida : Forall (fun v => is_text v = true) lk_s.
Proof.
  apply Forall_forall. intros v Hv. apply in_map_iff in Hv as (i & <- & _).
  now apply (nth_Forall_default (fun v => is_text v = true)).
Qed.

(** What the second call needs to know about the result of the first. *)
Lemma salida_resumen :
  calcular_tiempos_etapas historial_etapas = Ok (mkTiempos h2 salida) /\
  well_formed salida /\ nrows salida = n /\
  getitem salida "LK_Oportunidad__c" = Ok lk_s /\
  getitem salida "CreatedDate" = Ok created_s /\
  getitem salida "Fecha_fin_etapa__c" = Ok fin_s /\
  getitem salida "tiempo_etapa_dias" = Ok d1 /\
  getitem salida "tiempo_entre_etapas_dias" = Ok d2 /\
  sort_order [lk_s; created_s] n = seq 0 n /\
  Forall (fun v => is_text v = true) lk_s /\
  Forall (fun v => is_datetime v = true) created_s /\
  Forall (fun v => is_datetime v = true) fin_s /\
  length lk_s = n /\ length created_s = n /\ length fin_s = n /\
  (forall r, r < n -> exists d, nth_error d1 r = Some (VInt d)) /\
  (forall r, r < n -> exists g, nth_error d2 r = Some (VInt g) /\ (0 <= g)%Z).
Proof.
  split; [exact calcular_run|]. split; [exact salida_wf|].
  split; [exact nrows_salida|].
  split; [apply salida_columna; [discriminate.. | exact h2_lk]|].
  split; [apply salida_columna; [discriminate.. | exact h2_created]|].
  split; [apply salida_columna; [discriminate.. | exact h2_fin]|].
  split; [exact salida_d1|]. split; [exact salida_d2|].
  split; [exact orden_salida|]. split; [exact text_salida|].
  split; [exact datetime_created_s|]. split; [exact datetime_fin_s|].
  rewrite !length_take, length_orden.
  repeat split; try reflexivity.
  - exact duracion_entera.
  - exact espera_no_negativa.
Qed.

End CalcularRun.

(** X4: on a history with text keys and dates that convert to timestamps
    whose differences fit a timedelta, the calculator returns as many rows
    as it received, both derived columns hold an integer on every row, and
    no [tiempo_entre_etapas_dias] is negative. *)
Theorem tiempos_enteros_y_espera_no_negativa `{PyLib}
    (historial_etapas : DataFrame) (lk created fin created' fin' : Series)
    (H_LK : getitem historial_etapas "LK_Oportunidad__c" = Ok lk)
    (H_created : getitem historial_etapas "CreatedDate" = Ok created)
    (H_fin : getitem historial_etapas "Fecha_fin_etapa__c" = Ok fin)
    (H_created' : to_datetime created = Ok created')
    (H_fin' : to_datetime fin = Ok fin')
    (H_text : Forall (fun v => is_text v = true) lk)
    (H_rango : Forall (fun v => en_rango v = true) (created' ++ fin')) :
  exists t,
    calcular_tiempos_etapas historial_etapas = Ok t /\
    nrows (historial_con_tiempos t) = nrows historial_etapas /\
    forall r, r < nrows historial_etapas ->
      exists d g,
        cell (historial_con_tiempos t) "tiempo_etapa_dias" r = Some (VInt d) /\
        cell (historial_con_tiempos t) "tiempo_entre_etapas_dias" r
        = Some (VInt g) /\
        (0 <= g)%Z.
Proof.
  destruct (salida_resumen historial_etapas lk created fin created' fin'
              H_LK H_created H_fin H_created' H_fin' H_text)
    as (Hrun & _ & Hn & _ & _ & _ & G1 & G2 & _ & _ & _ & _ & _ & _ & _ & D1 & D2).
  eexists. split; [exact Hrun|]. cbn [historial_con_tiempos].
  split; [exact Hn|]. intros r Hr.
  destruct (D1 r Hr) as (d & Hd). destruct (D2 r Hr) as (g & Hg & Hpos).
  exists d, g.
  rewrite (getitem_Ok_cell _ _ _ r G1), (getitem_Ok_cell _ _ _ r G2). auto.
Qed.

(** X5: running the calculator on the table it returned changes nothing:
    the second call returns that table and leaves it as it was. *)
Theorem calcular_tiempos_etapas_idempotente `{PyLib}
    (historial_etapas : DataFrame) (lk created fin created' fin' : Series)
    (t : Tiempos)
    (H_LK : getitem historial_etapas "LK_Oportunidad__c" = Ok lk)
    (H_created : getitem historial_etapas "CreatedDate" = Ok created)
    (H_fin : getitem historial_etapas "Fecha_fin_etapa__c" = Ok fin)
    (H_created' : to_datetime created = Ok created')
    (H_fin' : to_datetime fin = Ok fin')
    (H_text : Forall (fun v => is_text v = true) lk)
    (H_run : calcular_tiempos_etapas historial_etapas = Ok t) :
  calcular_tiempos_etapas (historial_con_tiempos t) =
  Ok (mkTiempos (historial_con_tiempos t) (historial_con_tiempos t)).
Proof.
  destruct (salida_resumen historial_etapas lk created fin created' fin'
              H_LK H_created H_fin H_created' H_fin' H_text)
    as (Hrun & Hwf & Hn & Glk & Gc & Gf & G1 & G2 & Hord & Ht & Hdc & Hdf
        & L1 & L2 & L3 & _).
  rewrite Hrun in H_run. injection H_run as <-. cbn [historial_con_tiempos].
  match type of Hwf with well_formed ?o => set (out := o) in * end.
  rewrite (calcular_run out _ _ _ _ _ Glk Gc Gf
             (to_datetime_idempotent _ Hdc) (to_datetime_idempotent _ Hdf) Ht).
  rewrite (setitem_id out _ _ Gc), (setitem_id out _ _ Gf).
  rewrite Hn, Hord.
  pose proof (take_rows_all out Hwf) as TR. rewrite Hn in TR. rewrite TR.
  rewrite !take_all by assumption.
  now rewrite (setitem_id out _ _ G1), (setitem_id out _ _ G2).
Qed.

(** ** The milestone cleaning and its caller *)

(** X6: a call of [limpiar_historial_por_hitos] that returns has replaced
    the [CreatedDate] column of the caller's history table by its datetime
    conversion and changed nothing else of that table; a history whose
    dates are datetimes already is left as it was. *)
Theorem limpiar_efecto_sobre_el_llamador `{PyLib}
    (df_historial df_principal : DataFrame) (t : Hitos)
    (H_run : limpiar_historial_por_hitos df_historial df_principal = Ok t) :
  index (df_historial_del_llamador t) = index df_historial /\
  (forall c, c <> "CreatedDate" ->
             getitem (df_historial_del_llamador t) c = getitem df_historial c) /\
  exists created created',
    getitem df_historial "CreatedDate" = Ok created /\
    to_datetime created = Ok created' /\
    getitem (df_historial_del_llamador t) "CreatedDate" = Ok created' /\
    (Forall (fun v => is_datetime v = true) created ->
     df_historial_del_llamador t = df_historial).
Proof.
  destruct (limpiar_efecto _ _ _ H_run) as (created & created' & Hc & Hc' & ->).
  split; [reflexivity|]. split.
  - intros c Hne. now apply getitem_setitem_other.
  - exists created, created'. repeat split; try assumption.
    + apply getitem_setitem_same.
    + intros Hd. rewrite (to_datetime_idempotent _ Hd) in Hc'.
      injection Hc' as <-. now apply setitem_id.
Qed.

(** ** The aggregator *)

Lemma length_filter_le {A : Type} (p q : A -> bool) (l : list A) :
  (forall x, In x l -> p x = true -> q x = true) ->
  length (filter p l) <= length (filter q l).
Proof.
  induction l as [|x l IH]; intros Hpq; [reflexivity|]. cbn [filter].
  assert (IH' : length (filter p l) <= length (filter q l))
    by (apply IH; intros y Hy; apply Hpq; now right).
  destruct (p x) eqn:Ep.
  - rewrite (Hpq x (or_introl eq_refl) Ep). cbn [length]. lia.
  - destruct (q x); cbn [length]; lia.
Qed.

Lemma length_filter_disjoint {A : Type} (a p q : A -> bool) (l : list A) :
  (forall x, p x && q x = false) ->
  length (filter (fun x => a x && p x) l) + length (filter (fun x => a x && q x) l)
  <= length (filter a l).
Proof.
  intros Hpq. induction l as [|x l IH]; [reflexivity|]. cbn [filter].
  specialize (Hpq x).
  destruct (a x), (p x), (q x); cbn [andb length] in *; try discriminate; lia.
Qed.

Lemma estados_excluyentes `{PyLib} (v : value) :
  estado_es ["asiste"] v && estado_es ["solicitado"; "solicita asistir"] v = false.
Proof.
  destruct v as [|t| | |]; try reflexivity. cbn [estado_es mem existsb].
  destruct (String.eqb_spec (str_lower t) "asiste") as [->|]; reflexivity.
Qed.

(** A later row of the same entity and cohort sees every activity that an
    earlier row sees. *)
Lemma actividad_previa_mono `{PyLib} (df_master df_actividades : DataFrame)
    (i i' j : nat) (ti ti' : Z) :
  celda df_master "ID18__PC" i = celda df_master "ID18__PC" i' ->
  celda df_master "PL_CURSO_ACADEMICO" i = celda df_master "PL_CURSO_ACADEMICO" i' ->
  fecha_de (celda df_master "CreatedDate" i) = VTime ti ->
  fecha_de (celda df_master "CreatedDate" i') = VTime ti' ->
  (ti <= ti')%Z ->
  actividad_previa df_master df_actividades i j = true ->
  actividad_previa df_master df_actividades i' j = true.
Proof.
  intros Hid Hcu Hti Hti' Hle. unfold actividad_previa.
  rewrite Hid, Hcu, Hti, Hti', !andb_true_iff.
  intros [Hrest Hlt]. split; [exact Hrest|].
  destruct (fecha_de (celda df_actividades "CreatedDate" j)); try discriminate.
  cbn [datetime_lt] in *. apply Z.ltb_lt in Hlt. apply Z.ltb_lt. lia.
Qed.

Lemma cuenta_previa_mono `{PyLib} (df_master df_actividades : DataFrame)
    (estados : list string) (i i' : nat) (ti ti' : Z) :
  celda df_master "ID18__PC" i = celda df_master "ID18__PC" i' ->
  celda df_master "PL_CURSO_ACADEMICO" i = celda df_master "PL_CURSO_ACADEMICO" i' ->
  fecha_de (celda df_master "CreatedDate" i) = VTime ti ->
  fecha_de (celda df_master "CreatedDate" i') = VTime ti' ->
  (ti <= ti')%Z ->
  cuenta_previa df_master df_actividades estados i
  <= cuenta_previa df_master df_actividades estados i'.
Proof.
  intros Hid Hcu Hti Hti' Hle. unfold cuenta_previa.
  apply length_filter_le. intros j _ Hj.
  apply andb_true_iff in Hj as [Hj He]. rewrite He, andb_true_r.
  exact (actividad_previa_mono _ _ i i' j ti ti' Hid Hcu Hti Hti' Hle Hj).
Qed.

(** X7: the counters are progressive: of two master rows of the same entity
    and cohort, the one observed later has counters at least as large. *)
Theorem contadores_progresivos `{PyLib} (df_master df_actividades : DataFrame)
    (H_valida : entrada_valida df_master df_actividades) :
  exists r,
    integrar_actividades_progresivo_por_curso df_master df_actividades = Ok r /\
    forall i i' ti ti',
      i < nrows df_master -> i' < nrows df_master ->
      celda df_master "ID18__PC" i = celda df_master "ID18__PC" i' ->
      celda df_master "PL_CURSO_ACADEMICO" i
      = celda df_master "PL_CURSO_ACADEMICO" i' ->
      fecha_de (celda df_master "CreatedDate" i) = VTime ti ->
      fecha_de (celda df_master "CreatedDate" i') = VTime ti' ->
      (ti <= ti')%Z ->
      forall c, In c ["num_asistencias_acum"; "num_solicitudes_acum"] ->
        exists x x',
          cell (resultado r) c i = Some (VInt x) /\
          cell (resultado r) c i' = Some (VInt x') /\
          (x <= x')%Z.
Proof.
  destruct (entrada_valida_cuenta _ _ H_valida) as (r & Hrun & _ & _ & _ & Hc).
  exists r. split; [exact Hrun|].
  intros i i' ti ti' Hi Hi' Hid Hcu Hti Hti' Hle c Hin.
  destruct (Hc i Hi) as [HA HS]. destruct (Hc i' Hi') as [HA' HS'].
  destruct Hin as [<-|[<-|[]]]; do 2 eexists;
    (split; [eassumption|]; split; [eassumption|]);
    apply inj_le; eapply cuenta_previa_mono; eassumption.
Qed.

(** X8: an activity enters at most one of the two counters: on every row
    their sum is at most the number of earlier valid activities of the
    row's entity and cohort. *)
Theorem contadores_excluyentes `{PyLib} (df_master df_actividades : DataFrame)
    (H_valida : entrada_valida df_master df_actividades) :
  exists r,
    integrar_actividades_progresivo_por_curso df_master df_actividades = Ok r /\
    forall i, i < nrows df_master ->
      exists x y,
        cell (resultado r) "num_asistencias_acum" i = Some (VInt x) /\
        cell (resultado r) "num_solicitudes_acum" i = Some (VInt y) /\
        (0 <= x)%Z /\ (0 <= y)%Z /\
        (x + y <=
         Z.of_nat (length (filter (actividad_previa df_master df_actividades i)
                             (seq 0 (nrows df_actividades)))))%Z.
Proof.
  destruct (entrada_valida_cuenta _ _ H_valida) as (r & Hrun & _ & _ & _ & Hc).
  exists r. split; [exact Hrun|]. intros i Hi. destruct (Hc i Hi) as [HA HS].
  do 2 eexists. split; [exact HA|]. split; [exact HS|].
  split; [lia|]. split; [lia|].
  rewrite <- Nat2Z.inj_add. apply inj_le. unfold cuenta_previa.
  apply (length_filter_disjoint
           (actividad_previa df_master df_actividades i)
           (fun j => estado_es ["asiste"]
                       (celda df_actividades "Estado_del_miembro__c" j))
           (fun j => estado_es ["solicitado"; "solicita asistir"]
                       (celda df_actividades "Estado_del_miembro__c" j))).
  intros j. apply estados_excluyentes.
Qed.

Lemma has_col_drop_columns (df out : DataFrame) (cs : list string) (c : string) :
  drop_columns df cs = Ok out -> In c cs -> has_col out c = false.
Proof.
  unfold drop_columns.
  destruct (filter (fun c => negb (has_col df c)) cs); [|discriminate].
  intros [= <-] Hc. unfold has_col, colnames. cbn [columns].
  apply mem_false. intros Hin. apply in_map_iff in Hin as (p & <- & Hp).
  apply filter_In in Hp as [_ Hp]. apply negb_true_iff, mem_false in Hp.
  contradiction.
Qed.

(** The result of the aggregator never has its two helper columns. *)
Lemma integrar_sin_auxiliares `{PyLib} (df_master df_actividades : DataFrame)
    (r : Integracion) :
  integrar_actividades_progresivo_por_curso df_master df_actividades = Ok r ->
  has_col (resultado r) "fila_id_unico" = false /\
  has_col (resultado r) "MasterDate" = false.
Proof.
  intros Hr. unfold integrar_actividades_progresivo_por_curso in Hr.
  invert_binds Hr. injection Hr as <-. cbn [resultado].
  match goal with
  | E : drop_columns _ _ = Ok _ |- _ =>
      split; apply (has_col_drop_columns _ _ _ _ E); simpl; tauto
  end.
Qed.

(** X9: on admissible inputs the result has the rows of the master table in
    their order under fresh labels 0, 1, ..., every master column other than
    [MasterDate] with its cells unchanged, and neither of the helper columns
    [fila_id_unico] and [MasterDate]. *)
Theorem integrar_conserva_el_maestro `{PyLib}
    (df_master df_actividades : DataFrame)
    (H_admisible : entrada_admisible df_master df_actividades) :
  exists r,
    integrar_actividades_progresivo_por_curso df_master df_actividades = Ok r /\
    index (resultado r) = range_index (nrows df_master) /\
    (forall c i,
        has_col df_master c = true -> c <> "MasterDate" -> i < nrows df_master ->
        cell (resultado r) c i = Some (celda df_master c i)) /\
    has_col (resultado r) "fila_id_unico" = false /\
    has_col (resultado r) "MasterDate" = false.
Proof.
  destruct H_admisible as (HM & HA & _ & HR & _ & (md & Hmd) & (ad & Had)).
  cbn [forallb columnas_master columnas_actividades columnas_reservadas] in *.
  repeat (apply andb_true_iff in HM as [?HM HM]).
  repeat (apply andb_true_iff in HA as [?HA HA]).
  repeat (apply andb_true_iff in HR as [?HR HR]).
  repeat match goal with
         | E : negb _ = true |- _ => apply negb_true_iff in E
         end.
  assert (Hres : forall c, has_col df_master c = true ->
            c <> "fila_id_unico" /\ c <> "num_asistencias_acum"
            /\ c <> "num_solicitudes_acum").
  { intros c Hc. repeat split; intros ->; congruence. }
  repeat match goal with
         | E : has_col _ _ = true |- _ => apply has_col_column in E
         end.
  edestruct (integrar_contadores df_master df_actividades)
    as (R & Hrun & Hidx & _ & _ & Hcols); try eassumption.
  eexists. split; [exact Hrun|]. cbn [resultado].
  split; [exact Hidx|]. split.
  - intros c i Hc Hne Hi. destruct (Hres c Hc) as (N1 & N2 & N3).
    apply has_col_column in Hc.
    rewrite (getitem_Ok_cell _ _ _ i (Hcols c _ N1 Hne N2 N3 Hc)).
    rewrite nth_error_take.
    rewrite (nth_error_nth' (seq 0 (nrows df_master)) 0) by now rewrite length_seq.
    cbn [option_map]. now rewrite seq_nth.
  - exact (integrar_sin_auxiliares _ _ _ Hrun).
Qed.

Lemma mem_filter (p : string -> bool) (c : string) (l : list string) :
  mem c (filter p l) = (mem c l && p c)%bool.
Proof.
  apply eq_true_iff_eq. rewrite andb_true_iff, !mem_In, filter_In. tauto.
Qed.

Lemma mem_map_false (f : string -> string) (c : string) (l : list string) :
  (forall x, In x l -> f x <> c) -> mem c (map f l) = false.
Proof.
  intros Hf. apply mem_false. intros Hin.
  apply in_map_iff in Hin as (x & Hx & Hl). exact (Hf x Hl Hx).
Qed.

(** The column names of a join on one key column per side. *)
Lemma merge_colnames (left right : DataFrame) (lc rc : string)
    (lkc rkc : Series) (h : how) :
  getitem left lc = Ok lkc -> getitem right rc = Ok rkc ->
  exists D,
    merge left right [lc] [rc] h = Ok D /\
    colnames D =
    map (suffixed
           (filter (fun c =>
                      mem c (map fst
                        (filter (fun cs : string * Series =>
                                   negb (mem (fst cs)
                                           (if String.eqb lc rc then [lc] else [])))
                           (columns right))))
              (colnames left)) "_x")
        (colnames left)
    ++
    map (suffixed
           (filter (fun c =>
                      mem c (map fst
                        (filter (fun cs : string * Series =>
                                   negb (mem (fst cs)
                                           (if String.eqb lc rc then [lc] else [])))
                           (columns right))))
              (colnames left)) "_y")
        (map fst
           (filter (fun cs : string * Series =>
                      negb (mem (fst cs) (if String.eqb lc rc then [lc] else [])))
              (columns right))).
Proof.
  intros Hl Hr. unfold merge. cbn [combine mapM fst snd]. rewrite Hl, Hr.
  cbn [bind map fst snd filter]. eexists. split; [reflexivity|].
  replace (map fst (if String.eqb lc rc then [(lc, rc)] else []))
    with (if String.eqb lc rc then [lc] else @nil string)
    by now destruct (String.eqb lc rc).
  unfold colnames. cbn [columns]. rewrite map_app, !map_map. reflexivity.
Qed.

Section IntegrarRepetido.

Context `{PyLib}.
Variables (df_master df_actividades : DataFrame).
Variables (tipo a_created estado contact course : Series).
Variables (m_created id18 curso a_dates m_dates : Series).
Hypothesis HA_tipo : getitem df_actividades col_tipo_act = Ok tipo.
Hypothesis HA_created : getitem df_actividades "CreatedDate" = Ok a_created.
Hypothesis HA_estado : getitem df_actividades "Estado_del_miembro__c" = Ok estado.
Hypothesis HA_contact : getitem df_actividades "ContactId" = Ok contact.
Hypothesis HA_course :
  getitem df_actividades "Campaign.AcademicCourse__c" = Ok course.
Hypothesis HM_created : getitem df_master "CreatedDate" = Ok m_created.
Hypothesis HM_id18 : getitem df_master "ID18__PC" = Ok id18.
Hypothesis HM_curso : getitem df_master "PL_CURSO_ACADEMICO" = Ok curso.
Hypothesis H_adates :
  to_datetime (mask_filter (mascara_tipo tipo) a_created) = Ok a_dates.
Hypothesis H_mdates : to_datetime m_created = Ok m_dates.
Hypothesis HM_index : has_col df_master "index" = false.
Hypothesis HM_asist : has_col df_master "num_asistencias_acum" = true.
Hypothesis HM_solic : has_col df_master "num_solicitudes_acum" = true.

Local Abbreviation mask := (mascara_tipo tipo).
Local Abbreviation n := (nrows df_master).
Local Abbreviation status := (series_str_lower (mask_filter mask estado)).
Local Abbreviation master1 := (setitem df_master "MasterDate" m_dates).
Local Abbreviation master3 :=
  (mkDF (range_index n)
     (("fila_id_unico", map VInt (index df_master)) :: columns master1)).
Local Abbreviation izquierda :=
  (mkDF (range_index n)
     [("fila_id_unico", map VInt (index df_master)); ("ID18__PC", id18);
      ("MasterDate", m_dates); ("PL_CURSO_ACADEMICO", curso)]).
Local Abbreviation derecha :=
  (mkDF (mask_filter mask (index df_actividades))
     [("ContactId", mask_filter mask contact); ("ActivityDate", a_dates);
      ("status_lower", status);
      ("Campaign.AcademicCourse__c", mask_filter mask course)]).
Local Abbreviation contadores_dos :=
  ["num_asistencias_acum"; "num_solicitudes_acum"].

(** The names a left join on [fila_id_unico] gives to the columns of a
    master table that has both counters already. *)
Local Abbreviation solapadas :=
  (filter (fun c => mem c contadores_dos) (colnames master3)).

Lemma master3_contador (c : string) :
  In c contadores_dos -> has_col master3 c = true.
Proof.
  intros Hc. unfold has_col, colnames. cbn [columns map fst mem existsb].
  change (existsb (String.eqb c) (map fst (columns master1)))
    with (has_col master1 c).
  rewrite has_col_setitem.
  destruct Hc as [<- | [<- | []]]; cbn [String.eqb Ascii.eqb Bool.eqb orb];
    [now rewrite HM_asist | now rewrite HM_solic].
Qed.

Lemma solapadas_contador (c : string) :
  In c contadores_dos -> mem c solapadas = true.
Proof.
  intros Hc. rewrite mem_filter. fold (has_col master3 c).
  rewrite (master3_contador c Hc). now apply mem_In.
Qed.

(** After the join neither counter name is a column name. *)
Lemma unidas_sin_contador (c : string) :
  In c contadores_dos ->
  mem c (map (suffixed solapadas "_x") (colnames master3)
         ++ map (suffixed solapadas "_y") contadores_dos) = false.
Proof.
  intros Hc. rewrite mem_app. apply orb_false_iff. split.
  - apply mem_map_false. intros x Hx E. unfold suffixed in E.
    destruct (mem x solapadas) eqn:Ex.
    + rewrite mem_filter in Ex. apply andb_true_iff in Ex as [_ Ex].
      apply mem_In in Ex.
      destruct Ex as [<- | [<- | []]]; destruct Hc as [<- | [<- | []]];
        discriminate E.
    + subst x. rewrite (solapadas_contador c Hc) in Ex. discriminate.
  - cbn [map]. unfold suffixed.
    rewrite !solapadas_contador by (simpl; tauto).
    destruct Hc as [<- | [<- | []]]; reflexivity.
Qed.

Lemma integrar_repetido :
  integrar_actividades_progresivo_por_curso df_master df_actividades =
  Raise (KeyError contadores_dos).
Proof.
  unfold integrar_actividades_progresivo_por_curso.
  rewrite HA_tipo. cbn [bind]. fold (mascara_tipo tipo).
  rewrite getitem_filter_rows, HA_created. cbn [bind].
  rewrite H_adates. cbn [bind].
  rewrite HM_created. cbn [bind]. rewrite H_mdates. cbn [bind].
  rewrite getitem_setitem_other by discriminate.
  rewrite getitem_filter_rows, HA_estado. cbn [bind].
  pose proof (master3_eq df_master m_dates HM_index) as E3.
  destruct (reset_index master1) as [d|] eqn:Er; [|discriminate].
  cbn [bind] in E3 |- *.
  assert (E3' : rename_column d "index" "fila_id_unico" = master3)
    by congruence.
  rewrite E3'. clear E3 E3' Er d.
  rewrite (izquierda_eq df_master id18 curso m_dates HM_id18 HM_curso).
  cbn [bind].
  rewrite (derecha_eq df_actividades tipo estado contact course a_dates
             HA_contact HA_course).
  cbn [bind].
  match goal with
  | |- context [bind (merge izquierda derecha ?l ?r Inner) _] =>
      let J := eval cbv beta iota zeta delta [merge bind mapM combine fst snd map
                 getitem assoc columns filter String.eqb Ascii.eqb Bool.eqb
                 mem existsb negb andb orb colnames suffixed app]
               in (merge izquierda derecha l r Inner) in
      change (merge izquierda derecha l r Inner) with J
  end.
  cbn [bind].
  match goal with
  | |- context [bind (getitem ?J "ActivityDate") _] =>
      let a := eval cbv beta iota zeta delta [getitem assoc columns String.eqb
                 Ascii.eqb Bool.eqb] in (getitem J "ActivityDate") in
      change (getitem J "ActivityDate") with a; cbn [bind]
  end.
  match goal with
  | |- context [bind (getitem ?J "MasterDate") _] =>
      let a := eval cbv beta iota zeta delta [getitem assoc columns String.eqb
                 Ascii.eqb Bool.eqb] in (getitem J "MasterDate") in
      change (getitem J "MasterDate") with a; cbn [bind]
  end.
  repeat match goal with
  | |- context [bind (getitem ?J "status_lower") _] =>
      let a := eval cbv beta iota zeta delta [getitem assoc columns String.eqb
                 Ascii.eqb Bool.eqb filter_rows setitem assoc_set map fst snd]
               in (getitem J "status_lower") in
      change (getitem J "status_lower") with a; cbn [bind]
  end.
  match goal with
  | |- context [bind (groupby_sum ?J ?gk ?ga) _] =>
      let a := eval cbv beta iota zeta delta [groupby_sum bind mapM getitem assoc
                 columns String.eqb Ascii.eqb Bool.eqb filter_rows setitem
                 assoc_set map fst snd]
               in (groupby_sum J gk ga) in
      change (groupby_sum J gk ga) with a; cbn [bind]
  end.
  match goal with
  | |- context [bind (merge master3 ?res ?l ?r Left) _] =>
      destruct (merge_colnames master3 res "fila_id_unico" "fila_id_unico"
                  (map VInt (index df_master)) _ Left eq_refl eq_refl)
        as (D & Em & Hn)
  end.
  rewrite Em. cbn [bind].
  cbn [columns filter fst snd map mem existsb String.eqb Ascii.eqb Bool.eqb
       negb orb andb] in Hn.
  unfold getitems.
  assert (Hf : filter (fun c => negb (has_col D c)) contadores_dos
               = contadores_dos).
  { apply filter_all. intros c Hc. apply negb_true_iff. unfold has_col.
    rewrite Hn. now apply unidas_sin_contador. }
  rewrite Hf. reflexivity.
Qed.

End IntegrarRepetido.

(** X10: on inputs that are otherwise well typed and complete, the
    aggregator cannot run on a master table that already has its two counter
    columns, as its own result has: the left join with the summary renames
    them with suffixes, and the call fails with a [KeyError] that names both
    counters. *)
Theorem integrar_rechaza_sus_contadores `{PyLib}
    (df_master df_actividades : DataFrame)
    (H_repetida : entrada_repetida df_master df_actividades) :
  integrar_actividades_progresivo_por_curso df_master df_actividades =
  Raise (KeyError ["num_asistencias_acum"; "num_solicitudes_acum"]).
Proof.
  destruct H_repetida
    as (HM & HA & Hidx & _ & Hasi & Hsol & _ & _ & _ & (md & Hmd) & (ad & Had)).
  cbn [forallb columnas_master columnas_actividades] in *.
  repeat (apply andb_true_iff in HM as [?HM HM]).
  repeat (apply andb_true_iff in HA as [?HA HA]).
  repeat match goal with
         | E : has_col _ ?c = true |- _ =>
             lazymatch c with
             | "num_asistencias_acum" => fail
             | "num_solicitudes_acum" => fail
             | _ => apply has_col_column in E
             end
         end.
  eapply (integrar_repetido df_master df_actividades); eassumption.
Qed.

(** ** The leakage guard *)

Lemma existsb_map_comp {A B : Type} (f : B -> bool) (g : A -> B) (l : list A) :
  existsb f (map g l) = existsb (fun x => f (g x)) l.
Proof. induction l as [|x l IH]; [reflexivity|]. cbn [map existsb]. now rewrite IH. Qed.

Section ControlLeakage.

Variables (df_definitivo : DataFrame) (etapa : Series).
Hypothesis H_etapa : getitem df_definitivo "PL_Etapa__c" = Ok etapa.

Local Abbreviation vars := (filter (has_col df_definitivo) vars_pago_config).
Local Abbreviation pagos :=
  (mkDF (index df_definitivo)
     (map (fun c => (c, column_or_empty df_definitivo c)) vars)).
Local Abbreviation mask_futuro :=
  (mask_and (isin etapa (map VStr etapas_pago)) (any_notna pagos)).
Local Abbreviation guardado :=
  (mkDF (index df_definitivo)
     (map (fun p : string * Series =>
             if mem (fst p) vars
             then (fst p, mask_assign mask_futuro VNull (snd p)) else p)
          (columns df_definitivo))).

Lemma vars_present (c : string) : In c vars -> has_col df_definitivo c = true.
Proof. intros Hc. apply filter_In in Hc. tauto. Qed.

Lemma control_leakage_run : control_leakage df_definitivo = Ok guardado.
Proof.
  unfold control_leakage. rewrite H_etapa. cbn [bind].
  rewrite getitems_present by exact vars_present. cbn [bind].
  now rewrite loc_set_present by exact vars_present.
Qed.

Lemma guardado_assoc (c : string) :
  assoc c (columns guardado) =
  option_map (fun s => if mem c vars then mask_assign mask_futuro VNull s else s)
             (assoc c (columns df_definitivo)).
Proof. cbn [columns]. apply assoc_loc_map. Qed.

Lemma guardado_cell (c : string) (i : nat) :
  cell guardado c i =
  option_map (fun x => if mem c vars && nth i mask_futuro false then VNull else x)
             (cell df_definitivo c i).
Proof.
  unfold cell. rewrite guardado_assoc.
  destruct (assoc c (columns df_definitivo)) as [s|]; [|reflexivity].
  cbn [option_map]. destruct (mem c vars); [|now destruct (nth_error s i)].
  rewrite nth_error_mask_assign. reflexivity.
Qed.

Lemma mask_futuro_nth (i : nat) :
  nth i mask_futuro false =
  (nth i (isin etapa (map VStr etapas_pago)) false
   && (Nat.ltb i (nrows df_definitivo)
       && existsb (fun c => notna (nth i (column_or_empty df_definitivo c) VNull))
            vars))%bool.
Proof.
  unfold mask_and. rewrite nth_map2_andb, nth_any_notna. cbn [columns].
  rewrite existsb_map_comp. reflexivity.
Qed.

Lemma isin_nth (s values : Series) (i : nat) (v : value) :
  nth_error s i = Some v -> nth i (isin s values) false = set_contains values v.
Proof. intros Hv. unfold isin. now apply nth_map_at. Qed.

End ControlLeakage.

(** X11: after the leakage guard no early-stage row carries payment
    information: on every row whose stage is 'Solicitud', 'Pruebas' or
    'Admisión académica', every configured payment column that the table
    has holds a missing value. *)
Theorem control_leakage_sin_pagos_tempranos
    (df_definitivo : DataFrame) (etapa : Series)
    (H_etapa : getitem df_definitivo "PL_Etapa__c" = Ok etapa)
    (H_wf : well_formed df_definitivo) :
  exists out,
    control_leakage df_definitivo = Ok out /\
    forall i e c,
      nth_error etapa i = Some (VStr e) -> In e etapas_pago ->
      In c vars_pago_config -> has_col df_definitivo c = true ->
      exists v, cell out c i = Some v /\ isna v = true.
Proof.
  eexists. split; [exact (control_leakage_run _ _ H_etapa)|].
  intros i e c He Hin Hc Hhas.
  assert (Hi : i < nrows df_definitivo).
  { rewrite <- (well_formed_length _ _ _ H_wf H_etapa).
    apply nth_error_Some. congruence. }
  assert (Hv : In c (filter (has_col df_definitivo) vars_pago_config))
    by (apply filter_In; auto).
  pose proof (has_col_column _ _ Hhas) as Hs.
  pose proof (well_formed_length _ _ _ H_wf Hs) as Hl.
  rewrite guardado_cell, (getitem_Ok_cell _ _ _ i Hs).
  rewrite (nth_error_nth_lt _ i) by now rewrite Hl.
  cbn [option_map]. rewrite (proj2 (mem_In _ _) Hv). cbn [andb].
  destruct (nth i _ false) eqn:Em; [now exists VNull|].
  eexists. split; [reflexivity|].
  rewrite (mask_futuro_nth _ etapa) in Em.
  rewrite (isin_nth _ _ _ _ He) in Em.
  assert (Hs1 : set_contains (map VStr etapas_pago) (VStr e) = true).
  { apply set_contains_key; [reflexivity|]. now apply in_map. }
  rewrite Hs1, (proj2 (Nat.ltb_lt _ _) Hi) in Em. cbn [andb] in Em.
  destruct (isna (nth i (column_or_empty df_definitivo c) VNull)) eqn:En;
    [reflexivity|].
  assert (Hex : existsb
                  (fun c => notna (nth i (column_or_empty df_definitivo c) VNull))
                  (filter (has_col df_definitivo) vars_pago_config) = true).
  { apply existsb_exists. exists c. split; [exact Hv|]. unfold notna.
    now rewrite En. }
  congruence.
Qed.


(** ** The derived ratio *)

Lemma is_nan_Prim2SF (x : float) :
  PrimFloat.is_nan x = true <-> Prim2SF x = S754_nan.
Proof.
  unfold PrimFloat.is_nan. rewrite negb_true_iff, eqb_spec.
  destruct (Prim2SF x) as [s|s| |s m e]; cbn.
  - split; discriminate.
  - destruct s; split; discriminate.
  - split; reflexivity.
  - unfold SFeqb, SFcompare. rewrite Z.compare_refl, Pos.compare_cont_refl.
    destruct s; cbn; split; discriminate.
Qed.

Lemma is_nan_ratio (x y : float) :
  PrimFloat.is_nan x = true \/ PrimFloat.is_nan y = true ->
  PrimFloat.is_nan (x / y * 100)%float = true.
Proof.
  intros Hxy. apply is_nan_Prim2SF. rewrite mul_spec, div_spec.
  destruct Hxy as [Hx|Hy].
  - apply is_nan_Prim2SF in Hx. rewrite Hx. reflexivity.
  - apply is_nan_Prim2SF in Hy. rewrite Hy.
    now destruct (Prim2SF x).
Qed.

Lemma as_float_isna (v : value) (x : float) :
  as_float v = Ok x -> isna v = true -> PrimFloat.is_nan x = true.
Proof.
  destruct v; cbn; intros [= <-] Hv; try discriminate; [reflexivity | exact Hv].
Qed.

Lemma mask_assign_twice (m : list bool) (v : value) (s : Series) :
  mask_assign m v (mask_assign m v s) = mask_assign m v s.
Proof.
  revert m. induction s as [|x s IH]; intros [|b m]; cbn [mask_assign];
    try reflexivity.
  rewrite IH. now destruct b.
Qed.

Lemma loc_map_reset (m : list bool) (c : string) (s : Series)
    (l : list (string * Series)) :
  assoc c l = Some s ->
  map (fun p => if mem (fst p) [c] then (fst p, mask_assign m VNull (snd p)) else p)
      (assoc_set c s
         (map (fun p => if mem (fst p) [c]
                        then (fst p, mask_assign m VNull (snd p)) else p) l)) =
  map (fun p => if mem (fst p) [c] then (fst p, mask_assign m VNull (snd p)) else p) l.
Proof.
  induction l as [|[c' s'] l IH]; [discriminate|]. cbn [assoc map fst snd mem existsb].
  rewrite orb_false_r, (String.eqb_sym c' c).
  destruct (String.eqb c c') eqn:E.
  - intros [= ->]. cbn [assoc_set fst]. rewrite E.
    cbn [map fst snd mem existsb]. rewrite orb_false_r, (String.eqb_sym c' c), E.
    f_equal. rewrite map_map. apply map_ext. intros [c2 s2].
    cbn [fst snd mem existsb].
    destruct (String.eqb c2 c) eqn:E2; cbn [fst snd orb]; rewrite E2;
      [now rewrite mask_assign_twice | reflexivity].
  - intros Hs. cbn [assoc_set]. rewrite E.
    cbn [map fst snd mem existsb]. rewrite orb_false_r, (String.eqb_sym c' c), E.
    f_equal. now apply IH.
Qed.

Section Porcentaje.

Variables (df_definitivo : DataFrame) (aplicado ordinario : Series).
Hypothesis H_aplicado :
  getitem df_definitivo "CU_precioAplicado_def__c" = Ok aplicado.
Hypothesis H_ordinario :
  getitem df_definitivo "CU_precioOrdinario_def__c" = Ok ordinario.
Hypothesis H_num_a : Forall (fun v => is_numeric v = true) aplicado.
Hypothesis H_num_o : Forall (fun v => is_numeric v = true) ordinario.

(** The run of the ratio step on numeric price columns. *)
Lemma porcentaje_run :
  exists pct no_positivo,
    mapM2 porcentaje aplicado ordinario = Ok pct /\
    mapM le_zero ordinario = Ok no_positivo /\
    porcentaje_pagado_final df_definitivo =
    Ok (loc_set (setitem df_definitivo "PORCENTAJE_PAGADO_FINAL" pct)
          no_positivo ["PORCENTAJE_PAGADO_FINAL"] VNull).
Proof.
  destruct (mapM2_total porcentaje (fun v => is_numeric v = true)
              (fun v => is_numeric v = true) aplicado ordinario) as (pct & Hpct);
    [ | exact H_num_a | exact H_num_o | ].
  { intros a b Ha Hb. unfold porcentaje.
    destruct (as_float_numeric a Ha) as (x & ->).
    destruct (as_float_numeric b Hb) as (y & ->). cbn [bind]. eauto. }
  destruct (mapM_total le_zero ordinario) as (no_pos & Hno).
  { eapply Forall_impl; [|exact H_num_o]. intros b Hb. unfold le_zero.
    destruct (as_float_numeric b Hb) as (y & ->). cbn [bind]. eauto. }
  exists pct, no_pos. split; [exact Hpct|]. split; [exact Hno|].
  unfold porcentaje_pagado_final. rewrite H_aplicado, H_ordinario. cbn [bind].
  rewrite Hpct. cbn [bind].
  rewrite getitem_setitem_other, H_ordinario by discriminate. cbn [bind].
  now rewrite Hno.
Qed.

End Porcentaje.

(** X13: a missing price gives a missing ratio: with numeric price columns,
    [PORCENTAJE_PAGADO_FINAL] is missing on every row whose applied or
    ordinary price is missing. *)
Theorem porcentaje_ausente_sin_precio
    (df_definitivo : DataFrame) (aplicado ordinario : Series)
    (H_aplicado : getitem df_definitivo "CU_precioAplicado_def__c" = Ok aplicado)
    (H_ordinario : getitem df_definitivo "CU_precioOrdinario_def__c" = Ok ordinario)
    (H_num_a : Forall (fun v => is_numeric v = true) aplicado)
    (H_num_o : Forall (fun v => is_numeric v = true) ordinario) :
  exists out,
    porcentaje_pagado_final df_definitivo = Ok out /\
    forall i a b,
      nth_error aplicado i = Some a -> nth_error ordinario i = Some b ->
      isna a = true \/ isna b = true ->
      cell out "PORCENTAJE_PAGADO_FINAL" i = Some VNull.
Proof.
  destruct (porcentaje_run _ _ _ H_aplicado H_ordinario H_num_a H_num_o)
    as (pct & no_pos & Hpct & Hno & Hrun).
  eexists. split; [exact Hrun|]. intros i a b Ea Eb Hna.
  destruct (mapM2_Ok_nth _ _ _ _ Hpct i a b Ea Eb) as (z & Hz & Ez).
  unfold porcentaje in Hz.
  destruct (as_float a) as [x|] eqn:Ex; [|discriminate].
  destruct (as_float b) as [y|] eqn:Ey; [|discriminate].
  cbn [bind] in Hz. injection Hz as <-.
  assert (Hnan : PrimFloat.is_nan (x / y * 100)%float = true).
  { apply is_nan_ratio.
    destruct Hna as [Ha|Hb];
      [left; exact (as_float_isna _ _ Ex Ha) | right; exact (as_float_isna _ _ Ey Hb)]. }
  rewrite loc_set_present.
  2:{ intros c [<- | []]. rewrite has_col_setitem. reflexivity. }
  unfold cell; cbn [columns setitem]. rewrite assoc_loc_map, assoc_set_same.
  cbn [option_map mem existsb String.eqb Ascii.eqb Bool.eqb orb].
  rewrite nth_error_mask_assign, Ez. cbn [option_map].
  unfold of_float. rewrite Hnan. now destruct (nth i no_pos false).
Qed.

(** X14: computing the ratio again on the table the step returned gives
    that same table. *)
Theorem porcentaje_pagado_final_idempotente
    (df_definitivo out : DataFrame) (aplicado ordinario : Series)
    (H_aplicado : getitem df_definitivo "CU_precioAplicado_def__c" = Ok aplicado)
    (H_ordinario : getitem df_definitivo "CU_precioOrdinario_def__c" = Ok ordinario)
    (H_num_a : Forall (fun v => is_numeric v = true) aplicado)
    (H_num_o : Forall (fun v => is_numeric v = true) ordinario)
    (H_run : porcentaje_pagado_final df_definitivo = Ok out) :
  porcentaje_pagado_final out = Ok out.
Proof.
  destruct (porcentaje_run _ _ _ H_aplicado H_ordinario H_num_a H_num_o)
    as (pct & no_pos & Hpct & Hno & Hrun).
  rewrite Hrun in H_run. injection H_run as <-.
  set (D := setitem df_definitivo "PORCENTAJE_PAGADO_FINAL" pct).
  assert (HD : has_col D "PORCENTAJE_PAGADO_FINAL" = true).
  { unfold D. rewrite has_col_setitem. reflexivity. }
  assert (Ha : getitem (loc_set D no_pos ["PORCENTAJE_PAGADO_FINAL"] VNull)
                 "CU_precioAplicado_def__c" = Ok aplicado).
  { rewrite getitem_loc_set_other by reflexivity. unfold D.
    now rewrite getitem_setitem_other by discriminate. }
  assert (Ho : getitem (loc_set D no_pos ["PORCENTAJE_PAGADO_FINAL"] VNull)
                 "CU_precioOrdinario_def__c" = Ok ordinario).
  { rewrite getitem_loc_set_other by reflexivity. unfold D.
    now rewrite getitem_setitem_other by discriminate. }
  destruct (porcentaje_run _ _ _ Ha Ho H_num_a H_num_o)
    as (pct' & no_pos' & Hpct' & Hno' & Hrun').
  rewrite Hrun'. rewrite Hpct in Hpct'. injection Hpct' as <-.
  rewrite Hno in Hno'. injection Hno' as <-. f_equal.
  assert (Hp : forall c, In c ["PORCENTAJE_PAGADO_FINAL"] -> has_col D c = true)
    by (intros c [<- | []]; exact HD).
  rewrite (loc_set_present D) by exact Hp.
  rewrite loc_set_present.
  2:{ intros c [<- | []]. rewrite has_col_setitem. reflexivity. }
  unfold setitem at 1 2. cbn [index columns]. f_equal.
  apply loc_map_reset. unfold D. cbn [columns setitem]. apply assoc_set_same.
Qed.

(** ** Dropping columns with too many missing values *)

Lemma has_col_filter_names (p : string * Series -> bool) (df : DataFrame)
    (c : string) :
  mem c (map fst (filter p (columns df))) = true <->
  exists s, In (c, s) (columns df) /\ p (c, s) = true.
Proof.
  rewrite mem_In, in_map_iff. split.
  - intros ([c' s] & <- & Hp). apply filter_In in Hp. eauto.
  - intros (s & Hin & Hp). exists (c, s). split; [reflexivity|].
    now apply filter_In.
Qed.

Lemma supera_umbral_In (df : DataFrame) (umbral : float) (c : string) :
  supera_umbral df umbral c = true <->
  exists s, In (c, s) (columns df) /\
            PrimFloat.ltb umbral (porcentaje_na (nrows df) s) = true.
Proof.
  unfold supera_umbral. rewrite existsb_exists. split.
  - intros ([c' s] & Hin & Hp). cbn [fst snd] in Hp.
    apply andb_true_iff in Hp as [E Hp]. apply String.eqb_eq in E. subst c'.
    eauto.
  - intros (s & Hin & Hp). exists (c, s). split; [exact Hin|].
    cbn [fst snd]. now rewrite String.eqb_refl, Hp.
Qed.

(** The labels the function drops are labels of the table, so the drop
    succeeds; what stays are the columns whose label is not above the
    threshold. *)
Lemma eliminar_columnas_na_run (df : DataFrame) (umbral : float) :
  eliminar_columnas_na df umbral =
  Ok (mkDF (index df)
        (filter (fun cs => negb (supera_umbral df umbral (fst cs))) (columns df))).
Proof.
  unfold eliminar_columnas_na, drop_columns. cbv zeta.
  rewrite filter_none.
  - f_equal. f_equal. apply filter_ext. intros [c s]. cbn [fst]. f_equal.
    apply eq_true_iff_eq. rewrite mem_In, supera_umbral_In, in_map_iff. split.
    + intros ([c' s'] & <- & Hp). apply filter_In in Hp. eauto.
    + intros (s' & Hin & Hp). exists (c, s'). split; [reflexivity|].
      now apply filter_In.
  - intros c Hc. apply negb_false_iff. apply mem_In.
    apply in_map_iff in Hc as ([c' s] & <- & Hp). apply filter_In in Hp as [Hp _].
    apply in_map_iff. now exists (c', s).
Qed.

Lemma supera_umbral_filtered (df : DataFrame) (umbral : float) (c : string) :
  supera_umbral
    (mkDF (index df)
       (filter (fun cs => negb (supera_umbral df umbral (fst cs))) (columns df)))
    umbral c = false.
Proof.
  apply not_true_is_false. intros Hs. apply supera_umbral_In in Hs as (s & Hin & Hp).
  cbn [columns] in Hin. apply filter_In in Hin as [Hin Hn].
  cbn [fst] in Hn. apply negb_true_iff in Hn.
  assert (Ht : supera_umbral df umbral c = true)
    by (apply supera_umbral_In; eauto).
  congruence.
Qed.

(** X15: [eliminar_columnas_na] never raises and only removes columns: the
    row labels stay, a column is kept exactly when no column of its name has
    more than [umbral] percent of missing values, and the kept columns keep
    their cells. *)
Theorem eliminar_columnas_na_solo_elimina (df : DataFrame) (umbral : float) :
  exists out,
    eliminar_columnas_na df umbral = Ok out /\
    index out = index df /\
    (forall c, has_col out c =
               (has_col df c && negb (supera_umbral df umbral c))%bool) /\
    (forall c, has_col out c = true -> getitem out c = getitem df c).
Proof.
  eexists. split; [apply eliminar_columnas_na_run|]. split; [reflexivity|].
  assert (Hhas : forall c,
            has_col (mkDF (index df)
                       (filter (fun cs => negb (supera_umbral df umbral (fst cs)))
                          (columns df))) c =
            (has_col df c && negb (supera_umbral df umbral c))%bool).
  { intros c. apply eq_true_iff_eq. unfold has_col at 1, colnames.
    cbn [columns]. rewrite has_col_filter_names, andb_true_iff. cbn [fst].
    unfold has_col, colnames. rewrite mem_In, in_map_iff. split.
    - intros (s & Hin & Hp). split; [now exists (c, s) | exact Hp].
    - intros [([c' s] & <- & Hin) Hp]. eauto. }
  split; [exact Hhas|].
  intros c Hc. rewrite Hhas in Hc. apply andb_true_iff in Hc as [_ Hc].
  unfold getitem. cbn [columns].
  now rewrite (assoc_filter_keep c (fun c => negb (supera_umbral df umbral c))).
Qed.

(** X16: dropping again with the same threshold removes nothing more. *)
Theorem eliminar_columnas_na_idempotente (df out : DataFrame) (umbral : float)
    (H_run : eliminar_columnas_na df umbral = Ok out) :
  eliminar_columnas_na out umbral = Ok out.
Proof.
  rewrite eliminar_columnas_na_run in H_run. injection H_run as <-.
  rewrite eliminar_columnas_na_run. cbn [index columns]. do 2 f_equal.
  apply filter_all. intros [c s] _. cbn [fst].
  now rewrite supera_umbral_filtered.
Qed.

Lemma ltb_nan_r (x y : float) :
  PrimFloat.is_nan y = true -> PrimFloat.ltb x y = false.
Proof.
  intros Hy. apply is_nan_Prim2SF in Hy. rewrite ltb_spec, Hy.
  now destruct (Prim2SF x).
Qed.

Lemma ltb_nan_l (x y : float) :
  PrimFloat.is_nan x = true -> PrimFloat.ltb x y = false.
Proof.
  intros Hx. apply is_nan_Prim2SF in Hx. now rewrite ltb_spec, Hx.
Qed.

Lemma well_formed_empty (df : DataFrame) (c : string) (s : Series) :
  well_formed df -> nrows df = 0 -> In (c, s) (columns df) -> s = [].
Proof.
  intros Hwf Hn Hin. unfold well_formed in Hwf. rewrite Forall_forall in Hwf.
  specialize (Hwf _ Hin). cbn [snd] in Hwf. rewrite Hn in Hwf.
  now destruct s.
Qed.

(** X17: on a table without rows [eliminar_columnas_na] of [utils.py]
    removes no column, whatever the threshold: the percentage of every
    column is NaN, which is above no threshold. *)
Theorem eliminar_columnas_na_tabla_vacia (df : DataFrame) (umbral : float)
    (H_wf : well_formed df) (H_vacia : nrows df = 0) :
  eliminar_columnas_na df umbral = Ok df.
Proof.
  rewrite eliminar_columnas_na_run.
  rewrite filter_all; [now destruct df|].
  intros [c s] Hin. cbn [fst]. apply negb_true_iff, not_true_is_false.
  intros Hs. apply supera_umbral_In in Hs as (s' & Hin' & Hp).
  rewrite (well_formed_empty _ _ _ H_wf H_vacia Hin'), H_vacia in Hp.
  rewrite ltb_nan_r in Hp; [discriminate | reflexivity].
Qed.

(** X18: the script's own [eliminar_columnas_na] behaves the other way on a
    table without rows: the fraction of every column is NaN, which is below no
    threshold, so every column is removed. *)
Theorem eliminar_columnas_na_script_tabla_vacia (df : DataFrame) (umbral : float)
    (H_wf : well_formed df) (H_vacia : nrows df = 0) :
  Limpieza.eliminar_columnas_na df umbral = mkDF (index df) [].
Proof.
  unfold Limpieza.eliminar_columnas_na. f_equal.
  apply filter_none. intros [c s] Hin. cbn [snd].
  rewrite (well_formed_empty _ _ _ H_wf H_vacia Hin), H_vacia.
  apply ltb_nan_l. reflexivity.
Qed.

(** ** The admission deadline *)

(** X19: the cleaned deadline column has one text cell per row, always one
    of the four categories and never missing; the category is Rolling
    exactly on the rows whose deadline is missing; the other columns are
    unchanged. *)
Theorem plazo_admision_limpio_categorias `{PyLib} (repr : value -> string)
    (df_unido : DataFrame) (plazo : Series)
    (H_plazo : getitem df_unido "PL_PLAZO_ADMISION" = Ok plazo) :
  exists out,
    Limpieza.plazo_admision_limpio repr df_unido = Ok out /\
    index out = index df_unido /\
    (forall c, c <> "PLAZO_ADMISION_LIMPIO" ->
               getitem out c = getitem df_unido c) /\
    forall i x, nth_error plazo i = Some x ->
      exists t,
        cell out "PLAZO_ADMISION_LIMPIO" i = Some (VStr t) /\
        In t ["Rolling"; "Diciembre"; "Marzo"; "Otros"] /\
        (t = "Rolling" <-> isna x = true).
Proof.
  unfold Limpieza.plazo_admision_limpio. rewrite H_plazo. cbn [bind].
  eexists. split; [reflexivity|]. split; [reflexivity|]. split.
  - intros c Hc. now apply getitem_setitem_other.
  - intros i x Hx. rewrite cell_setitem_same, (map_nth_error _ _ _ Hx).
    eexists. split; [reflexivity|]. unfold Limpieza.normalizar_plazo.
    destruct (isna x).
    + split; [simpl; tauto | tauto].
    + cbv zeta.
      destruct (contains_at _ "dic");
        [|destruct (contains_at _ "mar")];
        (split; [simpl; tauto | split; discriminate]).
Qed.

(** ** The milestone cleaning on a principal table with distinct identifiers *)

(** What valid inputs of the milestone cleaning provide. *)
Lemma entrada_hitos_columnas `{PyLib} (df_historial df_principal : DataFrame) :
  entrada_hitos_valida df_historial df_principal ->
  exists lk etapa subetapa created created' ids,
    getitem df_historial "LK_Oportunidad__c" = Ok lk /\
    getitem df_historial "PL_Etapa__c" = Ok etapa /\
    getitem df_historial "PL_Subetapa__c" = Ok subetapa /\
    getitem df_historial "CreatedDate" = Ok created /\
    to_datetime created = Ok created' /\
    getitem df_principal "ID" = Ok ids /\
    well_formed df_historial /\
    Forall (fun v => is_text v = true) lk /\
    has_col df_historial "fecha_pruebas_calificadas" = false /\
    has_col df_historial "fecha_matricula_iniciada" = false /\
    has_col df_principal "fecha_pruebas_calificadas" = false /\
    has_col df_principal "fecha_matricula_iniciada" = false /\
    (forall c, has_col df_principal c = true -> has_col df_historial c = false).
Proof.
  intros (Hcols & Hid & Hwf & Htext & _ & [created' Hconv] & Hnames & Hdisj).
  cbn [forallb columnas_historial columnas_hito] in Hcols, Hnames.
  rewrite !andb_true_iff in Hcols, Hnames.
  destruct Hcols as (Hc & He & Hs & Hl & _).
  destruct Hnames as ((Ha & Hpa) & (Hec & Hpe) & _).
  apply negb_true_iff in Ha, Hpa, Hec, Hpe.
  apply has_col_getitem in Hc as [created Hc], He as [etapa He],
      Hs as [subetapa Hs], Hl as [lk Hl], Hid as [ids Hid].
  rewrite (getitem_column_or_empty _ _ _ Hl) in Htext.
  rewrite (getitem_column_or_empty _ _ _ Hc) in Hconv.
  exists lk, etapa, subetapa, created, created', ids.
  repeat split; try assumption.
  - now apply forallb_text.
  - intros c Hp. apply negb_true_iff.
    rewrite forallb_forall in Hdisj. apply Hdisj. now apply mem_In.
Qed.

(** X20: when the identifiers of the principal table are present and
    distinct, the milestone cleaning returns exactly one row per history
    row, in the order of the history. *)
Theorem limpiar_una_fila_por_evento `{PyLib}
    (df_historial df_principal : DataFrame)
    (H_valida : entrada_hitos_valida df_historial df_principal)
    (H_wf : well_formed df_principal)
    (H_distintos : NoDup (column_or_empty df_principal "ID"))
    (H_presentes : Forall (fun v => is_key v = true)
                     (column_or_empty df_principal "ID")) :
  exists t,
    limpiar_historial_por_hitos df_historial df_principal = Ok t /\
    nrows (df_final t) = nrows df_historial /\
    forall r, r < nrows df_historial ->
      cell (df_final t) "LK_Oportunidad__c" r
      = Some (celda df_historial "LK_Oportunidad__c" r) /\
      cell (df_final t) "CreatedDate" r
      = Some (fecha_de (celda df_historial "CreatedDate" r)).
Proof.
  destruct (entrada_hitos_columnas _ _ H_valida)
    as (lk & etapa & subetapa & created & created' & ids & Hl & He & Hs & Hc
        & Hconv & Hid & Hwf & Htext & Ha & Hec & Hpa & Hpe & Hdisj).
  destruct (limpiar_filas df_historial df_principal lk etapa subetapa created
              created' ids Hl He Hs Hc Hconv Hid Hwf Htext Ha Hec Hpa Hpe Hdisj)
    as (t & Hrun & Hn & _ & Hrows).
  cbv zeta in Hn, Hrows.
  assert (Hfst : map fst (filas_unidas df_historial df_principal)
                 = seq 0 (nrows df_historial)).
  { unfold filas_unidas.
    rewrite <- (well_formed_length _ _ _ H_wf Hid).
    rewrite (getitem_column_or_empty _ _ _ Hid) in *.
    rewrite (getitem_column_or_empty _ _ _ Hl).
    apply (left_lookup lk ids (fun v => v) (nrows df_historial)
             H_distintos H_presentes).
    intros i _. apply (nth_Forall_default (fun v => is_key_or_null v = true));
      [reflexivity | now apply text_key_or_null]. }
  exists t. split; [exact Hrun|]. split.
  - rewrite Hn, <- (length_map fst), Hfst. apply length_seq.
  - intros r Hr.
    assert (Hnth : nth_error (map fst (filas_unidas df_historial df_principal)) r
                   = Some r).
    { rewrite Hfst, (nth_error_nth' _ 0) by now rewrite length_seq.
      now rewrite seq_nth. }
    rewrite nth_error_map in Hnth.
    destruct (nth_error (filas_unidas df_historial df_principal) r)
      as [[i oj]|] eqn:Ef; [|discriminate].
    cbn [option_map fst] in Hnth. injection Hnth as ->.
    destruct (Hrows r r oj Ef) as (_ & _ & _ & _ & HL & HC & _). auto.
Qed.

(** ** Rows without a timestamp *)

(** X21: a master row whose timestamp is missing gets zero in both
    counters: no activity is earlier than a missing date. *)
Theorem sin_fecha_sin_actividades `{PyLib} (df_master df_actividades : DataFrame)
    (H_valida : entrada_valida df_master df_actividades) :
  exists r,
    integrar_actividades_progresivo_por_curso df_master df_actividades = Ok r /\
    forall i, i < nrows df_master ->
      fecha_de (celda df_master "CreatedDate" i) = VNull ->
      cell (resultado r) "num_asistencias_acum" i = Some (VInt 0) /\
      cell (resultado r) "num_solicitudes_acum" i = Some (VInt 0).
Proof.
  destruct (entrada_valida_cuenta _ _ H_valida) as (r & Hrun & _ & _ & _ & Hc).
  exists r. split; [exact Hrun|]. intros i Hi Hnull.
  destruct (Hc i Hi) as [HA HS]. rewrite HA, HS. unfold cuenta_previa.
  assert (Hno : forall j, actividad_previa df_master df_actividades i j = false).
  { intros j. unfold actividad_previa. rewrite Hnull.
    destruct (fecha_de (celda df_actividades "CreatedDate" j));
      now rewrite andb_false_r. }
  rewrite !filter_none; [split; reflexivity | |]; intros j _; now rewrite Hno.
Qed.


(** ** A name shared by the history and the principal table *)

Lemma no_suffix_created (suffix c : string) :
  suffix = "_x" \/ suffix = "_y" -> (c ++ suffix)%string <> "CreatedDate".
Proof.
  intros [-> | ->];
    do 12 (destruct c as [|? c]; [cbn; discriminate|]); cbn; discriminate.
Qed.

Section LimpiarColision.

Context `{PyLib}.
Variables (df_historial df_principal : DataFrame).
Variables (lk etapa subetapa created created' ids : Series).
Hypothesis H_lk : getitem df_historial "LK_Oportunidad__c" = Ok lk.
Hypothesis H_etapa : getitem df_historial "PL_Etapa__c" = Ok etapa.
Hypothesis H_sub : getitem df_historial "PL_Subetapa__c" = Ok subetapa.
Hypothesis H_created : getitem df_historial "CreatedDate" = Ok created.
Hypothesis H_conv : to_datetime created = Ok created'.
Hypothesis H_ids : getitem df_principal "ID" = Ok ids.
Hypothesis H_wf : well_formed df_historial.
Hypothesis H_text : Forall (fun v => is_text v = true) lk.
Hypothesis H_acad : has_col df_historial "fecha_pruebas_calificadas" = false.
Hypothesis H_econ : has_col df_historial "fecha_matricula_iniciada" = false.
Hypothesis H_pacad : has_col df_principal "fecha_pruebas_calificadas" = false.
Hypothesis H_pcreated : has_col df_principal "CreatedDate" = true.

Lemma limpiar_colision :
  limpiar_historial_por_hitos df_historial df_principal =
  Raise (KeyError ["CreatedDate"]).
Proof.
  unfold limpiar_historial_por_hitos. rewrite H_created. cbn [bind].
  rewrite H_conv. cbn [bind].
  pose proof (union1_eq df_historial lk etapa subetapa created created'
                H_lk H_etapa H_sub H_created H_conv H_wf H_text H_acad) as E1.
  pose proof (union2_eq df_historial lk etapa subetapa created created'
                H_lk H_etapa H_sub H_created H_conv H_wf H_text H_econ) as E2.
  rewrite (hito_eq df_historial lk etapa subetapa created' H_lk H_etapa H_sub)
    in E1, E2 |- *.
  cbn [bind] in E1, E2 |- *.
  rewrite (hito_eq df_historial lk etapa subetapa created' H_lk H_etapa H_sub).
  cbn [bind]. rewrite E1. cbn [bind]. rewrite E2. cbn [bind].
  match goal with
  | |- context [bind (merge ?U df_principal ?l ?r Left) _] =>
      pose proof (has_col_union2 df_historial lk etapa subetapa created') as HU;
      destruct (merge_colnames U df_principal "LK_Oportunidad__c" "ID" lk ids Left
                  (union2_lk df_historial lk etapa subetapa created' H_lk) H_ids)
        as (D & Em & Hn);
      set (union2 := U) in *
  end.
  rewrite Em. cbn [bind]. clear E1 E2 Em.
  cbn [String.eqb Ascii.eqb Bool.eqb mem existsb negb] in Hn.
  rewrite (filter_all (fun _ => true)) in Hn by reflexivity.
  fold (colnames df_principal) in Hn.
  set (ov := filter (fun c => mem c (colnames df_principal)) (colnames union2))
    in Hn.
  assert (Hov : mem "CreatedDate" ov = true).
  { unfold ov. rewrite mem_filter. fold (has_col union2 "CreatedDate").
    rewrite HU. exact H_pcreated. }
  assert (Hf1 : has_col D "fecha_pruebas_calificadas" = true).
  { unfold has_col. rewrite Hn, mem_app. apply orb_true_iff. left.
    apply mem_In, in_map_iff. exists "fecha_pruebas_calificadas". split.
    - unfold suffixed, ov. rewrite mem_filter.
      fold (has_col df_principal "fecha_pruebas_calificadas").
      now rewrite H_pacad, andb_false_r.
    - apply mem_In. fold (has_col union2 "fecha_pruebas_calificadas").
      rewrite HU. now rewrite orb_true_r. }
  assert (Hcd : has_col D "CreatedDate" = false).
  { unfold has_col. rewrite Hn, mem_app. apply orb_false_iff.
    split; apply mem_map_false; intros c Hc E; unfold suffixed in E;
      destruct (mem c ov) eqn:Ec;
      try (apply (no_suffix_created _ c) in E; [exact E | auto]);
      subst c; congruence. }
  unfold mask_hito.
  destruct (getitem_cases D "fecha_pruebas_calificadas") as [[-> _]|[_ Hx]];
    [|congruence].
  cbn [bind].
  destruct (getitem_cases D "CreatedDate") as [[_ Hx]|[-> _]]; [congruence|].
  reflexivity.
Qed.

End LimpiarColision.

(** X22: a principal table that has a column [CreatedDate] of its own makes
    the milestone cleaning fail: the join gives both columns a suffix, and
    the comparison with the milestone raises a [KeyError] naming
    [CreatedDate]. *)
Theorem limpiar_rechaza_created_date_repetida `{PyLib}
    (df_historial df_principal : DataFrame)
    (H_colision : entrada_hitos_con_colision df_historial df_principal) :
  limpiar_historial_por_hitos df_historial df_principal =
  Raise (KeyError ["CreatedDate"]).
Proof.
  destruct H_colision
    as (Hcols & Hid & Hpc & Hwf & Htext & _ & [created' Hconv] & Hnames & _).
  cbn [forallb columnas_historial columnas_hito] in Hcols, Hnames.
  rewrite !andb_true_iff in Hcols, Hnames.
  destruct Hcols as (Hc & He & Hs & Hl & _).
  destruct Hnames as ((Ha & Hpa) & (Hec & _) & _).
  apply negb_true_iff in Ha, Hpa, Hec.
  apply has_col_getitem in Hc as [created Hc], He as [etapa He],
      Hs as [subetapa Hs], Hl as [lk Hl], Hid as [ids Hid].
  rewrite (getitem_column_or_empty _ _ _ Hl) in Htext.
  rewrite (getitem_column_or_empty _ _ _ Hc) in Hconv.
  exact (limpiar_colision df_historial df_principal lk etapa subetapa created
           created' ids Hl He Hs Hc Hconv Hid Hwf (forallb_text _ Htext)
           Ha Hec Hpa Hpc).
Qed.

(** ** Fields stay released after the milestone *)

(** An opportunity has one milestone date per stage and sub-stage. *)
Lemma primer_hito_unico `{PyLib} (df_historial : DataFrame)
    (etapa subetapa : string) (k v1 v2 : value) :
  primer_hito df_historial etapa subetapa k v1 ->
  primer_hito df_historial etapa subetapa k v2 -> v1 = v2.
Proof.
  destruct v1 as [| | | |d1], v2 as [| | | |d2]; cbn; try tauto.
  - intros H1 [[j Hj] _]. now destruct (H1 j d2).
  - intros [[j Hj] _] H2. now destruct (H2 j d1).
  - intros [[j1 Hj1] Hm1] [[j2 Hj2] Hm2].
    specialize (Hm1 _ _ Hj2). specialize (Hm2 _ _ Hj1). f_equal. lia.
Qed.

(** A row that is not before the milestone is followed by rows that are not
    before it. *)
Lemma antes_del_hito_mono (d1 d2 : Z) (hito : value) :
  (d1 <= d2)%Z ->
  antes_del_hito (VTime d1) hito = false ->
  antes_del_hito (VTime d2) hito = false.
Proof.
  unfold antes_del_hito. intros Hle H1.
  apply orb_false_iff in H1 as [Hna Hlt]. rewrite Hna. cbn [orb].
  destruct hito; cbn in *; try reflexivity.
  apply Z.ltb_ge in Hlt. apply Z.ltb_ge. lia.
Qed.

(** X23: on valid inputs with text keys and without integers in the
    academic and economic columns, a field released on a row stays
    released: when an academic or
    economic column holds a value on a result row, it holds the joined value
    of the principal table (it is not blanked) on every result row of the
    same opportunity created at the same time or later. *)
Theorem limpiar_liberacion_monotona `{PyLib}
    (df_historial df_principal : DataFrame)
    (H_valida : entrada_hitos_valida df_historial df_principal)
    (H_tipada : entrada_hitos_tipada df_historial df_principal = true) :
  exists t,
    limpiar_historial_por_hitos df_historial df_principal = Ok t /\
    forall r1 r2 i1 i2 oj1 oj2 d1 d2 c v,
      nth_error (filas_unidas df_historial df_principal) r1 = Some (i1, oj1) ->
      nth_error (filas_unidas df_historial df_principal) r2 = Some (i2, oj2) ->
      celda df_historial "LK_Oportunidad__c" i1 =
      celda df_historial "LK_Oportunidad__c" i2 ->
      fecha_de (celda df_historial "CreatedDate" i1) = VTime d1 ->
      fecha_de (celda df_historial "CreatedDate" i2) = VTime d2 ->
      (d1 <= d2)%Z ->
      In c cols_academicas \/ In c cols_economicas ->
      cell (df_final t) c r1 = Some v -> isna v = false ->
      cell (df_final t) c r2 =
      Some (valor_unido df_historial df_principal c i2 oj2).
Proof.
  destruct (entrada_hitos_columnas _ _ H_valida)
    as (lk & etapa & subetapa & created & created' & ids & Hl & He & Hs & Hc
        & Hconv & Hid & Hwf & Htext & Ha & Hec & Hpa & Hpe & Hdisj).
  destruct (limpiar_filas df_historial df_principal lk etapa subetapa created
              created' ids Hl He Hs Hc Hconv Hid Hwf Htext Ha Hec Hpa Hpe Hdisj)
    as (t & Hrun & _ & _ & Hrows).
  cbv zeta in Hrows.
  exists t. split; [exact Hrun|].
  intros r1 r2 i1 i2 oj1 oj2 d1 d2 c v Hr1 Hr2 Hk Hd1 Hd2 Hle Hcol Hv Hnn.
  destruct (Hrows _ _ _ Hr1) as (a1 & e1 & Pa1 & Pe1 & _ & _ & _ & _ & Ca1 & Ce1).
  destruct (Hrows _ _ _ Hr2) as (a2 & e2 & Pa2 & Pe2 & _ & _ & _ & _ & Ca2 & Ce2).
  rewrite Hk in Pa1, Pe1.
  rewrite (primer_hito_unico _ _ _ _ _ _ Pa1 Pa2) in Ca1.
  rewrite (primer_hito_unico _ _ _ _ _ _ Pe1 Pe2) in Ce1.
  rewrite Hd1 in Ca1, Ce1. rewrite Hd2 in Ca2, Ce2.
  destruct Hcol as [Hin | Hin].
  - rewrite (Ca1 _ Hin) in Hv. rewrite (Ca2 _ Hin).
    destruct (antes_del_hito (VTime d1) a2) eqn:E1.
    + injection Hv as <-. discriminate.
    + now rewrite (antes_del_hito_mono d1 d2 a2 Hle E1).
  - rewrite (Ce1 _ Hin) in Hv. rewrite (Ce2 _ Hin).
    destruct (antes_del_hito (VTime d1) e2) eqn:E1.
    + injection Hv as <-. discriminate.
    + now rewrite (antes_del_hito_mono d1 d2 e2 Hle E1).
Qed.

(** ** The theorems at sample tables *)


Lemma crear_target_zero_division_witness :
  crear_target ejemplo_oportunidad ejemplo_historial_sin_matricula =
  Raise ZeroDivisionError.
Proof.
  apply (crear_target_zero_division ejemplo_oportunidad
           ejemplo_historial_sin_matricula
           [VStr "e1"] [VStr "Solicitud"] [VStr "Abierta"]
           eq_refl eq_refl eq_refl).
  intros x (i & Hx & Hs & He).
  destruct i as [|i]; [discriminate Hs|].
  destruct i; discriminate Hs.
Defined.

Lemma porcentaje_pagado_final_guard_witness :
  exists out,
    porcentaje_pagado_final ejemplo_precios_enteros = Ok out /\
    cell out "PORCENTAJE_PAGADO_FINAL" 0 = Some (VFloat 25) /\
    cell out "PORCENTAJE_PAGADO_FINAL" 1 = Some VNull /\
    cell out "PORCENTAJE_PAGADO_FINAL" 2 = Some VNull.
Proof.
  destruct (porcentaje_pagado_final_guard ejemplo_precios_enteros
              [VInt 50; VInt 1; VInt 7] [VInt 200; VInt 0; VInt (-4)]
              eq_refl eq_refl eq_refl eq_refl)
    as (out & Hout & Hrows).
  exists out. split; [exact Hout|]. split; [|split].
  - exact (proj2 (Hrows 0 (VInt 50) (VInt 200) 50%float 200%float
                    eq_refl eq_refl eq_refl eq_refl) eq_refl).
  - exact (proj1 (Hrows 1 (VInt 1) (VInt 0) 1%float 0%float
                    eq_refl eq_refl eq_refl eq_refl) eq_refl).
  - exact (proj1 (Hrows 2 (VInt 7) (VInt (-4)) 7%float (-4)%float
                    eq_refl eq_refl eq_refl eq_refl) eq_refl).
Defined.

Lemma control_leakage_idempotent_witness :
  exists out,
    control_leakage ejemplo_definitivo = Ok out /\
    control_leakage out = Ok out.
Proof.
  exact (control_leakage_idempotent ejemplo_definitivo
           [VStr "Solicitud"; VStr "Matrícula"; VStr "Pruebas"] eq_refl).
Defined.

Lemma calcular_tiempos_etapas_correct_witness :
  exists t,
    calcular_tiempos_etapas (H := ascii_lib) ejemplo_historial = Ok t /\
    cell (historial_con_tiempos t) "tiempo_etapa_dias" 0 = Some (VInt 1).
Proof.
  destruct (calcular_tiempos_etapas_correct (H := ascii_lib) ejemplo_historial
              [VStr "b"; VStr "a"; VStr "a"]
              [VInt 0; VInt 200000000000000; VInt 5]
              [VNull; VTime 400000000000000; VTime 86400000000005]
              [VTime 0; VTime 200000000000000; VTime 5]
              [VNull; VTime 400000000000000; VTime 86400000000005]
              eq_refl eq_refl eq_refl eq_refl eq_refl
              ltac:(repeat constructor) ltac:(repeat constructor))
    as (t & orden & Ht & _).
  exists t. split; [exact Ht|].
  vm_compute in Ht. injection Ht as <-. reflexivity.
Defined.

Lemma ejemplo_entrada_valida :
  entrada_valida (H := ascii_lib) ejemplo_master ejemplo_actividades.
Proof.
  repeat split; try reflexivity.
  - repeat constructor.
  - eexists. vm_compute. reflexivity.
  - eexists. vm_compute. reflexivity.
  - repeat constructor; simpl; intuition discriminate.
Defined.

Lemma integrar_fallos_witness :
  entrada_bien_tipada (H := ascii_lib) ejemplo_master_sin_id ejemplo_actividades /\
  well_formed ejemplo_actividades /\
  integrar_actividades_progresivo_por_curso (H := ascii_lib)
    ejemplo_master_sin_id ejemplo_actividades = Raise (KeyError ["ID18__PC"]).
Proof.
  assert (Ht : entrada_bien_tipada (H := ascii_lib) ejemplo_master_sin_id
                 ejemplo_actividades).
  { repeat split; try reflexivity; eexists; vm_compute; reflexivity. }
  assert (Hw : well_formed ejemplo_actividades) by repeat constructor.
  split; [exact Ht|]. split; [exact Hw|].
  destruct (proj1 (integrar_fallos (H := ascii_lib) ejemplo_master_sin_id
                     ejemplo_actividades Ht Hw)
              (ex_intro _ "ID18__PC"
                 (or_introl (conj (or_intror (or_introl eq_refl)) eq_refl))))
    as (e & He & names & -> & _).
  rewrite He. pose proof He as He'. vm_compute in He'.
  injection He' as <-. reflexivity.
Defined.

Lemma efectos_sobre_el_llamador_witness :
  exists r,
    integrar_actividades_progresivo_por_curso (H := ascii_lib)
      ejemplo_master ejemplo_actividades = Ok r /\
    df_actividades_del_llamador r = ejemplo_actividades /\
    index (df_master_del_llamador r) = index ejemplo_master.
Proof.
  eexists. split; [vm_compute; reflexivity|].
  destruct (proj2 (efectos_sobre_el_llamador (H := ascii_lib))
              ejemplo_master ejemplo_actividades _
              ltac:(vm_compute; reflexivity)) as (Ha & Hi & _).
  split; [exact Ha | exact Hi].
Defined.

Lemma ejemplo_hitos_valida :
  entrada_hitos_valida (H := ascii_lib) ejemplo_historial_hitos ejemplo_principal.
Proof.
  repeat split; try reflexivity.
  - repeat constructor.
  - eexists. vm_compute. reflexivity.
Defined.

(** ** The further properties at sample tables *)

Lemma crear_target_coincide_con_auditado_witness :
  exists out,
    crear_target ejemplo_oportunidad ejemplo_historial = Ok out /\
    crear_target_auditado ejemplo_oportunidad ejemplo_historial = Ok out.
Proof.
  eexists. split; [reflexivity|].
  apply (crear_target_coincide_con_auditado ejemplo_oportunidad
           ejemplo_historial _ [VStr "a"; VStr "b"; VStr "c"] eq_refl);
    [repeat constructor | reflexivity].
Defined.

Lemma etiquetador_solo_escribe_target_witness :
  exists out,
    crear_target ejemplo_oportunidad ejemplo_historial = Ok out /\
    index out = index ejemplo_oportunidad /\
    getitem out "ID" = getitem ejemplo_oportunidad "ID".
Proof.
  eexists. split; [reflexivity|].
  destruct (etiquetador_solo_escribe_target ejemplo_oportunidad
              ejemplo_historial _ (or_introl eq_refl)) as (Hi & Hc & _).
  split; [exact Hi | apply Hc; discriminate].
Defined.

Lemma etiquetador_idempotente_witness :
  exists out,
    crear_target ejemplo_oportunidad ejemplo_historial = Ok out /\
    crear_target out ejemplo_historial = Ok out.
Proof.
  eexists. split; [reflexivity|].
  apply (proj1 (etiquetador_idempotente ejemplo_oportunidad ejemplo_historial _)).
  reflexivity.
Defined.

Lemma tiempos_enteros_y_espera_no_negativa_witness :
  exists t g,
    calcular_tiempos_etapas (H := ascii_lib) ejemplo_historial = Ok t /\
    cell (historial_con_tiempos t) "tiempo_entre_etapas_dias" 0 = Some (VInt g) /\
    (0 <= g)%Z.
Proof.
  destruct (tiempos_enteros_y_espera_no_negativa (H := ascii_lib)
              ejemplo_historial
              [VStr "b"; VStr "a"; VStr "a"]
              [VInt 0; VInt 200000000000000; VInt 5]
              [VNull; VTime 400000000000000; VTime 86400000000005]
              [VTime 0; VTime 200000000000000; VTime 5]
              [VNull; VTime 400000000000000; VTime 86400000000005]
              eq_refl eq_refl eq_refl eq_refl eq_refl
              ltac:(repeat constructor) ltac:(repeat constructor))
    as (t & Ht & _ & Hrows).
  destruct (Hrows 0 ltac:(repeat constructor)) as (d & g & _ & Hg & Hpos).
  exists t, g. auto.
Defined.

Lemma calcular_tiempos_etapas_idempotente_witness :
  exists t,
    calcular_tiempos_etapas (H := ascii_lib) ejemplo_historial = Ok t /\
    calcular_tiempos_etapas (H := ascii_lib) (historial_con_tiempos t) =
    Ok (mkTiempos (historial_con_tiempos t) (historial_con_tiempos t)).
Proof.
  eexists. split; [vm_compute; reflexivity|].
  apply (calcular_tiempos_etapas_idempotente (H := ascii_lib)
           ejemplo_historial
           [VStr "b"; VStr "a"; VStr "a"]
           [VInt 0; VInt 200000000000000; VInt 5]
           [VNull; VTime 400000000000000; VTime 86400000000005]
           [VTime 0; VTime 200000000000000; VTime 5]
           [VNull; VTime 400000000000000; VTime 86400000000005]
           _ eq_refl eq_refl eq_refl eq_refl eq_refl
           ltac:(repeat constructor)).
  vm_compute. reflexivity.
Defined.

Lemma limpiar_efecto_sobre_el_llamador_witness :
  exists t,
    limpiar_historial_por_hitos (H := ascii_lib)
      ejemplo_historial_hitos ejemplo_principal = Ok t /\
    getitem (df_historial_del_llamador t) "PL_Etapa__c"
    = getitem ejemplo_historial_hitos "PL_Etapa__c".
Proof.
  eexists. split; [vm_compute; reflexivity|].
  destruct (limpiar_efecto_sobre_el_llamador (H := ascii_lib)
              ejemplo_historial_hitos ejemplo_principal _
              ltac:(vm_compute; reflexivity)) as (_ & Hc & _).
  apply Hc. discriminate.
Defined.

Lemma ejemplo_progresivo_valido :
  entrada_valida (H := ascii_lib) ejemplo_master_progresivo ejemplo_actividades.
Proof.
  repeat split; try reflexivity.
  - repeat constructor.
  - eexists. vm_compute. reflexivity.
  - eexists. vm_compute. reflexivity.
  - repeat constructor; simpl; intuition discriminate.
Defined.

Lemma contadores_progresivos_witness :
  entrada_valida (H := ascii_lib) ejemplo_master_progresivo ejemplo_actividades /\
  exists r x x',
    integrar_actividades_progresivo_por_curso (H := ascii_lib)
      ejemplo_master_progresivo ejemplo_actividades = Ok r /\
    cell (resultado r) "num_asistencias_acum" 0 = Some (VInt x) /\
    cell (resultado r) "num_asistencias_acum" 1 = Some (VInt x') /\
    (x <= x')%Z.
Proof.
  split; [exact ejemplo_progresivo_valido|].
  destruct (contadores_progresivos (H := ascii_lib) ejemplo_master_progresivo
              ejemplo_actividades ejemplo_progresivo_valido) as (r & Hr & Hmono).
  destruct (Hmono 0 1 4%Z 10%Z ltac:(repeat constructor) ltac:(repeat constructor)
              eq_refl eq_refl eq_refl eq_refl ltac:(lia)
              "num_asistencias_acum" (or_introl eq_refl))
    as (x & x' & H0 & H1 & Hle).
  exists r, x, x'. auto.
Defined.

Lemma contadores_excluyentes_witness :
  entrada_valida (H := ascii_lib) ejemplo_master ejemplo_actividades /\
  exists r x y,
    integrar_actividades_progresivo_por_curso (H := ascii_lib)
      ejemplo_master ejemplo_actividades = Ok r /\
    cell (resultado r) "num_asistencias_acum" 0 = Some (VInt x) /\
    cell (resultado r) "num_solicitudes_acum" 0 = Some (VInt y) /\
    (x + y <= 2)%Z.
Proof.
  split; [exact ejemplo_entrada_valida|].
  destruct (contadores_excluyentes (H := ascii_lib) ejemplo_master
              ejemplo_actividades ejemplo_entrada_valida) as (r & Hr & Hex).
  destruct (Hex 0 ltac:(repeat constructor)) as (x & y & HA & HS & _ & _ & Hle).
  exists r, x, y. repeat split; assumption.
Defined.

Lemma integrar_conserva_el_maestro_witness :
  entrada_admisible (H := ascii_lib) ejemplo_master ejemplo_actividades /\
  exists r,
    integrar_actividades_progresivo_por_curso (H := ascii_lib)
      ejemplo_master ejemplo_actividades = Ok r /\
    cell (resultado r) "ID18__PC" 1 = Some (VStr "B") /\
    has_col (resultado r) "MasterDate" = false.
Proof.
  split; [exact (proj1 ejemplo_entrada_valida)|].
  destruct (integrar_conserva_el_maestro (H := ascii_lib) ejemplo_master
              ejemplo_actividades (proj1 ejemplo_entrada_valida))
    as (r & Hr & _ & Hc & _ & Hm).
  exists r. split; [exact Hr|]. split; [|exact Hm].
  exact (Hc "ID18__PC" 1 eq_refl ltac:(discriminate) ltac:(repeat constructor)).
Defined.

Lemma integrar_rechaza_sus_contadores_witness :
  exists r,
    integrar_actividades_progresivo_por_curso (H := ascii_lib)
      ejemplo_master ejemplo_actividades = Ok r /\
    integrar_actividades_progresivo_por_curso (H := ascii_lib)
      (resultado r) ejemplo_actividades =
    Raise (KeyError ["num_asistencias_acum"; "num_solicitudes_acum"]).
Proof.
  eexists. split; [vm_compute; reflexivity|].
  apply (integrar_rechaza_sus_contadores (H := ascii_lib)).
  repeat split; try reflexivity; eexists; vm_compute; reflexivity.
Defined.

Lemma control_leakage_sin_pagos_tempranos_witness :
  exists out v,
    control_leakage ejemplo_definitivo = Ok out /\
    cell out "PAID_AMOUNT" 0 = Some v /\ isna v = true.
Proof.
  destruct (control_leakage_sin_pagos_tempranos ejemplo_definitivo
              [VStr "Solicitud"; VStr "Matrícula"; VStr "Pruebas"] eq_refl
              ltac:(repeat constructor)) as (out & Hrun & Hrows).
  destruct (Hrows 0 "Solicitud" "PAID_AMOUNT" eq_refl
              ltac:(simpl; tauto) ltac:(simpl; tauto) eq_refl) as (v & Hv & Hna).
  exists out, v. auto.
Defined.


Lemma porcentaje_ausente_sin_precio_witness :
  exists out,
    porcentaje_pagado_final ejemplo_definitivo = Ok out /\
    cell out "PORCENTAJE_PAGADO_FINAL" 2 = Some VNull.
Proof.
  destruct (porcentaje_ausente_sin_precio ejemplo_definitivo
              [VFloat 50; VFloat 1; VNull] [VFloat 200; VFloat 0; VFloat 3]
              eq_refl eq_refl
              ltac:(repeat constructor) ltac:(repeat constructor))
    as (out & Hout & Hrows).
  exists out. split; [exact Hout|].
  exact (Hrows 2 VNull (VFloat 3) eq_refl eq_refl (or_introl eq_refl)).
Defined.

Lemma porcentaje_pagado_final_idempotente_witness :
  exists out,
    porcentaje_pagado_final ejemplo_definitivo = Ok out /\
    porcentaje_pagado_final out = Ok out.
Proof.
  eexists. split; [vm_compute; reflexivity|].
  apply (porcentaje_pagado_final_idempotente ejemplo_definitivo _
           [VFloat 50; VFloat 1; VNull] [VFloat 200; VFloat 0; VFloat 3]
           eq_refl eq_refl
           ltac:(repeat constructor) ltac:(repeat constructor)).
  vm_compute. reflexivity.
Defined.

Lemma eliminar_columnas_na_idempotente_witness :
  exists out,
    eliminar_columnas_na ejemplo_con_na 90 = Ok out /\
    has_col out "A" = false /\ has_col out "B" = true /\
    eliminar_columnas_na out 90 = Ok out.
Proof.
  eexists. split; [vm_compute; reflexivity|].
  split; [reflexivity|]. split; [reflexivity|].
  apply (eliminar_columnas_na_idempotente ejemplo_con_na).
  vm_compute. reflexivity.
Defined.

Lemma eliminar_columnas_na_tabla_vacia_witness :
  eliminar_columnas_na ejemplo_vacio 90 = Ok ejemplo_vacio.
Proof.
  apply eliminar_columnas_na_tabla_vacia; [repeat constructor | reflexivity].
Defined.

Lemma eliminar_columnas_na_script_tabla_vacia_witness :
  Limpieza.eliminar_columnas_na ejemplo_vacio 0.5 = mkDF [] [].
Proof.
  apply (eliminar_columnas_na_script_tabla_vacia ejemplo_vacio);
    [repeat constructor | reflexivity].
Defined.

Lemma plazo_admision_limpio_categorias_witness :
  exists out,
    Limpieza.plazo_admision_limpio (H := ascii_lib) (fun _ => "") ejemplo_plazos
    = Ok out /\
    getitem out "PLAZO_ADMISION_LIMPIO"
    = Ok [VStr "Diciembre"; VStr "Rolling"; VStr "Marzo"] /\
    getitem out "PL_PLAZO_ADMISION" = getitem ejemplo_plazos "PL_PLAZO_ADMISION".
Proof.
  destruct (plazo_admision_limpio_categorias (H := ascii_lib) (fun _ => "")
              ejemplo_plazos
              [VStr " Diciembre "; VNull; VStr "MARZO"] eq_refl)
    as (out & Hout & _ & Hc & _).
  exists out. split; [exact Hout|]. split; [|apply Hc; discriminate].
  vm_compute in Hout. injection Hout as <-. reflexivity.
Defined.

Lemma limpiar_una_fila_por_evento_witness :
  exists t,
    limpiar_historial_por_hitos (H := ascii_lib)
      ejemplo_historial_hitos ejemplo_principal = Ok t /\
    nrows (df_final t) = nrows ejemplo_historial_hitos.
Proof.
  destruct (limpiar_una_fila_por_evento (H := ascii_lib)
              ejemplo_historial_hitos ejemplo_principal ejemplo_hitos_valida
              ltac:(repeat constructor)
              ltac:(repeat constructor; simpl; intuition discriminate)
              ltac:(repeat constructor))
    as (t & Ht & Hn & _).
  exists t. auto.
Defined.

Lemma ejemplo_sin_fecha_valido :
  entrada_valida (H := ascii_lib) ejemplo_master_sin_fecha ejemplo_actividades.
Proof.
  repeat split; try reflexivity.
  - repeat constructor.
  - eexists. vm_compute. reflexivity.
  - eexists. vm_compute. reflexivity.
  - repeat constructor; simpl; intuition discriminate.
Defined.

Lemma sin_fecha_sin_actividades_witness :
  entrada_valida (H := ascii_lib) ejemplo_master_sin_fecha ejemplo_actividades /\
  exists r,
    integrar_actividades_progresivo_por_curso (H := ascii_lib)
      ejemplo_master_sin_fecha ejemplo_actividades = Ok r /\
    cell (resultado r) "num_asistencias_acum" 0 = Some (VInt 0).
Proof.
  split; [exact ejemplo_sin_fecha_valido|].
  destruct (sin_fecha_sin_actividades (H := ascii_lib) ejemplo_master_sin_fecha
              ejemplo_actividades ejemplo_sin_fecha_valido) as (r & Hr & Hrows).
  exists r. split; [exact Hr|].
  exact (proj1 (Hrows 0 ltac:(repeat constructor) eq_refl)).
Defined.

Lemma limpiar_rechaza_created_date_repetida_witness :
  entrada_hitos_con_colision (H := ascii_lib)
    ejemplo_historial_hitos ejemplo_principal_con_fecha /\
  limpiar_historial_por_hitos (H := ascii_lib)
    ejemplo_historial_hitos ejemplo_principal_con_fecha =
  Raise (KeyError ["CreatedDate"]).
Proof.
  assert (Hv : entrada_hitos_con_colision (H := ascii_lib)
                 ejemplo_historial_hitos ejemplo_principal_con_fecha).
  { repeat split; try reflexivity.
    - repeat constructor.
    - eexists. vm_compute. reflexivity. }
  split; [exact Hv|].
  exact (limpiar_rechaza_created_date_repetida (H := ascii_lib)
           ejemplo_historial_hitos ejemplo_principal_con_fecha Hv).
Defined.

Lemma limpiar_liberacion_monotona_witness :
  exists t,
    limpiar_historial_por_hitos (H := ascii_lib)
      ejemplo_historial_hitos ejemplo_principal = Ok t /\
    cell (df_final t) "NU_NOTA_MEDIA_ADMISION" 1 = Some (VFloat 7) /\
    cell (df_final t) "NU_NOTA_MEDIA_ADMISION" 3 = Some (VFloat 7).
Proof.
  destruct (limpiar_liberacion_monotona (H := ascii_lib)
              ejemplo_historial_hitos ejemplo_principal ejemplo_hitos_valida
              eq_refl)
    as (t & Ht & Hmono).
  exists t. split; [exact Ht|].
  assert (H1 : cell (df_final t) "NU_NOTA_MEDIA_ADMISION" 1 = Some (VFloat 7)).
  { vm_compute in Ht. injection Ht as <-. reflexivity. }
  split; [exact H1|].
  exact (Hmono 1 3 1 3 (Some 0) (Some 0) 30%Z 40%Z "NU_NOTA_MEDIA_ADMISION"
           (VFloat 7) eq_refl eq_refl eq_refl eq_refl eq_refl
           ltac:(lia) (or_introl (or_introl eq_refl)) H1 eq_refl).
Defined.

Lemma contadores_de_cada_fila_witness :
  entrada_valida (H := ascii_lib) ejemplo_master ejemplo_actividades /\
  exists r,
    integrar_actividades_progresivo_por_curso (H := ascii_lib)
      ejemplo_master ejemplo_actividades = Ok r /\
    getitem (resultado r) "num_asistencias_acum" = Ok [VInt 1; VInt 0] /\
    getitem (resultado r) "num_solicitudes_acum" = Ok [VInt 1; VInt 0] /\
    exists asisten,
      (forall j, In j asisten <->
                 actividad_contada (H := ascii_lib) ejemplo_master
                   ejemplo_actividades ["asiste"] 0 j) /\
      length asisten = 1.
Proof.
  split; [exact ejemplo_entrada_valida|].
  destruct (contadores_de_cada_fila (H := ascii_lib) ejemplo_master ejemplo_actividades
              ejemplo_entrada_valida) as (r & Hr & Hrows).
  exists r. split; [exact Hr|].
  destruct (Hrows 0 ltac:(repeat constructor))
    as (asisten & solicitan & _ & _ & HA & _ & CA & _).
  pose proof Hr as Hr'. vm_compute in Hr'. injection Hr' as <-.
  split; [reflexivity|]. split; [reflexivity|].
  exists asisten. split; [exact HA|].
  cbn in CA. injection CA as CA. lia.
Defined.
